(** * ContextLinc: the context engine, the generation gateway and the
      embedding service, embedded in Rocq.

    The development follows the TypeScript sources of the API worker
    (services/contextEngine, services/aiService, routes/context) and of the
    file-processor worker (services/embeddingService,
    processors/multiModalProcessor).

    Conventions of the embedding.
    - JavaScript strings are Rocq strings: sequences of 8-bit code units.
      [String.length] is the [.length] of the source for such text.
    - JavaScript numbers that the code uses as counters are [nat] or [Z];
      scores and confidences are exact rationals ([Q]), so the arithmetic of
      the source is read over the rationals and not over binary64.
    - Values of TypeScript type [any] (database rows, parsed JSON) are values
      of the type [json]; [undefined] is [None] in [option json].
    - What a provider answers keeps its run-time type, whatever type the
      source declares for it: a chat back end returns a [Returned], whose
      content and model are [option json], and [AIResponse] is the declared
      type, on which [calculateConfidence] is stated.
    - Conversions follow ECMAScript (module [Coercion]): a template literal
      converts with [ToString], which throws on an object whose own
      [toString] is not a function; [v > n] converts with [ToNumber] and
      compares the binary64 value.  The [+] of two values of an answer is
      kept as the pair of its operands.
    - [async] methods run in the monad [M]: a state-and-exception monad over
      the record [world], which counts clock reads and logs every outgoing
      [fetch].  The state survives a [throw], as it does in JavaScript.
    - The database, the network and the clock are the record [Env]; every
      statement holds for all of them.
    - Console output, request headers (API keys) and timers have no effect on
      the values computed and are left out. *)

From Stdlib Require Import String Ascii List ZArith QArith Qminmax Lia Lqa Bool.
From Stdlib Require Import DecimalString.
From Stdlib Require Decimal DecimalPos.
Import ListNotations.
Set Warnings "-register-all,-abstract-large-number".
Close Scope Q_scope.
Open Scope list_scope.
Open Scope string_scope.
Open Scope nat_scope.

(* ===================================================================== *)
(** ** Strings, as the source uses them *)
(* ===================================================================== *)

Module JSString.

(** [WhiteSpace] and [LineTerminator] code units below 256: the characters
    matched by [\s] and removed by [String.prototype.trim]. *)
Definition is_space (c : ascii) : bool :=
  let n := nat_of_ascii c in
  (n =? 9) || (n =? 10) || (n =? 11) || (n =? 12) || (n =? 13)
  || (n =? 32) || (n =? 160).

(** [s.startsWith(p)] *)
Fixpoint startsWith (s p : string) : bool :=
  match p, s with
  | EmptyString, _ => true
  | String a p', String b s' => Ascii.eqb a b && startsWith s' p'
  | String _ _, EmptyString => false
  end.

(** [s.includes(sub)] *)
Fixpoint includes (s sub : string) : bool :=
  startsWith s sub
  || match s with
     | EmptyString => false
     | String _ s' => includes s' sub
     end.

(** [s.split(sep)] for a one-character separator. *)
Fixpoint split (sep : ascii) (s : string) : list string :=
  match s with
  | EmptyString => [EmptyString]
  | String c s' =>
      if Ascii.eqb c sep then EmptyString :: split sep s'
      else match split sep s' with
           | h :: t => String c h :: t
           | [] => [String c EmptyString]
           end
  end.

Definition lower_char (c : ascii) : ascii :=
  let n := nat_of_ascii c in
  if ((65 <=? n) && (n <=? 90))
     || ((192 <=? n) && (n <=? 222) && negb (n =? 215))
  then ascii_of_nat (n + 32) else c.

(** [s.toLowerCase()] *)
Fixpoint toLowerCase (s : string) : string :=
  match s with
  | EmptyString => EmptyString
  | String c s' => String (lower_char c) (toLowerCase s')
  end.

Fixpoint trimStart (s : string) : string :=
  match s with
  | EmptyString => EmptyString
  | String c s' => if is_space c then trimStart s' else s
  end.

Fixpoint trimEnd (s : string) : string :=
  match s with
  | EmptyString => EmptyString
  | String c s' =>
      match trimEnd s' with
      | EmptyString => if is_space c then EmptyString else String c EmptyString
      | r => String c r
      end
  end.

(** [s.trim()] *)
Definition trim (s : string) : string := trimEnd (trimStart s).

(** [s.substring(0, n)] *)
Fixpoint take (n : nat) (s : string) : string :=
  match n, s with
  | O, _ => EmptyString
  | S _, EmptyString => EmptyString
  | S n', String c s' => String c (take n' s')
  end.

(** [parts.join(sep)] *)
Fixpoint join (sep : string) (parts : list string) : string :=
  match parts with
  | [] => EmptyString
  | [p] => p
  | p :: rest => p ++ sep ++ join sep rest
  end.

(** Decimal rendering of an integer, as [String(n)] gives it. *)
Definition of_Z (z : Z) : string := NilZero.string_of_int (Z.to_int z).
Definition of_nat (n : nat) : string := of_Z (Z.of_nat n).

End JSString.

(* ===================================================================== *)
(** ** JSON values and the dynamic operations of JavaScript on them *)
(* ===================================================================== *)

Module JSON.
Import JSString.

(** A number written as [mant / 10^scale].  Every numeric literal of the
    sources and every integer column of the database has this form. *)
Inductive json : Type :=
| JNull
| JBool (b : bool)
| JNum (mant : Z) (scale : nat)
| JStr (s : string)
| JArr (items : list json)
| JObj (fields : list (string * json)).

Definition JInt (z : Z) : json := JNum z 0.
Definition JNat (n : nat) : json := JNum (Z.of_nat n) 0.

(** The rational a number denotes. *)
Definition num_value (mant : Z) (scale : nat) : Q :=
  Qmake mant (Pos.of_nat (10 ^ scale)).

(** Truthiness ([!!v]); [undefined] is falsy. *)
Definition truthy (v : json) : bool :=
  match v with
  | JNull => false
  | JBool b => b
  | JNum m _ => negb (m =? 0)%Z
  | JStr s => negb (String.eqb s EmptyString)
  | JArr _ | JObj _ => true
  end.

Definition truthy_opt (v : option json) : bool :=
  match v with
  | None => false
  | Some j => truthy j
  end.

Fixpoint lookup (k : string) (fields : list (string * json)) : option json :=
  match fields with
  | [] => None
  | (k', v) :: rest => if String.eqb k k' then Some v else lookup k rest
  end.

(** [v.k] for an identifier [k] and a value [v] that is neither [undefined]
    nor [null].  Object literals and parsed objects have distinct keys. *)
Definition prop (v : json) (k : string) : option json :=
  match v with
  | JObj fields => lookup k fields
  | JArr items =>
      if String.eqb k "length" then Some (JNat (List.length items)) else None
  | JStr s =>
      if String.eqb k "length" then Some (JNat (String.length s)) else None
  | JNull | JBool _ | JNum _ _ => None
  end.

(** [v?.k] *)
Definition get_opt (v : option json) (k : string) : option json :=
  match v with
  | None | Some JNull => None
  | Some j => prop j k
  end.

(** [v || d] *)
Definition or_else (v : option json) (d : json) : json :=
  match v with
  | Some j => if truthy j then j else d
  | None => d
  end.

(** Drop trailing zeros of the fraction: 0.50 and 0.5 print alike. *)
Fixpoint normalise (mant : Z) (scale : nat) : Z * nat :=
  match scale with
  | O => (mant, O)
  | S scale' =>
      if (mant mod 10 =? 0)%Z then normalise (mant / 10)%Z scale'
      else (mant, scale)
  end.

Fixpoint zeros (n : nat) : string :=
  match n with
  | O => EmptyString
  | S n' => String "0" (zeros n')
  end.

(** [String(x)] for a number of magnitude between 1e-6 and 1e21, where
    JavaScript prints plain decimal notation. *)
Definition number_to_string (mant : Z) (scale : nat) : string :=
  let '(m, sc) := normalise mant scale in
  match sc with
  | O => of_Z m
  | S _ =>
      let p := (10 ^ Z.of_nat sc)%Z in
      let a := Z.abs m in
      let frac := of_Z (a mod p) in
      (if (m <? 0)%Z then "-" else EmptyString)
      ++ of_Z (a / p) ++ "."
      ++ zeros (sc - String.length frac) ++ frac
  end.

Definition hex_digit (n : nat) : ascii :=
  ascii_of_nat (if n <? 10 then 48 + n else 87 + n).

Definition dquote : ascii := ascii_of_nat 34.

(** One code unit inside a JSON string literal. *)
Definition escape_char (c : ascii) : string :=
  let n := nat_of_ascii c in
  if n =? 34 then String (ascii_of_nat 92) (String dquote EmptyString)
  else if n =? 92 then "\\"
  else if n =? 8 then "\b"
  else if n =? 9 then "\t"
  else if n =? 10 then "\n"
  else if n =? 12 then "\f"
  else if n =? 13 then "\r"
  else if n <? 32 then
    "\u00" ++ String (hex_digit (n / 16)) (String (hex_digit (n mod 16)) EmptyString)
  else String c EmptyString.

Fixpoint escape (s : string) : string :=
  match s with
  | EmptyString => EmptyString
  | String c s' => escape_char c ++ escape s'
  end.

Definition quote (s : string) : string :=
  String dquote (escape s ++ String dquote EmptyString).

(** [JSON.stringify(v)] *)
Fixpoint stringify (v : json) : string :=
  match v with
  | JNull => "null"
  | JBool true => "true"
  | JBool false => "false"
  | JNum m sc => number_to_string m sc
  | JStr s => quote s
  | JArr items => "[" ++ join "," (map stringify items) ++ "]"
  | JObj fields =>
      "{" ++ join "," (map (fun kv => quote (fst kv) ++ ":" ++ stringify (snd kv))
                           fields) ++ "}"
  end.

(** An object literal some of whose properties may be [undefined]:
    [JSON.stringify] leaves those properties out. *)
Fixpoint object_of (fields : list (string * option json)) : list (string * json) :=
  match fields with
  | [] => []
  | (k, Some v) :: rest => (k, v) :: object_of rest
  | (_, None) :: rest => object_of rest
  end.

(** [String(v)], the conversion a template literal applies.  Inside an
    array, [null] prints as the empty string. *)
Fixpoint to_string (v : json) : string :=
  match v with
  | JNull => "null"
  | JBool true => "true"
  | JBool false => "false"
  | JNum m sc => number_to_string m sc
  | JStr s => s
  | JArr items =>
      join "," (map (fun i => match i with
                              | JNull => EmptyString
                              | _ => to_string i
                              end) items)
  | JObj _ => "[object Object]"
  end.

Definition to_string_opt (v : option json) : string :=
  match v with
  | None => "undefined"
  | Some j => to_string j
  end.

(** [items.join(sep)] *)
Definition join_items (sep : string) (items : list json) : string :=
  join sep (map (fun i => match i with
                          | JNull => EmptyString
                          | _ => to_string i
                          end) items).

End JSON.

(* ===================================================================== *)
(** ** The host: exceptions, the clock, the D1 database and [fetch] *)
(* ===================================================================== *)

Module Host.
Import JSON.

(** A thrown [Error]; only its [message] is ever observed. *)
Record error : Type := Error { message : string }.

Inductive outcome (A : Type) : Type :=
| Ret (a : A)
| Throw (e : error).
Arguments Ret {A} a.
Arguments Throw {A} e.

(** A [TypeError] of the runtime (property read on [undefined] or [null],
    call of something that is not a function).  Its message depends on the
    engine; the embedding fixes one text. *)
Definition TypeError : error := Error "TypeError".

(** [v.k]: reading a property of [undefined] or [null] throws. *)
Definition get (v : option json) (k : string) : outcome (option json) :=
  match v with
  | None | Some JNull => Throw TypeError
  | Some j => Ret (prop j k)
  end.

(** [v[0]] *)
Definition at0 (v : option json) : outcome (option json) :=
  match v with
  | None | Some JNull => Throw TypeError
  | Some (JArr items) => Ret (hd_error items)
  | Some (JStr (String c _)) => Ret (Some (JStr (String c EmptyString)))
  | Some (JObj fields) => Ret (lookup "0" fields)
  | Some _ => Ret None
  end.

(** Sequencing of synchronous code that may throw. *)
Definition and_then {A B} (o : outcome A) (k : A -> outcome B) : outcome B :=
  match o with
  | Ret a => k a
  | Throw e => Throw e
  end.

Inductive endpoint : Type :=
| OpenAIChat          (* https://api.openai.com/v1/chat/completions *)
| AnthropicMessages   (* https://api.anthropic.com/v1/messages *)
| VoyageEmbeddings    (* https://api.voyageai.com/v1/embeddings *)
| OpenAIEmbeddings.   (* https://api.openai.com/v1/embeddings *)

Record request : Type := Request { url : endpoint; body : json }.

(** What [await fetch(...)] gives: the promise rejects, or a response with
    its [ok] flag, [status], [text()] and [json()] ([None] when the body is
    not JSON and [json()] throws). *)
Inductive response : Type :=
| Rejected (e : error)
| Response (ok : bool) (status : nat) (text : string) (parsed : option json).

(** The prepared statements of the context engine, with their bindings. *)
Inductive query : Type :=
| SelectPreferences (user_id : string)
| SelectSessionStats (session_id : string)
| SelectRecentInteractions (session_id : string)
| SelectFileContext (file_ids : list string) (user_id : string)
| CountFiles (user_id : string).

(** A row of table [memory] (database/schema.sql). *)
Inductive MemoryType : Type := short_term | medium_term | long_term.

Record MemoryRow : Type := {
  memory_id : string;
  memory_user_id : string;
  memory_session_id : option string;
  memory_type : MemoryType;
  memory_content : string;
  memory_summary : option string;
  memory_embeddings : option string;
  memory_relevance_score : Q;
  memory_access_count : nat;
  memory_expires_at : option string
}.

(** The environment of one worker invocation.  [memory] holds the rows of
    table [memory].  A statement may throw ([None]); [first()] gives a row or
    [null]; [all()] gives an object whose [results] may be missing.  The
    answer of [fetch] may depend on how many requests went out before.
    [JSON_parse] is the built-in [JSON.parse]. *)
Record Env : Type := {
  memory : list MemoryRow;
  db_first : query -> option (option json);
  db_all : query -> option (option (list json));
  JSON_parse : string -> option json;
  fetch : nat -> request -> response;
  date_now : nat -> Z;
  date_iso : nat -> string
}.

(** The state a run threads: clock reads so far, requests sent so far. *)
Record world : Type := World { ticks : nat; calls : list request }.

Definition M (A : Type) : Type := world -> outcome A * world.

Definition ret {A} (a : A) : M A := fun w => (Ret a, w).

Definition bind {A B} (m : M A) (k : A -> M B) : M B :=
  fun w => match m w with
           | (Ret a, w') => k a w'
           | (Throw e, w') => (Throw e, w')
           end.

Definition throw {A} (e : error) : M A := fun w => (Throw e, w).

(** [try { m } catch (e) { h e }] *)
Definition try_catch {A} (m : M A) (h : error -> M A) : M A :=
  fun w => match m w with
           | (Ret a, w') => (Ret a, w')
           | (Throw e, w') => h e w'
           end.

(** A synchronous computation that may throw, run inside [M]. *)
Definition lift {A} (o : outcome A) : M A := fun w => (o, w).

Definition initial : world := World 0 [].

End Host.

Declare Scope js_scope.
Delimit Scope js_scope with js.
Notation "x <- m ;; k" := (Host.bind m (fun x => k))
  (at level 100, m at next level, right associativity) : js_scope.
Notation "m ;;; k" := (Host.bind m (fun _ => k))
  (at level 100, right associativity) : js_scope.
Notation "x <~ o ;; k" := (Host.and_then o (fun x => k))
  (at level 100, o at next level, right associativity) : js_scope.
Open Scope js_scope.

(* ===================================================================== *)
(** ** Conversions of the language: [String(v)], [Number(v)], [v > n] *)
(* ===================================================================== *)

Module Coercion.
Import JSString JSON Host.

(** [String(v)] succeeds.  An object parsed from JSON or written as a
    literal carries no function; with an own property [toString] the
    conversion finds nothing to call and throws a [TypeError], without one it
    gives "[object Object]".  An array converts its elements, [null] apart. *)
Fixpoint convertible (v : json) : bool :=
  match v with
  | JArr items => forallb convertible items
  | JObj fields => negb (existsb (fun kv => String.eqb (fst kv) "toString") fields)
  | JNull | JBool _ | JNum _ _ | JStr _ => true
  end.

(** [String(v)], the conversion a template literal, [join] and [+] apply. *)
Definition ToString (v : json) : outcome string :=
  if convertible v then Ret (to_string v) else Throw TypeError.

(** [`${v}`] for a value that may be [undefined]. *)
Definition text (v : option json) : outcome string :=
  match v with
  | None => Ret "undefined"
  | Some j => ToString j
  end.

(** A numeric value as it is written, before it is rounded to binary64. *)
Inductive number : Type :=
| NaN
| Infinity (negative : bool)
| Finite (q : Q).

Definition negate (x : number) : number :=
  match x with
  | NaN => NaN
  | Infinity negative => Infinity (negb negative)
  | Finite q => Finite (- q)%Q
  end.

(** The value of a digit in the given radix. *)
Definition digit (radix : nat) (c : ascii) : option nat :=
  let n := nat_of_ascii c in
  let v := if (48 <=? n) && (n <=? 57) then Some (n - 48)
           else if (97 <=? n) && (n <=? 122) then Some (n - 87)
           else if (65 <=? n) && (n <=? 90) then Some (n - 55)
           else None in
  match v with
  | Some d => if d <? radix then Some d else None
  | None => None
  end.

(** The digits at the front of [s]: the number they continue from [value],
    how many they are, and what follows them. *)
Fixpoint digits (radix : nat) (s : string) (value : Z) (count : nat)
  : Z * nat * string :=
  match s with
  | EmptyString => (value, count, s)
  | String c s' =>
      match digit radix c with
      | Some d => digits radix s' (Z.of_nat radix * value + Z.of_nat d)%Z (S count)
      | None => (value, count, s)
      end
  end.

(** [mant * 10^e] *)
Definition scaled (mant e : Z) : Q :=
  if (0 <=? e)%Z then inject_Z (mant * 10 ^ e)
  else Qmake mant (Z.to_pos (10 ^ (- e))).

(** [ExponentPart], if any, up to the end of the literal. *)
Definition exponent (s : string) : option Z :=
  match s with
  | EmptyString => Some 0%Z
  | String c s' =>
      if Ascii.eqb c "e" || Ascii.eqb c "E" then
        let '(sign, s'') :=
          match s' with
          | String "-" t => ((-1)%Z, t)
          | String "+" t => (1%Z, t)
          | _ => (1%Z, s')
          end in
        match digits 10 s'' 0 0 with
        | (v, S _, EmptyString) => Some (sign * v)%Z
        | _ => None
        end
      else None
  end.

(** [StrUnsignedDecimalLiteral]: [Infinity], or digits with an optional
    fraction and exponent, at least one digit before the exponent. *)
Definition unsigned_decimal (s : string) : number :=
  if String.eqb s "Infinity" then Infinity false
  else
    let '(int, n1, rest) := digits 10 s 0 0 in
    let '(all, n2, rest) :=
      match rest with
      | String "." t => digits 10 t int 0
      | _ => (int, 0, rest)
      end in
    if n1 + n2 =? 0 then NaN
    else match exponent rest with
         | Some e => Finite (scaled all (e - Z.of_nat n2))
         | None => NaN
         end.

(** [StrDecimalLiteral] *)
Definition decimal (s : string) : number :=
  match s with
  | String "+" t => unsigned_decimal t
  | String "-" t => negate (unsigned_decimal t)
  | _ => unsigned_decimal s
  end.

(** [NonDecimalIntegerLiteral] after its prefix. *)
Definition radix_literal (radix : nat) (s : string) : number :=
  match digits radix s 0 0 with
  | (v, S _, EmptyString) => Finite (inject_Z v)
  | _ => NaN
  end.

(** [Number(s)] for a string: white space around the literal is dropped,
    the empty literal is 0, what is no literal is NaN. *)
Definition StringToNumber (s : string) : number :=
  let s := trim s in
  match s with
  | EmptyString => Finite 0
  | String "0" (String c t) =>
      if Ascii.eqb c "x" || Ascii.eqb c "X" then radix_literal 16 t
      else if Ascii.eqb c "o" || Ascii.eqb c "O" then radix_literal 8 t
      else if Ascii.eqb c "b" || Ascii.eqb c "B" then radix_literal 2 t
      else decimal s
  | _ => decimal s
  end.

(** [Number(v)]; an array or an object is converted to a string first. *)
Definition ToNumber (v : option json) : outcome number :=
  match v with
  | None => Ret NaN
  | Some JNull => Ret (Finite 0)
  | Some (JBool b) => Ret (Finite (if b then 1 else 0))
  | Some (JNum m sc) => Ret (Finite (num_value m sc))
  | Some (JStr s) => Ret (StringToNumber s)
  | Some j => s <~ ToString j ;; Ret (StringToNumber s)
  end.

(** Half the distance from the integer [n], [0 <= n < 2^52], to the next
    binary64 value above it. *)
Definition half_gap (n : Z) : Q :=
  if (n =? 0)%Z then Qmake 1 (2 ^ 1075)
  else Qmake 1 (Z.to_pos (2 ^ (53 - Z.log2 n))).

(** The binary64 value nearest to [q] is greater than the integer [n]:
    [q] lies beyond the middle between [n] and its successor (the middle
    itself rounds to [n], whose significand is even). *)
Definition rounds_above (q : Q) (n : Z) : bool :=
  negb (Qle_bool q (inject_Z n + half_gap n)).

(** [v > n] for an integer literal [n], [0 <= n < 2^52]. *)
Definition greater_than (v : option json) (n : Z) : outcome bool :=
  x <~ ToNumber v ;;
  Ret (match x with
       | NaN => false
       | Infinity negative => negb negative
       | Finite q => rounds_above q n
       end).

End Coercion.

Module Effects.
Import JSON Host.

Section WithEnv.
Variable E : Env.

(** [new Date().toISOString()] *)
Definition new_Date_toISOString : M string :=
  fun w => (Ret (date_iso E (ticks w)), World (S (ticks w)) (calls w)).

(** [Date.now()] *)
Definition Date_now : M Z :=
  fun w => (Ret (date_now E (ticks w)), World (S (ticks w)) (calls w)).

(** [await fetch(url, { method: 'POST', body })]: the request is logged
    and the promise settles. *)
Definition do_fetch (r : request) : M response :=
  fun w => (Ret (fetch E (length (calls w)) r),
            World (ticks w) (calls w ++ [r])%list).

(** [await stmt.bind(...).first()] *)
Definition first (q : query) : M (option json) :=
  match db_first E q with
  | Some row => ret row
  | None => throw (Error "D1_ERROR")
  end.

(** [await stmt.bind(...).all()], read at [.results] *)
Definition all (q : query) : M (option (list json)) :=
  match db_all E q with
  | Some rows => ret rows
  | None => throw (Error "D1_ERROR")
  end.

(** [JSON.parse(text)] *)
Definition parse (text : string) : M json :=
  match JSON_parse E text with
  | Some v => ret v
  | None => throw (Error "SyntaxError")
  end.

End WithEnv.
End Effects.


(* ===================================================================== *)
(** ** services/contextEngine: the data model *)
(* ===================================================================== *)

Module User.
Record t : Type := mk {
  id : string;
  email : option string;
  name : option string;
  sessionId : string
}.
End User.

Inductive Status : Type := active | inactive | processing.

Definition Status_eqb (a b : Status) : bool :=
  match a, b with
  | active, active | inactive, inactive | processing, processing => true
  | _, _ => false
  end.

Module ContextLayer.
Record t : Type := mk {
  id : nat;
  name : string;
  status : Status;
  data : JSON.json;
  tokenCount : nat;
  relevanceScore : Q
}.
End ContextLayer.

Module ContextWindow.
Record t : Type := mk {
  layers : list ContextLayer.t;
  activeLayers : list nat;
  relevanceScore : Q;
  tokenCount : nat;
  lastUpdate : string
}.
End ContextWindow.

(* ===================================================================== *)
(** ** services/contextEngine: class ContextEngine *)
(* ===================================================================== *)

Module ContextEngine.
Import JSString JSON Host Effects.

Definition strings (l : list string) : json := JArr (map JStr l).

(** [estimateTokens]: [Math.ceil(text.length / 4)] *)
Definition estimateTokens (text : string) : nat :=
  (String.length text + 3) / 4.

(** [calculateRelevanceScore].  The division is that of [Q]; the source
    divides by [layers.length], which is 11 for every assembled window. *)
Definition calculateRelevanceScore (layers : list ContextLayer.t)
    (userQuery : string) : Q :=
  let activeLayerCount :=
    List.length (filter (fun l => Status_eqb (ContextLayer.status l) active) layers) in
  let weightedScore :=
    fold_left
      (fun sum layer =>
         sum + ContextLayer.relevanceScore layer
               * (if Status_eqb (ContextLayer.status layer) active
                  then 1 else 1 # 10))%Q
      layers 0%Q in
  Qmin (weightedScore / inject_Z (Z.of_nat (List.length layers)))%Q 1%Q.

Definition detectPreferredFormat (userQuery : string) : string :=
  if includes userQuery "code" || includes userQuery "example" then "code"
  else if includes userQuery "list" || includes userQuery "bullet" then "structured"
  else if includes userQuery "explain" || includes userQuery "how" then "markdown"
  else "text".

Definition detectIntent (query : string) : string :=
  if includes query "context" || includes query "layer" then "context-engineering"
  else if includes query "file" || includes query "upload" then "file-processing"
  else if includes query "explain" || includes query "how" then "explanation"
  else if includes query "help" then "assistance"
  else "general".

Definition extractEntities (query : string) : list string :=
  let entities := [] in
  let entities :=
    if includes query "context" then (entities ++ ["context"])%list else entities in
  let entities :=
    if includes query "memory" then (entities ++ ["memory"])%list else entities in
  let entities :=
    if includes query "file" then (entities ++ ["file"])%list else entities in
  entities.

Inductive Complexity : Type := simple | medium | complex.


Definition Complexity_name (c : Complexity) : string :=
  match c with
  | simple => "simple"
  | medium => "medium"
  | complex => "complex"
  end.

Definition assessComplexity (query : string) : Complexity :=
  let wordCount := List.length (split " "%char query) in
  if wordCount <? 5 then simple
  else if wordCount <? 20 then medium
  else complex.

(** The object [analyzeQuery] returns. *)
Record QueryAnalysis : Type := {
  processed : string;
  intent : string;
  entities : list string;
  complexity : Complexity;
  requiresFiles : bool;
  expectedResponseType : string
}.

Definition analyzeQuery (userQuery : string) : M QueryAnalysis :=
  ret {| processed := trim (toLowerCase userQuery);
         intent := detectIntent userQuery;
         entities := extractEntities userQuery;
         complexity := assessComplexity userQuery;
         requiresFiles := includes userQuery "file" || includes userQuery "upload";
         expectedResponseType := detectPreferredFormat userQuery |}.

(** The helpers the source leaves as placeholders. *)
Definition retrieveRelevantDocuments (query : string) : M (list json) := ret [].
Definition getDomainExpertise (query : string) : M json :=
  ret (JObj [("domain", JStr "context-engineering"); ("confidence", JNum 8 1)]).
Definition getCurrentTasks : M (list json) := ret [].
Definition getWorkflowState : M json := ret (JObj [("state", JStr "idle")]).
Definition calculateTaskProgress (tasks : list json) : nat := 0.
Definition getActiveGoals : M (list json) := ret [].
Definition getShortTermMemory : M (list json) := ret [].
Definition getMediumTermMemory : M (list json) := ret [].
Definition searchLongTermMemory (query : string) (limit : nat) : M (list json) := ret [].
Definition getLastToolUsage : M json := ret JNull.
Definition getRelevantExamples (query : string) : M (list json) := ret [].
Definition getFewShotExamples (query : string) : M (list json) := ret [].
Definition getConversationContext : M json := ret (JObj []).
Definition getImmediateContext : M json := ret (JObj []).
Definition getLastInteraction : M json := ret JNull.
Definition getContextSwitches : M nat := ret 0.

Definition getStoredLayers : M (list json) := ret [].
Definition getStoredLayer (layerId : option Z) : M json := ret JNull.
Definition storeLayerConfig (layerId : option Z) (config : json) : M unit := ret tt.
Definition getLongTermMemoryCount : M nat := ret 0.
Definition getTotalMemoryItems : M nat := ret 0.
Definition searchShortTermMemory (query : string) (limit : nat) : M (list json) := ret [].
Definition searchMediumTermMemory (query : string) (limit : nat) : M (list json) := ret [].
Definition searchAllMemory (query : string) (limit : nat) : M (list json) := ret [].
Definition updateShortTermMemory (response : json) : M unit := ret tt.
Definition updateMediumTermMemory (response : json) : M unit := ret tt.
Definition updateContextMetadata (response : json) : M unit := ret tt.
Definition clearShortTermMemory : M unit := ret tt.
Definition clearMediumTermMemory : M unit := ret tt.
Definition clearContextMetadata : M unit := ret tt.
Definition clearAllMemory : M unit := ret tt.
Definition clearAllContextData : M unit := ret tt.
Definition getFileStats : M json := ret (JObj []).
Definition getContextStats : M json := ret (JObj []).
Definition getAnalytics (timeframe : string) : M json := ret (JObj []).

(** [optimizeContext]: the source returns the empty object literal. *)
Definition optimizeContext (targetSize : option json) (preserveLayers : json)
  : M json := ret (JObj []).

Section Engine.
Variable E : Env.
Variable user : User.t.

(** *** Database helpers: every statement sits in a [try]/[catch]. *)

Definition getUserPreferences : M json :=
  try_catch
    (result <- first E (SelectPreferences (User.id user)) ;;
     let preferences := get_opt result "preferences" in
     if truthy_opt preferences
     then parse E (to_string_opt preferences)
     else ret (JObj []))
    (fun _ => ret (JObj [])).

Definition getSessionStats : M json :=
  let none := JObj [("message_count", JInt 0); ("last_activity", JNull)] in
  try_catch
    (result <- first E (SelectSessionStats (User.sessionId user)) ;;
     ret (or_else result none))
    (fun _ => ret none).

Definition getRecentInteractions : M (list json) :=
  try_catch
    (results <- all E (SelectRecentInteractions (User.sessionId user)) ;;
     ret (match results with
          | Some rows => rows
          | None => []
          end))
    (fun _ => ret []).

Definition getFileContext (fileIds : list string) : M (list json) :=
  if List.length fileIds =? 0 then ret []
  else
    try_catch
      (results <- all E (SelectFileContext fileIds (User.id user)) ;;
       ret (match results with
            | Some rows => rows
            | None => []
            end))
      (fun _ => ret []).

Definition getTotalDocumentCount : M json :=
  try_catch
    (result <- first E (CountFiles (User.id user)) ;;
     ret (or_else (get_opt result "count") (JInt 0)))
    (fun _ => ret (JInt 0)).

Definition getLastIndexUpdate : M string := new_Date_toISOString E.
Definition getSessionStart : M string := new_Date_toISOString E.

(** *** The eleven layer builders *)

Definition buildInstructionsLayer : M ContextLayer.t :=
  let instructions := JObj [
    ("constitution", JStr "You are ContextLinc, a next-generation context-aware AI assistant built on the 11-layer Context Window Architecture. You specialize in context engineering and multi-modal processing.");
    ("persona", JStr "Expert AI assistant with deep understanding of context engineering, multi-modal processing, and intelligent conversation management.");
    ("goals", strings [
       "Provide contextually relevant and accurate responses";
       "Demonstrate sophisticated context awareness";
       "Help users understand context engineering principles";
       "Process and analyze multi-modal content effectively"]);
    ("ethicalBoundaries", strings [
       "Maintain user privacy and data security";
       "Provide truthful and accurate information";
       "Respect intellectual property rights";
       "Avoid harmful or inappropriate content"]);
    ("capabilities", strings [
       "Multi-modal file processing (documents, images, videos, audio)";
       "11-layer context window architecture";
       "Three-tier memory system";
       "Dynamic context optimization";
       "Real-time conversation analysis"])] in
  ret (ContextLayer.mk 1 "Instructions" active instructions
         (estimateTokens (stringify instructions)) 1%Q).

Definition buildUserInfoLayer : M ContextLayer.t :=
  userPrefs <- getUserPreferences ;;
  sessionStats <- getSessionStats ;;
  interactionHistory <- getRecentInteractions ;;
  let userInfo := JObj [
    ("userId", JStr (User.id user));
    ("sessionId", JStr (User.sessionId user));
    ("preferences", userPrefs);
    ("sessionStats", sessionStats);
    ("interactionHistory", JArr interactionHistory);
    ("personalization", JObj [
       ("responseStyle",
        or_else (get_opt (Some userPrefs) "responseStyle") (JStr "balanced"));
       ("detailLevel",
        or_else (get_opt (Some userPrefs) "detailLevel") (JStr "medium"));
       ("preferredFormats",
        or_else (get_opt (Some userPrefs) "preferredFormats") (strings ["text"]))])] in
  ret (ContextLayer.mk 2 "User Info" active userInfo
         (estimateTokens (stringify userInfo)) (8 # 10)%Q).

Definition buildKnowledgeLayer (userQuery : string) (files : list string)
  : M ContextLayer.t :=
  retrievedDocs <- retrieveRelevantDocuments userQuery ;;
  fileContext <- getFileContext files ;;
  domainExpertise <- getDomainExpertise userQuery ;;
  totalDocuments <- getTotalDocumentCount ;;
  lastIndexUpdate <- getLastIndexUpdate ;;
  let knowledge := JObj [
    ("retrievedDocuments", JArr retrievedDocs);
    ("fileContext", JArr fileContext);
    ("domainExpertise", domainExpertise);
    ("embeddingMatches", JNat (List.length retrievedDocs));
    ("totalDocuments", totalDocuments);
    ("lastIndexUpdate", JStr lastIndexUpdate)] in
  let isActive := (0 <? List.length retrievedDocs) || (0 <? List.length files) in
  ret (ContextLayer.mk 3 "Knowledge"
         (if isActive then active else inactive) knowledge
         (estimateTokens (stringify knowledge))
         (if isActive then 9 # 10 else 1 # 10)%Q).

Definition buildTaskGoalState : M ContextLayer.t :=
  currentTasks <- getCurrentTasks ;;
  workflowState <- getWorkflowState ;;
  goals <- getActiveGoals ;;
  let taskState := JObj [
    ("currentTask", match currentTasks with
                    | t :: _ => t
                    | [] => JNull
                    end);
    ("activeTasks", JArr currentTasks);
    ("workflowState", workflowState);
    ("progress", JNat (calculateTaskProgress currentTasks));
    ("goals", JArr goals)] in
  let isActive := 0 <? List.length currentTasks in
  ret (ContextLayer.mk 4 "Task/Goal State"
         (if isActive then active else inactive) taskState
         (estimateTokens (stringify taskState))
         (if isActive then 8 # 10 else 2 # 10)%Q).

Definition buildMemoryLayer (userQuery : string) : M ContextLayer.t :=
  shortTermMemory <- getShortTermMemory ;;
  mediumTermMemory <- getMediumTermMemory ;;
  longTermMemory <- searchLongTermMemory userQuery 10 ;;
  let memory := JObj [
    ("shortTerm", JObj [("items", JArr shortTermMemory);
                        ("capacity", JInt 10);
                        ("retention", JStr "1 hour")]);
    ("mediumTerm", JObj [("items", JArr mediumTermMemory);
                         ("capacity", JInt 100);
                         ("retention", JStr "1 session")]);
    ("longTerm", JObj [("items", JArr longTermMemory);
                       ("capacity", JStr "unlimited");
                       ("retention", JStr "persistent")]);
    ("totalItems", JNat (List.length shortTermMemory
                         + List.length mediumTermMemory
                         + List.length longTermMemory))] in
  ret (ContextLayer.mk 5 "Memory" active memory
         (estimateTokens (stringify memory)) (7 # 10)%Q).

Definition tool (name description : string) (capabilities : list string) : json :=
  JObj [("name", JStr name);
        ("description", JStr description);
        ("status", JStr "available");
        ("capabilities", strings capabilities)].

Definition buildToolsLayer : M ContextLayer.t :=
  let availableTools := [
    tool "File Processor" "Multi-modal file processing and analysis"
      ["document parsing"; "image analysis"; "video processing"; "audio transcription"];
    tool "Context Optimizer" "Dynamic context compression and optimization"
      ["context pruning"; "relevance scoring"; "token optimization"];
    tool "Memory Manager" "Three-tier memory system management"
      ["memory storage"; "semantic search"; "memory consolidation"];
    tool "Embedding Generator" "Generate and manage embeddings for content"
      ["text embeddings"; "image embeddings"; "multimodal embeddings"]] in
  lastUsed <- getLastToolUsage ;;
  let tools := JObj [
    ("available", JArr availableTools);
    ("active", JArr []);
    ("totalTools", JNat (List.length availableTools));
    ("lastUsed", lastUsed)] in
  ret (ContextLayer.mk 6 "Tools" inactive tools
         (estimateTokens (stringify tools)) (3 # 10)%Q).

Definition buildExamplesLayer (userQuery : string) : M ContextLayer.t :=
  relevantExamples <- getRelevantExamples userQuery ;;
  fewShotExamples <- getFewShotExamples userQuery ;;
  let total := List.length fewShotExamples + List.length relevantExamples in
  let examples := JObj [
    ("fewShot", JArr fewShotExamples);
    ("relevant", JArr relevantExamples);
    ("total", JNat total);
    ("categories", strings ["context-engineering"; "multi-modal"; "conversation"])] in
  let isActive := 0 <? total in
  ret (ContextLayer.mk 7 "Examples"
         (if isActive then active else inactive) examples
         (estimateTokens (stringify examples))
         (if isActive then 6 # 10 else 1 # 10)%Q).

Definition buildContextLayer : M ContextLayer.t :=
  conversationContext <- getConversationContext ;;
  immediateContext <- getImmediateContext ;;
  sessionStart <- getSessionStart ;;
  lastInteraction <- getLastInteraction ;;
  contextSwitches <- getContextSwitches ;;
  let context := JObj [
    ("conversation", conversationContext);
    ("immediate", immediateContext);
    ("sessionStart", JStr sessionStart);
    ("lastInteraction", lastInteraction);
    ("contextSwitches", JNat contextSwitches)] in
  ret (ContextLayer.mk 8 "Context" active context
         (estimateTokens (stringify context)) (9 # 10)%Q).

Definition buildConstraintsLayer : M ContextLayer.t :=
  let constraints := JObj [
    ("operational", JObj [("maxTokens", JInt 4096);
                          ("responseTimeLimit", JStr "30s");
                          ("concurrentRequests", JInt 10);
                          ("fileSizeLimit", JStr "50MB")]);
    ("safety", JObj [("contentFiltering", JBool true);
                     ("privacyProtection", JBool true);
                     ("harmfulContentDetection", JBool true);
                     ("copyrightRespect", JBool true)]);
    ("quality", JObj [("minConfidenceThreshold", JNum 7 1);
                      ("factualAccuracy", JBool true);
                      ("citationRequired", JBool true);
                      ("biasDetection", JBool true)])] in
  ret (ContextLayer.mk 9 "Constraints" active constraints
         (estimateTokens (stringify constraints)) (5 # 10)%Q).

Definition buildOutputFormatLayer (userQuery : string) : M ContextLayer.t :=
  let detectedFormat := detectPreferredFormat userQuery in
  let outputFormat := JObj [
    ("preferredFormat", JStr detectedFormat);
    ("supportedFormats", strings ["text"; "markdown"; "json"; "code"; "structured"]);
    ("structure", JObj [("includeConfidence", JBool true);
                        ("includeSources", JBool true);
                        ("includeTimestamp", JBool true);
                        ("includeContext", JBool false)]);
    ("style", JObj [("tone", JStr "professional");
                    ("detail", JStr "comprehensive");
                    ("examples", JBool true)])] in
  ret (ContextLayer.mk 10 "Output Format" active outputFormat
         (estimateTokens (stringify outputFormat)) (6 # 10)%Q).

Definition buildUserQueryLayer (userQuery : string) : M ContextLayer.t :=
  queryAnalysis <- analyzeQuery userQuery ;;
  timestamp <- new_Date_toISOString E ;;
  let query := JObj [
    ("original", JStr userQuery);
    ("processed", JStr (processed queryAnalysis));
    ("intent", JStr (intent queryAnalysis));
    ("entities", strings (entities queryAnalysis));
    ("complexity", JStr (Complexity_name (complexity queryAnalysis)));
    ("requiresFiles", JBool (requiresFiles queryAnalysis));
    ("expectedResponseType", JStr (expectedResponseType queryAnalysis));
    ("timestamp", JStr timestamp)] in
  ret (ContextLayer.mk 11 "User Query" active query
         (estimateTokens (stringify query)) 1%Q).

(** *** The assembler *)

Definition buildContextWindow (userQuery : string) (files : list string)
  : M ContextWindow.t :=
  let layers : list ContextLayer.t := [] in
  let totalTokens := 0 in
  (* Layer 1: Instructions *)
  instructionsLayer <- buildInstructionsLayer ;;
  let layers := (layers ++ [instructionsLayer])%list in
  let totalTokens := totalTokens + ContextLayer.tokenCount instructionsLayer in
  (* Layer 2: User Info *)
  userInfoLayer <- buildUserInfoLayer ;;
  let layers := (layers ++ [userInfoLayer])%list in
  let totalTokens := totalTokens + ContextLayer.tokenCount userInfoLayer in
  (* Layer 3: Knowledge *)
  knowledgeLayer <- buildKnowledgeLayer userQuery files ;;
  let layers := (layers ++ [knowledgeLayer])%list in
  let totalTokens := totalTokens + ContextLayer.tokenCount knowledgeLayer in
  (* Layer 4: Task/Goal State *)
  taskStateLayer <- buildTaskGoalState ;;
  let layers := (layers ++ [taskStateLayer])%list in
  let totalTokens := totalTokens + ContextLayer.tokenCount taskStateLayer in
  (* Layer 5: Memory *)
  memoryLayer <- buildMemoryLayer userQuery ;;
  let layers := (layers ++ [memoryLayer])%list in
  let totalTokens := totalTokens + ContextLayer.tokenCount memoryLayer in
  (* Layer 6: Tools *)
  toolsLayer <- buildToolsLayer ;;
  let layers := (layers ++ [toolsLayer])%list in
  let totalTokens := totalTokens + ContextLayer.tokenCount toolsLayer in
  (* Layer 7: Examples *)
  examplesLayer <- buildExamplesLayer userQuery ;;
  let layers := (layers ++ [examplesLayer])%list in
  let totalTokens := totalTokens + ContextLayer.tokenCount examplesLayer in
  (* Layer 8: Context *)
  contextLayer <- buildContextLayer ;;
  let layers := (layers ++ [contextLayer])%list in
  let totalTokens := totalTokens + ContextLayer.tokenCount contextLayer in
  (* Layer 9: Constraints *)
  constraintsLayer <- buildConstraintsLayer ;;
  let layers := (layers ++ [constraintsLayer])%list in
  let totalTokens := totalTokens + ContextLayer.tokenCount constraintsLayer in
  (* Layer 10: Output Format *)
  outputFormatLayer <- buildOutputFormatLayer userQuery ;;
  let layers := (layers ++ [outputFormatLayer])%list in
  let totalTokens := totalTokens + ContextLayer.tokenCount outputFormatLayer in
  (* Layer 11: User Query *)
  userQueryLayer <- buildUserQueryLayer userQuery ;;
  let layers := (layers ++ [userQueryLayer])%list in
  let totalTokens := totalTokens + ContextLayer.tokenCount userQueryLayer in
  let activeLayers :=
    map ContextLayer.id
        (filter (fun layer => Status_eqb (ContextLayer.status layer) active) layers) in
  let relevanceScore := calculateRelevanceScore layers userQuery in
  lastUpdate <- new_Date_toISOString E ;;
  ret (ContextWindow.mk layers activeLayers relevanceScore totalTokens lastUpdate).

(** *** The public helper methods the routes call *)

Definition getLayerData (layerId : option Z) : M json :=
  layer <- getStoredLayer layerId ;;
  ret (or_else (Some layer) (JObj [("error", JStr "Layer not found")])).

Definition updateLayerConfig (layerId : option Z) (updates : json) : M unit :=
  storeLayerConfig layerId updates.

Definition searchMemory (query memoryType : string) (limit : nat) : M (list json) :=
  if String.eqb memoryType "short" then searchShortTermMemory query limit
  else if String.eqb memoryType "medium" then searchMediumTermMemory query limit
  else if String.eqb memoryType "long" then searchLongTermMemory query limit
  else searchAllMemory query limit.

Definition updateContextState (aiResponse : json) : M unit :=
  updateShortTermMemory aiResponse ;;;
  updateMediumTermMemory aiResponse ;;;
  updateContextMetadata aiResponse.

Definition clearContext : M unit :=
  clearShortTermMemory ;;;
  clearMediumTermMemory ;;;
  clearContextMetadata.

Definition resetContext (preserveMemory : bool) : M unit :=
  if preserveMemory then clearContext
  else (clearAllMemory ;;; clearAllContextData).

End Engine.
End ContextEngine.

(* ===================================================================== *)
(** ** services/aiService: class AIService *)
(* ===================================================================== *)

Module AIService.
Import JSString JSON Host Coercion Effects.

(** [interface AIResponse].  [processingTime] holds the elapsed milliseconds;
    the source renders them as [(ms / 1000).toFixed(2) + 's']. *)
Record AIResponse : Type := {
  content : string;
  model : string;
  usage : option json;
  confidence : Q;
  processingTime : Z
}.

Record AIOptions : Type := {
  opt_model : option string;
  maxTokens : option json;
  temperature : option json;
  topP : option json;
  frequencyPenalty : option json;
  presencePenalty : option json
}.

(** The default [options = {}]. *)
Definition no_options : AIOptions :=
  {| opt_model := None; maxTokens := None; temperature := None; topP := None;
     frequencyPenalty := None; presencePenalty := None |}.

(** [options.model || 'gpt-4'] *)
Definition model_of (options : AIOptions) : string :=
  match opt_model options with
  | Some m => if String.eqb m EmptyString then "gpt-4" else m
  | None => "gpt-4"
  end.

Definition nl : string := String (ascii_of_nat 10) EmptyString.

(** [v.join(sep)]: only an array has the method; it converts the elements. *)
Definition call_join (v : option json) (sep : string) : outcome string :=
  match v with
  | Some (JArr items) =>
      _ <~ ToString (JArr items) ;;
      Ret (join_items sep items)
  | _ => Throw TypeError
  end.

(** [v.forEach((item, index) => ...)] appending to the prompt. *)
Fixpoint each (f : nat -> json -> outcome string) (index : nat)
    (items : list json) (prompt : string) : outcome string :=
  match items with
  | [] => Ret prompt
  | item :: rest =>
      line <~ f index item ;;
      each f (S index) rest (prompt ++ line)
  end.

Definition forEach (v : option json) (f : nat -> json -> outcome string)
    (prompt : string) : outcome string :=
  match v with
  | Some (JArr items) => each f 0 items prompt
  | _ => Throw TypeError
  end.

(** [v.slice(0, 3).forEach(...)] *)
Definition slice3_forEach (v : option json) (f : nat -> json -> outcome string)
    (prompt : string) : outcome string :=
  match v with
  | Some (JArr items) => each f 0 (firstn 3 items) prompt
  | _ => Throw TypeError
  end.

(** [v.length > 0] *)
Definition nonempty (v : option json) : outcome bool :=
  len <~ get v "length" ;;
  greater_than len 0.

Definition find_layer (n : nat) (layers : list ContextLayer.t)
  : option ContextLayer.t :=
  find (fun l => ContextLayer.id l =? n) layers.

Definition data_of (l : ContextLayer.t) : option json := Some (ContextLayer.data l).

Definition instructionsSection (prompt : string) (l : ContextLayer.t) : outcome string :=
  constitution <~ get (data_of l) "constitution" ;;
  constitution <~ text constitution ;;
  persona <~ get (data_of l) "persona" ;;
  persona <~ text persona ;;
  capabilities <~ get (data_of l) "capabilities" ;;
  joined <~ call_join capabilities ", " ;;
  Ret (prompt ++ "# System Instructions" ++ nl
       ++ "Constitution: " ++ constitution ++ nl
       ++ "Persona: " ++ persona ++ nl
       ++ "Capabilities: " ++ joined ++ nl ++ nl).

Definition userContextSection (prompt : string) (l : ContextLayer.t) : outcome string :=
  sessionId <~ get (data_of l) "sessionId" ;;
  sessionId <~ text sessionId ;;
  sessionStats <~ get (data_of l) "sessionStats" ;;
  count <~ ToString (or_else (get_opt sessionStats "message_count") (JInt 0)) ;;
  preferences <~ get (data_of l) "preferences" ;;
  let prompt := prompt ++ "# User Context" ++ nl
                ++ "Session: " ++ sessionId ++ nl
                ++ "Interaction Count: " ++ count ++ nl in
  let prompt :=
    match preferences with
    | Some p => if truthy p
                then prompt ++ "Preferences: " ++ stringify p ++ nl
                else prompt
    | None => prompt
    end in
  Ret (prompt ++ nl).

Definition knowledgeSection (prompt : string) (l : ContextLayer.t) : outcome string :=
  retrievedDocuments <~ get (data_of l) "retrievedDocuments" ;;
  some <~ nonempty retrievedDocuments ;;
  if some then
    body <~ forEach retrievedDocuments
              (fun index doc =>
                 content <~ get (Some doc) "content" ;;
                 content <~ text content ;;
                 Ret ("Document " ++ of_nat (index + 1) ++ ": "
                      ++ content ++ nl))
              (prompt ++ "# Relevant Knowledge" ++ nl) ;;
    Ret (body ++ nl)
  else Ret prompt.

Definition fileSection (prompt : string) (l : ContextLayer.t) : outcome string :=
  fileContext <~ get (data_of l) "fileContext" ;;
  some <~ nonempty fileContext ;;
  if some then
    body <~ forEach fileContext
              (fun _ file =>
                 filename <~ get (Some file) "filename" ;;
                 filename <~ text filename ;;
                 file_type <~ get (Some file) "file_type" ;;
                 file_type <~ text file_type ;;
                 extracted_content <~ get (Some file) "extracted_content" ;;
                 content <~ (if truthy_opt extracted_content
                             then shown <~ text extracted_content ;;
                                  Ret ("Content: " ++ shown ++ nl)
                             else Ret EmptyString) ;;
                 Ret ("File: " ++ filename ++ " (" ++ file_type ++ ")" ++ nl
                      ++ content))
              (prompt ++ "# File Context" ++ nl) ;;
    Ret (body ++ nl)
  else Ret prompt.

Definition memorySection (prompt : string) (l : ContextLayer.t) : outcome string :=
  let memory := data_of l in
  shortTerm <~ get memory "shortTerm" ;;
  shortItems <~ get shortTerm "items" ;;
  someShort <~ nonempty shortItems ;;
  prompt <~ (if someShort then
               body <~ forEach shortItems
                         (fun _ item =>
                            type <~ get (Some item) "type" ;;
                            type <~ text type ;;
                            content <~ get (Some item) "content" ;;
                            content <~ text content ;;
                            Ret (type ++ ": " ++ content ++ nl))
                         (prompt ++ "# Recent Conversation Context" ++ nl) ;;
               Ret (body ++ nl)
             else Ret prompt) ;;
  longTerm <~ get memory "longTerm" ;;
  longItems <~ get longTerm "items" ;;
  someLong <~ nonempty longItems ;;
  if someLong then
    body <~ slice3_forEach longItems
              (fun _ item =>
                 summary <~ get (Some item) "summary" ;;
                 summary <~ text summary ;;
                 Ret ("- " ++ summary ++ nl))
              (prompt ++ "# Relevant Past Context" ++ nl) ;;
    Ret (body ++ nl)
  else Ret prompt.

Definition examplesSection (prompt : string) (l : ContextLayer.t) : outcome string :=
  fewShot <~ get (data_of l) "fewShot" ;;
  some <~ nonempty fewShot ;;
  if some then
    forEach fewShot
      (fun index example =>
         input <~ get (Some example) "input" ;;
         input <~ text input ;;
         output <~ get (Some example) "output" ;;
         output <~ text output ;;
         Ret ("Example " ++ of_nat (index + 1) ++ ":" ++ nl
              ++ "User: " ++ input ++ nl
              ++ "Assistant: " ++ output ++ nl ++ nl))
      (prompt ++ "# Examples" ++ nl)
  else Ret prompt.

Definition constraintsSection (prompt : string) : string :=
  prompt ++ "# Constraints" ++ nl
  ++ "- Maintain factual accuracy and cite sources when possible" ++ nl
  ++ "- Respect privacy and data security" ++ nl
  ++ "- Provide helpful, relevant responses" ++ nl
  ++ "- If uncertain, acknowledge limitations" ++ nl ++ nl.

Definition outputFormatSection (prompt : string) (l : ContextLayer.t) : outcome string :=
  preferredFormat <~ get (data_of l) "preferredFormat" ;;
  preferredFormat <~ text preferredFormat ;;
  style <~ get (data_of l) "style" ;;
  tone <~ get style "tone" ;;
  tone <~ text tone ;;
  detail <~ get style "detail" ;;
  detail <~ text detail ;;
  Ret (prompt ++ "# Response Format" ++ nl
       ++ "Preferred format: " ++ preferredFormat ++ nl
       ++ "Style: " ++ tone ++ ", " ++ detail ++ nl
       ++ "Include confidence level and processing details" ++ nl ++ nl).

Definition userQuerySection (prompt : string) (l : ContextLayer.t) : outcome string :=
  original <~ get (data_of l) "original" ;;
  original <~ text original ;;
  intent <~ get (data_of l) "intent" ;;
  intent <~ text intent ;;
  complexity <~ get (data_of l) "complexity" ;;
  complexity <~ text complexity ;;
  expectedResponseType <~ get (data_of l) "expectedResponseType" ;;
  expectedResponseType <~ text expectedResponseType ;;
  Ret (prompt ++ "# User Query" ++ nl
       ++ "Original: " ++ original ++ nl
       ++ "Intent: " ++ intent ++ nl
       ++ "Complexity: " ++ complexity ++ nl
       ++ "Expected Response Type: " ++ expectedResponseType
       ++ nl ++ nl).

(** [if (layer) { section }] *)
Definition when_found (layer : option ContextLayer.t)
    (section : string -> ContextLayer.t -> outcome string) (prompt : string)
  : outcome string :=
  match layer with
  | Some l => section prompt l
  | None => Ret prompt
  end.

Definition buildPromptFromContext (contextWindow : ContextWindow.t) : outcome string :=
  let activeLayers :=
    filter (fun layer => Status_eqb (ContextLayer.status layer) active)
           (ContextWindow.layers contextWindow) in
  let prompt := EmptyString in
  prompt <~ when_found (find_layer 1 activeLayers) instructionsSection prompt ;;
  prompt <~ when_found (find_layer 2 activeLayers) userContextSection prompt ;;
  let knowledgeLayer := find_layer 3 activeLayers in
  prompt <~ when_found knowledgeLayer knowledgeSection prompt ;;
  prompt <~ when_found knowledgeLayer fileSection prompt ;;
  prompt <~ when_found (find_layer 5 activeLayers) memorySection prompt ;;
  prompt <~ when_found (find_layer 7 activeLayers) examplesSection prompt ;;
  let prompt :=
    match find_layer 9 activeLayers with
    | Some _ => constraintsSection prompt
    | None => prompt
    end in
  prompt <~ when_found (find_layer 10 activeLayers) outputFormatSection prompt ;;
  prompt <~ when_found (find_layer 11 activeLayers) userQuerySection prompt ;;
  Ret (prompt ++ "Please provide a comprehensive response that demonstrates sophisticated context awareness and leverages all available context layers.").

(** [calculateConfidence] *)
Definition calculateConfidence (response : AIResponse)
    (contextWindow : ContextWindow.t) : Q :=
  let confidence := (5 # 10)%Q in
  let relevanceScore := ContextWindow.relevanceScore contextWindow in
  let confidence := (confidence + relevanceScore * (3 # 10))%Q in
  let layerCount := List.length (ContextWindow.activeLayers contextWindow) in
  let confidence :=
    (confidence + (inject_Z (Z.of_nat layerCount) / 11) * (2 # 10))%Q in
  let responseLength := String.length (content response) in
  let confidence :=
    if 500 <? responseLength then (confidence + (1 # 10))%Q else confidence in
  let confidence :=
    if 1000 <? responseLength then (confidence + (1 # 10))%Q else confidence in
  let confidence :=
    if includes (model response) "gpt-4"
    then (confidence + (1 # 10))%Q else confidence in
  let confidence :=
    if includes (model response) "claude-3"
    then (confidence + (1 # 10))%Q else confidence in
  Qmin confidence 1%Q.

(** What a back end returns at run time.  The declared type is
    [AIResponse], but [content], [model] and [usage] are the values of the
    provider's answer, which nothing checks: any of them may be [undefined]
    or of another type. *)
Inductive Usage : Type :=
| ProviderUsage (usage : option json)
    (* [data.usage], as OpenAI sent it *)
| TokenCounts (input_tokens output_tokens : json).
    (* [{prompt_tokens: i, completion_tokens: o, total_tokens: i + o}]; the
       sum is the [+] of JavaScript on the two values (binary64 addition, or
       concatenation) and is kept unevaluated *)

Record Returned : Type := {
  returned_content : option json;
  returned_model : option json;
  returned_usage : Usage;
  returned_confidence : Q;
  returned_processingTime : Z
}.

(** [v.includes(s)]: a method of strings and of arrays only. *)
Definition call_includes (v : option json) (s : string) : outcome bool :=
  match v with
  | Some (JStr m) => Ret (includes m s)
  | Some (JArr items) =>
      Ret (existsb (fun item => match item with
                                | JStr t => String.eqb t s
                                | _ => false
                                end) items)
  | _ => Throw TypeError
  end.

(** [calculateConfidence] as [generateResponse] runs it, on what the back
    end returned.  On a response of the declared type it computes
    [calculateConfidence]. *)
Definition calculateConfidence_of (response : Returned)
    (contextWindow : ContextWindow.t) : outcome Q :=
  let confidence := (5 # 10)%Q in
  let relevanceScore := ContextWindow.relevanceScore contextWindow in
  let confidence := (confidence + relevanceScore * (3 # 10))%Q in
  let layerCount := List.length (ContextWindow.activeLayers contextWindow) in
  let confidence :=
    (confidence + (inject_Z (Z.of_nat layerCount) / 11) * (2 # 10))%Q in
  responseLength <~ get (returned_content response) "length" ;;
  above500 <~ greater_than responseLength 500 ;;
  let confidence :=
    if above500 then (confidence + (1 # 10))%Q else confidence in
  above1000 <~ greater_than responseLength 1000 ;;
  let confidence :=
    if above1000 then (confidence + (1 # 10))%Q else confidence in
  gpt4 <~ call_includes (returned_model response) "gpt-4" ;;
  let confidence :=
    if gpt4 then (confidence + (1 # 10))%Q else confidence in
  claude3 <~ call_includes (returned_model response) "claude-3" ;;
  let confidence :=
    if claude3 then (confidence + (1 # 10))%Q else confidence in
  Ret (Qmin confidence 1%Q).

Section Service.
Variable E : Env.

(** [await response.json()] *)
Definition response_json (parsed : option json) : M json :=
  match parsed with
  | Some d => ret d
  | None => throw (Error "SyntaxError")
  end.

Definition callOpenAI (prompt model : string) (options : AIOptions) : M Returned :=
  resp <- do_fetch E (Request OpenAIChat (JObj [
            ("model", JStr model);
            ("messages", JArr [
               JObj [("role", JStr "system");
                     ("content", JStr "You are ContextLinc, a next-generation context-aware AI assistant.")];
               JObj [("role", JStr "user"); ("content", JStr prompt)]]);
            ("max_tokens", or_else (maxTokens options) (JInt 2048));
            ("temperature", or_else (temperature options) (JNum 7 1));
            ("top_p", or_else (topP options) (JInt 1));
            ("frequency_penalty", or_else (frequencyPenalty options) (JInt 0));
            ("presence_penalty", or_else (presencePenalty options) (JInt 0))])) ;;
  match resp with
  | Rejected e => throw e
  | Response ok status text parsed =>
      if negb ok
      then throw (Error ("OpenAI API error: " ++ of_nat status ++ " - " ++ text))
      else
        data <- response_json parsed ;;
        lift (choices <~ get (Some data) "choices" ;;
              choice <~ at0 choices ;;
              message <~ get choice "message" ;;
              content <~ get message "content" ;;
              model <~ get (Some data) "model" ;;
              usage <~ get (Some data) "usage" ;;
              Ret {| returned_content := content;
                     returned_model := model;
                     returned_usage := ProviderUsage usage;
                     returned_confidence := (85 # 100)%Q;
                     returned_processingTime := 0%Z |})
  end.

Definition callAnthropic (prompt model : string) (options : AIOptions) : M Returned :=
  resp <- do_fetch E (Request AnthropicMessages (JObj [
            ("model", JStr model);
            ("max_tokens", or_else (maxTokens options) (JInt 2048));
            ("temperature", or_else (temperature options) (JNum 7 1));
            ("messages", JArr [
               JObj [("role", JStr "user"); ("content", JStr prompt)]])])) ;;
  match resp with
  | Rejected e => throw e
  | Response ok status text parsed =>
      if negb ok
      then throw (Error ("Anthropic API error: " ++ of_nat status ++ " - " ++ text))
      else
        data <- response_json parsed ;;
        lift (blocks <~ get (Some data) "content" ;;
              block <~ at0 blocks ;;
              text <~ get block "text" ;;
              model <~ get (Some data) "model" ;;
              usage <~ get (Some data) "usage" ;;
              let input_tokens := or_else (get_opt usage "input_tokens") (JInt 0) in
              let output_tokens := or_else (get_opt usage "output_tokens") (JInt 0) in
              (* the operands of [+] are converted, which may throw *)
              _ <~ ToString input_tokens ;;
              _ <~ ToString output_tokens ;;
              Ret {| returned_content := text;
                     returned_model := model;
                     returned_usage := TokenCounts input_tokens output_tokens;
                     returned_confidence := (85 # 100)%Q;
                     returned_processingTime := 0%Z |})
  end.

(** [generateResponse] *)
Definition generateResponse (contextWindow : ContextWindow.t) (options : AIOptions)
  : M Returned :=
  startTime <- Date_now E ;;
  let model := model_of options in
  try_catch
    (prompt <- lift (buildPromptFromContext contextWindow) ;;
     response <-
       (if startsWith model "gpt-" then callOpenAI prompt model options
        else if startsWith model "claude-" then callAnthropic prompt model options
        else throw (Error ("Unsupported model: " ++ model))) ;;
     finished <- Date_now E ;;
     let processingTime := (finished - startTime)%Z in
     confidence <- lift (calculateConfidence_of response contextWindow) ;;
     ret {| returned_content := returned_content response;
            returned_model := returned_model response;
            returned_usage := returned_usage response;
            returned_confidence := confidence;
            returned_processingTime := processingTime |})
    (fun error => throw (Error ("AI generation failed: " ++ message error))).

Definition generateOpenAIEmbedding (text : string) : M (option json) :=
  resp <- do_fetch E (Request OpenAIEmbeddings (JObj [
            ("input", JStr text);
            ("model", JStr "text-embedding-3-small")])) ;;
  match resp with
  | Rejected e => throw e
  | Response ok status _ parsed =>
      if negb ok
      then throw (Error ("OpenAI Embeddings API error: " ++ of_nat status))
      else
        data <- response_json parsed ;;
        lift (rows <~ get (Some data) "data" ;;
              row <~ at0 rows ;;
              get row "embedding")
  end.

(** The body of the [try] block of [generateEmbedding]: the Voyage call. *)
Definition generateEmbedding_primary (text : string) : M (option json) :=
  resp <- do_fetch E (Request VoyageEmbeddings (JObj [
            ("input", JArr [JStr text]);
            ("model", JStr "voyage-multimodal-3")])) ;;
  match resp with
  | Rejected e => throw e
  | Response ok status _ parsed =>
      if negb ok
      then throw (Error ("Voyage API error: " ++ of_nat status))
      else
        data <- response_json parsed ;;
        lift (rows <~ get (Some data) "data" ;;
              row <~ at0 rows ;;
              get row "embedding")
  end.

(** [generateEmbedding]: Voyage first, OpenAI inside the [catch]. *)
Definition generateEmbedding (text : string) : M (option json) :=
  try_catch (generateEmbedding_primary text)
            (fun _ => generateOpenAIEmbedding text).

End Service.
End AIService.

(* ===================================================================== *)
(** ** file-processor, services/embeddingService: class EmbeddingService *)
(* ===================================================================== *)

Module EmbeddingService.
Import JSString JSON Host Effects.

(** [text.replace(/\s+/g, ' ')]: [in_run] tells that the previous character
    was white space already. *)
Fixpoint collapse_spaces (in_run : bool) (s : string) : string :=
  match s with
  | EmptyString => EmptyString
  | String c s' =>
      if is_space c
      then if in_run then collapse_spaces true s'
           else String " " (collapse_spaces true s')
      else String c (collapse_spaces false s')
  end.

(** [text.replace(/[\x00-\x1F\x7F]/g, '')] *)
Fixpoint strip_control (s : string) : string :=
  match s with
  | EmptyString => EmptyString
  | String c s' =>
      let n := nat_of_ascii c in
      if (n <? 32) || (n =? 127) then strip_control s'
      else String c (strip_control s')
  end.

Definition cleanTextForEmbedding (text : string) : string :=
  let cleaned := trim (collapse_spaces false text) in
  let cleaned := strip_control cleaned in
  if 8000 <? String.length cleaned then take 8000 cleaned else cleaned.

Definition voyage_request (text : string) : request :=
  Request VoyageEmbeddings
    (JObj [("input", JArr [JStr text]); ("model", JStr "voyage-multimodal-3")]).

Definition openai_request (text : string) : request :=
  Request OpenAIEmbeddings
    (JObj [("input", JStr text); ("model", JStr "text-embedding-3-small")]).

(** [searchSimilarEmbeddings]: the source returns the empty array. *)
Definition searchSimilarEmbeddings (queryEmbedding : json) (userId : string)
    (limit : nat) (threshold : Q) : M (list json) := ret [].

Definition getEmbeddingDimensions (model : string) : nat :=
  if String.eqb model "voyage-multimodal-3" then 1024
  else if String.eqb model "text-embedding-3-small" then 1536
  else if String.eqb model "text-embedding-3-large" then 3072
  else 1536.

Section Service.
Variable E : Env.

(** The check [!data.data || !data.data[0] || !data.data[0].embedding]
    followed by [return data.data[0].embedding]. *)
Definition read_embedding (provider : string) (data : json) : outcome json :=
  let invalid := Error ("Invalid response format from " ++ provider ++ " API") in
  rows <~ get (Some data) "data" ;;
  if negb (truthy_opt rows) then Throw invalid
  else
    row <~ at0 rows ;;
    if negb (truthy_opt row) then Throw invalid
    else
      embedding <~ get row "embedding" ;;
      match embedding with
      | Some v => if truthy v then Ret v else Throw invalid
      | None => Throw invalid
      end.

Definition generateVoyageEmbedding (text : string) : M json :=
  resp <- do_fetch E (voyage_request text) ;;
  match resp with
  | Rejected e => throw e
  | Response ok status errorBody parsed =>
      if negb ok
      then throw (Error ("Voyage API error " ++ of_nat status ++ ": " ++ errorBody))
      else
        match parsed with
        | Some data => lift (read_embedding "Voyage" data)
        | None => throw (Error "SyntaxError")
        end
  end.

Definition generateOpenAIEmbedding (text : string) : M json :=
  resp <- do_fetch E (openai_request text) ;;
  match resp with
  | Rejected e => throw e
  | Response ok status errorBody parsed =>
      if negb ok
      then throw (Error ("OpenAI API error " ++ of_nat status ++ ": " ++ errorBody))
      else
        match parsed with
        | Some data => lift (read_embedding "OpenAI" data)
        | None => throw (Error "SyntaxError")
        end
  end.

Definition generateSingleEmbedding (text : string) : M json :=
  let cleanText := cleanTextForEmbedding text in
  try_catch
    (generateVoyageEmbedding cleanText)
    (fun voyageError =>
       try_catch
         (generateOpenAIEmbedding cleanText)
         (fun openaiError => throw (Error "All embedding services unavailable"))).

End Service.
End EmbeddingService.

(* ===================================================================== *)
(** ** routes/context: the handlers of the context router *)
(* ===================================================================== *)

Module ContextRoutes.
Import JSString JSON Host Effects.

(** What a handler sends: [c.json(body, status)]. *)
Record reply : Type := Reply { status_code : nat; payload : json }.

(** [c.json(body)]: status 200. *)
Definition json_ok (body : json) : reply := Reply 200 body.

(** The value of a digit in the given radix. *)
Definition digit_value (radix : nat) (c : ascii) : option nat :=
  let n := nat_of_ascii c in
  let v := if (48 <=? n) && (n <=? 57) then Some (n - 48)
           else if (97 <=? n) && (n <=? 122) then Some (n - 87)
           else if (65 <=? n) && (n <=? 90) then Some (n - 55)
           else None in
  match v with
  | Some d => if d <? radix then Some d else None
  | None => None
  end.

(** The longest prefix of digits, read in the radix; [None] when it is empty. *)
Fixpoint digits (radix : nat) (s : string) (acc : option Z) : option Z :=
  match s with
  | EmptyString => acc
  | String c s' =>
      match digit_value radix c with
      | Some d =>
          digits radix s'
            (Some (Z.of_nat radix * match acc with
                                    | Some a => a
                                    | None => 0
                                    end + Z.of_nat d)%Z)
      | None => acc
      end
  end.

Fixpoint drop (n : nat) (s : string) : string :=
  match n, s with
  | O, _ => s
  | S _, EmptyString => EmptyString
  | S n', String _ s' => drop n' s'
  end.

(** [parseInt(s)] with no radix.  [None] is NaN; the integer is exact. *)
Definition parseInt (s : string) : option Z :=
  let s := trimStart s in
  let '(sign, s) :=
    match s with
    | String "-" s' => ((-1)%Z, s')
    | String "+" s' => (1%Z, s')
    | _ => (1%Z, s)
    end in
  let '(radix, s) :=
    if startsWith s "0x" || startsWith s "0X" then (16, drop 2 s) else (10, s) in
  match digits radix s None with
  | Some n => Some (sign * n)%Z
  | None => None
  end.

(** [layerId < 1 || layerId > 11]: both comparisons are false on NaN. *)
Definition out_of_range (layerId : option Z) : bool :=
  match layerId with
  | Some n => (n <? 1)%Z || (11 <? n)%Z
  | None => false
  end.

Definition invalid_layer : reply :=
  Reply 400 (JObj [("error", JStr "Invalid layer ID (1-11)")]).

(** [await c.req.json()] *)
Definition request_json (body : option json) : M json :=
  match body with
  | Some v => ret v
  | None => throw (Error "SyntaxError")
  end.

Section Handlers.
Variable E : Env.
Variable user : User.t.

(** [app.get('/layers/:layerId', ...)] *)
Definition get_layer (param : string) : M reply :=
  try_catch
    (let layerId := parseInt param in
     if out_of_range layerId then ret invalid_layer
     else
       layerData <- ContextEngine.getLayerData layerId ;;
       ret (json_ok layerData))
    (fun _ => ret (Reply 500 (JObj [("error", JStr "Failed to get layer data")]))).

(** [app.put('/layers/:layerId', ...)]; [body] is what [await c.req.json()]
    gives, [None] when it throws. *)
Definition put_layer (param : string) (body : option json) : M reply :=
  try_catch
    (let layerId := parseInt param in
     updates <- request_json body ;;
     if out_of_range layerId then ret invalid_layer
     else
       ContextEngine.updateLayerConfig layerId updates ;;;
       ret (json_ok (JObj [("success", JBool true)])))
    (fun _ => ret (Reply 500 (JObj [("error", JStr "Failed to update layer")]))).

(** [app.post('/optimize', ...)] *)
Definition post_optimize (body : option json) : M reply :=
  try_catch
    (parsed <- request_json body ;;
     targetSize <- lift (get (Some parsed) "targetSize") ;;
     preserveLayers <- lift (get (Some parsed) "preserveLayers") ;;
     let preserveLayers := match preserveLayers with
                           | Some v => v
                           | None => JArr []
                           end in
     optimizationResult <- ContextEngine.optimizeContext targetSize preserveLayers ;;
     originalSize <- lift (get (Some optimizationResult) "originalSize") ;;
     optimizedSize <- lift (get (Some optimizationResult) "optimizedSize") ;;
     compressionRatio <- lift (get (Some optimizationResult) "compressionRatio") ;;
     layersAffected <- lift (get (Some optimizationResult) "layersAffected") ;;
     preservedContent <- lift (get (Some optimizationResult) "preservedContent") ;;
     ret (json_ok (JObj (object_of [
            ("success", Some (JBool true));
            ("originalSize", originalSize);
            ("optimizedSize", optimizedSize);
            ("compressionRatio", compressionRatio);
            ("layersAffected", layersAffected);
            ("preservedContent", preservedContent)]))))
    (fun _ => ret (Reply 500 (JObj [("error", JStr "Failed to optimize context")]))).

End Handlers.
End ContextRoutes.

(* ===================================================================== *)
(** ** Statements: the vocabulary of the properties *)
(* ===================================================================== *)

Module Props.
Import JSString JSON Host Coercion Effects.

(** A computation that returns on every world, with a result in [P]. *)
Definition returns {A} (m : M A) (P : A -> Prop) : Prop :=
  forall w, exists a w', m w = (Ret a, w') /\ P a.

Definition is_ret {A} (o : outcome A) : bool :=
  match o with
  | Ret _ => true
  | Throw _ => false
  end.

Definition is_active (l : ContextLayer.t) : bool :=
  Status_eqb (ContextLayer.status l) active.

(** The weight of a layer in the aggregate: 1 when active, 0.1 otherwise. *)
Definition activeWeight (l : ContextLayer.t) : Q :=
  if is_active l then 1%Q else (1 # 10)%Q.

(** The aggregate as the specification words it:
    the sum of [relevanceScore * activeWeight], divided by 11. *)
Definition weighted_sum (layers : list ContextLayer.t) : Q :=
  fold_right (fun l acc => ContextLayer.relevanceScore l * activeWeight l + acc)%Q
             0%Q layers.

Definition spec_aggregate (layers : list ContextLayer.t) : Q :=
  (weighted_sum layers / 11)%Q.

(** The additive terms of the confidence. *)
Definition base_term : Q := (5 # 10)%Q.

Definition relevance_term (cw : ContextWindow.t) : Q :=
  (ContextWindow.relevanceScore cw * (3 # 10))%Q.

Definition active_fraction_term (cw : ContextWindow.t) : Q :=
  ((inject_Z (Z.of_nat (List.length (ContextWindow.activeLayers cw))) / 11)
   * (2 # 10))%Q.

Definition length_bonus (r : AIService.AIResponse) : Q :=
  ((if 500 <? String.length (AIService.content r) then 1 # 10 else 0)
   + (if 1000 <? String.length (AIService.content r) then 1 # 10 else 0))%Q.

Definition model_bonus (r : AIService.AIResponse) : Q :=
  ((if includes (AIService.model r) "gpt-4" then 1 # 10 else 0)
   + (if includes (AIService.model r) "claude-3" then 1 # 10 else 0))%Q.

(** What each builder fixes of its layer, given the attachment list: the id,
    the status and the relevance score. *)
Definition summary (l : ContextLayer.t) : nat * Status * Q :=
  (ContextLayer.id l, ContextLayer.status l, ContextLayer.relevanceScore l).

Definition expected_summaries (files : list string) : list (nat * Status * Q) :=
  let attached := 0 <? List.length files in
  [ (1, active, 1%Q);
    (2, active, (8 # 10)%Q);
    (3, if attached then active else inactive,
        if attached then (9 # 10)%Q else (1 # 10)%Q);
    (4, inactive, (2 # 10)%Q);
    (5, active, (7 # 10)%Q);
    (6, inactive, (3 # 10)%Q);
    (7, inactive, (1 # 10)%Q);
    (8, active, (9 # 10)%Q);
    (9, active, (5 # 10)%Q);
    (10, active, (6 # 10)%Q);
    (11, active, 1%Q) ].

(** The payload of the Memory layer when the three tiers are empty. *)
Definition empty_memory : json :=
  JObj [
    ("shortTerm", JObj [("items", JArr []); ("capacity", JInt 10);
                        ("retention", JStr "1 hour")]);
    ("mediumTerm", JObj [("items", JArr []); ("capacity", JInt 100);
                         ("retention", JStr "1 session")]);
    ("longTerm", JObj [("items", JArr []); ("capacity", JStr "unlimited");
                       ("retention", JStr "persistent")]);
    ("totalItems", JInt 0)].

(** A decimal numeral: one digit or more, nothing else. *)
Fixpoint all_digits (s : string) : bool :=
  match s with
  | EmptyString => true
  | String c s' =>
      (48 <=? nat_of_ascii c) && (nat_of_ascii c <=? 57) && all_digits s'
  end.

Definition is_decimal_numeral (s : string) : bool :=
  negb (String.eqb s EmptyString) && all_digits s.

(** *** Concrete scenarios *)

(** A fresh anonymous session, as the auth middleware creates it. *)
Definition anonymous : User.t :=
  User.mk "anon_s1" None (Some "Anonymous User") "s1".

(** A database with no message, no file and no preference row; no network. *)
Definition empty_env : Env :=
  {| memory := [];
     db_first := fun q =>
       match q with
       | SelectSessionStats _ =>
           Some (Some (JObj [("message_count", JInt 0); ("last_activity", JNull)]))
       | CountFiles _ => Some (Some (JObj [("count", JInt 0)]))
       | _ => Some None
       end;
     db_all := fun _ => Some (Some []);
     JSON_parse := fun _ => None;
     fetch := fun _ _ => Rejected (Error "network unreachable");
     date_now := fun n => (1700000000000 + Z.of_nat n)%Z;
     date_iso := fun _ => "2023-11-14T22:13:20.000Z" |}.

(** One long-tier row in table [memory]. *)
Definition remembered : MemoryRow :=
  {| memory_id := "m1";
     memory_user_id := "anon_s1";
     memory_session_id := Some "s1";
     memory_type := long_term;
     memory_content := "the deployment target is Cloudflare Workers";
     memory_summary := None;
     memory_embeddings := Some "[0.6,0.8]";
     memory_relevance_score := (8 # 10)%Q;
     memory_access_count := 0;
     memory_expires_at := None |}.

Definition env_with_memory : Env :=
  {| memory := [remembered];
     db_first := db_first empty_env;
     db_all := db_all empty_env;
     JSON_parse := JSON_parse empty_env;
     fetch := fetch empty_env;
     date_now := date_now empty_env;
     date_iso := date_iso empty_env |}.

(** What an assembled window is bound to satisfy. *)
Definition built (userQuery : string) (files : list string) (cw : ContextWindow.t)
  : Prop :=
  map summary (ContextWindow.layers cw) = expected_summaries files
  /\ (forall l, nth_error (ContextWindow.layers cw) 4 = Some l ->
                ContextLayer.data l = empty_memory)
  /\ (forall l, nth_error (ContextWindow.layers cw) 10 = Some l ->
                prop (ContextLayer.data l) "complexity"
                = Some (JStr (ContextEngine.Complexity_name
                                (ContextEngine.assessComplexity userQuery))))
  /\ ContextWindow.activeLayers cw
     = map ContextLayer.id (filter is_active (ContextWindow.layers cw))
  /\ ContextWindow.relevanceScore cw
     = ContextEngine.calculateRelevanceScore (ContextWindow.layers cw) userQuery
  /\ ContextWindow.tokenCount cw
     = fold_right Nat.add 0 (map ContextLayer.tokenCount (ContextWindow.layers cw)).

(** The requests a run has added to the log. *)
Definition sent (before after : world) : list request :=
  skipn (List.length (calls before)) (calls after).

(** The compression post-condition, as the specification states it, for the
    budget [budget] and the turn [(userQuery, files)]: the optimiser raises an
    error, or it reports an optimised size within the budget, or the window
    assembled afterwards fits the budget. *)
Definition within_budget_or_infeasible (E : Env) (user : User.t) (budget : nat)
    (userQuery : string) (files : list string) : Prop :=
  match ContextEngine.optimizeContext (Some (JNat budget)) (JArr []) initial with
  | (Throw _, _) => True
  | (Ret result, w) =>
      (exists n, prop result "optimizedSize" = Some (JNat n) /\ n <= budget)
      \/ (exists cw w', ContextEngine.buildContextWindow E user userQuery files w
                        = (Ret cw, w')
                        /\ ContextWindow.tokenCount cw <= budget)
  end.

(** The memory round trip, as the specification states it: every long-tier
    row is found again by a search for its own content. *)
Definition memory_round_trip (E : Env) (limit : nat) : Prop :=
  forall r, In r (memory E) -> memory_type r = long_term ->
    exists results w',
      ContextEngine.searchMemory (memory_content r) "long" limit initial
      = (Ret results, w')
      /\ exists item, In item results
                      /\ prop item "content" = Some (JStr (memory_content r)).

(** The model name a call asks for: the option when it is a string that is
    not empty, "gpt-4" when the option is left out or empty. *)
Definition requested (options : AIService.AIOptions) (name : string) : Prop :=
  (AIService.opt_model options = Some name /\ name <> EmptyString)
  \/ ((AIService.opt_model options = None
       \/ AIService.opt_model options = Some EmptyString)
      /\ name = "gpt-4").

(** The error an answer of a generation provider amounts to when the
    provider did not deliver: the request was rejected, or the status is not
    one of success. *)
Definition refusal (provider : string) (answer : response) : option error :=
  match answer with
  | Rejected e => Some e
  | Response false status text _ =>
      Some (Error (provider ++ " API error: " ++ of_nat status ++ " - " ++ text))
  | Response true _ _ _ => None
  end.

(** How the outcome of the backend call shows in the outcome of
    [generateResponse]: a failure is wrapped and thrown again; what the back
    end returned is returned with its confidence and timing filled in, unless
    the confidence cannot be computed from it, which is a failure too. *)
Definition surfaced (cw : ContextWindow.t) (backend : outcome AIService.Returned)
    (final : outcome AIService.Returned) : Prop :=
  match backend with
  | Throw e => final = Throw (Error ("AI generation failed: " ++ message e))
  | Ret r =>
      match AIService.calculateConfidence_of r cw with
      | Throw e => final = Throw (Error ("AI generation failed: " ++ message e))
      | Ret confidence =>
          exists elapsed,
            final = Ret {| AIService.returned_content := AIService.returned_content r;
                           AIService.returned_model := AIService.returned_model r;
                           AIService.returned_usage := AIService.returned_usage r;
                           AIService.returned_confidence := confidence;
                           AIService.returned_processingTime := elapsed |}
      end
  end.

(** What an answer of an embedding provider holds at [data[0].embedding]:
    [None] when there is nothing to read there (the request was rejected, the
    status is not one of success, the body is not JSON, or it has no first
    row), [Some None] when the first row has no [embedding]. *)
Definition answer_embedding (answer : response) : option (option json) :=
  match answer with
  | Response true _ _ (Some data) =>
      match (rows <~ get (Some data) "data" ;;
             row <~ at0 rows ;;
             get row "embedding") with
      | Ret embedding => Some embedding
      | Throw _ => None
      end
  | _ => None
  end.

(** The embedding an answer delivers: a truthy value at [data[0].embedding]. *)
Definition delivered_embedding (answer : response) : option json :=
  match answer_embedding answer with
  | Some (Some v) => if truthy v then Some v else None
  | _ => None
  end.

(** A database every statement of which throws. *)
Definition failing_env : Env :=
  {| memory := [];
     db_first := fun _ => None;
     db_all := fun _ => None;
     JSON_parse := fun _ => None;
     fetch := fun _ _ => Rejected (Error "network unreachable");
     date_now := fun n => (1700000000000 + Z.of_nat n)%Z;
     date_iso := fun _ => "2023-11-14T22:13:20.000Z" |}.

(** Eleven layers with the scores of a turn without attachments. *)
Definition sample_layers : list ContextLayer.t :=
  map (fun s => ContextLayer.mk (fst (fst s)) "layer" (snd (fst s)) JNull 0 (snd s))
      (expected_summaries []).

(** A reply of 600 characters from a model of the gpt-4 family, and a window
    with seven active layers. *)
Definition sample_response : AIService.AIResponse :=
  {| AIService.content := zeros 600;
     AIService.model := "gpt-4-turbo";
     AIService.usage := None;
     AIService.confidence := (85 # 100)%Q;
     AIService.processingTime := 0%Z |}.


Definition sample_window : ContextWindow.t :=
  ContextWindow.mk sample_layers [1; 2; 5; 8; 9; 10; 11] (557 # 1100)%Q 0
                   "2023-11-14T22:13:20.000Z".

(** A network where OpenAI answers, Voyage is down (503) and Anthropic
    refuses the key (401). *)
Definition completion : json :=
  JObj [("model", JStr "gpt-4-0613");
        ("choices", JArr [JObj [("message",
           JObj [("role", JStr "assistant"); ("content", JStr "Hello.")])]]);
        ("usage", JObj [("prompt_tokens", JInt 300);
                        ("completion_tokens", JInt 2);
                        ("total_tokens", JInt 302)])].

Definition vector : json := JArr [JNum 6 1; JNum 8 1].

Definition openai_only_env : Env :=
  {| memory := [];
     db_first := db_first empty_env;
     db_all := db_all empty_env;
     JSON_parse := JSON_parse empty_env;
     fetch := fun _ r =>
       match url r with
       | OpenAIChat => Response true 200 EmptyString (Some completion)
       | OpenAIEmbeddings =>
           Response true 200 EmptyString
             (Some (JObj [("data", JArr [JObj [("embedding", vector)]])]))
       | VoyageEmbeddings => Response false 503 "unavailable" None
       | AnthropicMessages => Response false 401 "invalid x-api-key" None
       end;
     date_now := date_now empty_env;
     date_iso := date_iso empty_env |}.



(** A session with three messages and one processed attachment; the network
    of [openai_only_env]. *)
Definition attachment_env : Env :=
  {| memory := [];
     db_first := fun q =>
       match q with
       | SelectSessionStats _ =>
           Some (Some (JObj [("message_count", JInt 3);
                             ("last_activity", JStr "2023-11-14 22:10:02")]))
       | CountFiles _ => Some (Some (JObj [("count", JInt 1)]))
       | _ => Some None
       end;
     db_all := fun q =>
       match q with
       | SelectFileContext _ _ =>
           Some (Some [JObj [("filename", JStr "report.pdf");
                             ("file_type", JStr "application/pdf");
                             ("extracted_content", JStr "Quarterly figures")]])
       | _ => Some (Some [])
       end;
     JSON_parse := JSON_parse empty_env;
     fetch := fetch openai_only_env;
     date_now := date_now empty_env;
     date_iso := date_iso empty_env |}.

(** The window of the turn "hi" without attachments, as [buildContextWindow]
    assembles it in [openai_only_env]. *)
Definition hi_window : ContextWindow.t :=
  match fst (ContextEngine.buildContextWindow openai_only_env anonymous "hi" []
               initial) with
  | Ret cw => cw
  | Throw _ => sample_window
  end.

(** A line feed followed by a tab. *)
Definition nl_tab : string :=
  String (ascii_of_nat 10) (String (ascii_of_nat 9) EmptyString).

Definition with_model (m : string) : AIService.AIOptions :=
  {| AIService.opt_model := Some m;
     AIService.maxTokens := None;
     AIService.temperature := None;
     AIService.topP := None;
     AIService.frequencyPenalty := None;
     AIService.presencePenalty := None |}.

End Props.

(* ===================================================================== *)
(** ** routes/context: the memory search handler *)
(* ===================================================================== *)

Module MemoryRoutes.
Import JSString JSON Host Effects.

(** The tier the [switch] of [searchMemory] sees.  A value that is not a
    string is strictly equal to none of the three literals and takes the
    default branch, as the string "all" does. *)
Definition memory_tier (memoryType : json) : string :=
  match memoryType with
  | JStr s => s
  | _ => "all"
  end.

(** The limit as a count; the placeholders behind [searchMemory] ignore it. *)
Definition limit_of (limit : json) : nat :=
  match limit with
  | JNum m 0 => Z.to_nat m
  | _ => 0
  end.

(** [app.post('/memory/search', ...)] *)
Definition post_memory_search (body : option json) : M ContextRoutes.reply :=
  try_catch
    (parsed <- ContextRoutes.request_json body ;;
     query <- lift (get (Some parsed) "query") ;;
     memoryType <- lift (get (Some parsed) "memoryType") ;;
     limit <- lift (get (Some parsed) "limit") ;;
     let memoryType := match memoryType with
                       | Some v => v
                       | None => JStr "all"
                       end in
     let limit := match limit with
                  | Some v => v
                  | None => JInt 10
                  end in
     if negb (truthy_opt query)
     then ret (ContextRoutes.Reply 400 (JObj [("error", JStr "Query required")]))
     else
       results <- ContextEngine.searchMemory (to_string_opt query)
                    (memory_tier memoryType) (limit_of limit) ;;
       ret (ContextRoutes.json_ok (JObj (object_of [
              ("results", Some (JArr results));
              ("query", query);
              ("memoryType", Some memoryType);
              ("total", Some (JNat (List.length results)))]))))
    (fun _ => ret (ContextRoutes.Reply 500
                     (JObj [("error", JStr "Failed to search memory")]))).

End MemoryRoutes.

(* ===================================================================== *)
(** ** services/aiService: content analysis *)
(* ===================================================================== *)

Module ContentAnalysis.
Import JSString JSON Host Coercion Effects.

Definition analysis_prompt (content contentType : string) : string :=
  "Analyze the following " ++ contentType
  ++ " content and extract key information:" ++ AIService.nl ++ AIService.nl
  ++ "Content: " ++ content ++ AIService.nl ++ AIService.nl
  ++ "Please provide:" ++ AIService.nl
  ++ "1. Summary (2-3 sentences)" ++ AIService.nl
  ++ "2. Key topics and themes" ++ AIService.nl
  ++ "3. Important entities (people, places, organizations)" ++ AIService.nl
  ++ "4. Sentiment analysis" ++ AIService.nl
  ++ "5. Content category" ++ AIService.nl
  ++ "6. Relevance for context engineering" ++ AIService.nl ++ AIService.nl
  ++ "Respond in JSON format.".

(** [v.substring(0, n)]: a method of strings only. *)
Definition call_substring (v : option json) (n : nat) : outcome string :=
  match v with
  | Some (JStr s) => Ret (take n s)
  | _ => Throw TypeError
  end.

Definition analysis_options : AIService.AIOptions :=
  {| AIService.opt_model := None;
     AIService.maxTokens := Some (JInt 1024);
     AIService.temperature := Some (JNum 3 1);
     AIService.topP := None;
     AIService.frequencyPenalty := None;
     AIService.presencePenalty := None |}.

Section Service.
Variable E : Env.

(** [analyzeContent].  [JSON.parse] converts its argument to a string;
    [response.confidence] is the 0.85 of [callOpenAI]. *)
Definition analyzeContent (content contentType : string) : M json :=
  let prompt := analysis_prompt content contentType in
  try_catch
    (response <- AIService.callOpenAI E prompt "gpt-3.5-turbo" analysis_options ;;
     try_catch
       (answer <- lift (text (AIService.returned_content response)) ;;
        parse E answer)
       (fun _ =>
          summary <- lift (call_substring (AIService.returned_content response) 500) ;;
          ret (JObj [
            ("summary", JStr summary);
            ("analysis", JStr "Content analysis completed");
            ("confidence", JNum 85 2)])))
    (fun error => ret (JObj [
       ("summary", JStr "Unable to analyze content");
       ("error", JStr (message error))])).

End Service.
End ContentAnalysis.

(* ===================================================================== *)
(** ** file-processor, services/embeddingService: the remaining methods *)
(* ===================================================================== *)

Module Embeddings.
Import JSString JSON Host Effects.

(** [interface TextChunk] (processors/multiModalProcessor) *)
Inductive ChunkType : Type := paragraph | heading | list_chunk | table | other.

Record TextChunk : Type := {
  chunk_text : string;
  index : nat;
  startPosition : nat;
  endPosition : nat;
  chunk_type : ChunkType
}.

(** [interface EmbeddingResult]; [chunkIndex] is -1 for the full text. *)
Record EmbeddingResult : Type := {
  vector : json;
  model : string;
  text : string;
  chunkIndex : Z
}.

(** [delay(ms)]: a timer, which changes no value. *)
Definition delay (ms : nat) : M unit := ret tt.

Section Service.
Variable E : Env.

(** The loop [for (const chunk of chunks)] of [generateEmbeddings]. *)
Fixpoint embed_chunks (chunks : list TextChunk) (results : list EmbeddingResult)
  : M (list EmbeddingResult) :=
  match chunks with
  | [] => ret results
  | chunk :: rest =>
      results <-
        try_catch
          (chunkEmbedding <- EmbeddingService.generateSingleEmbedding E (chunk_text chunk) ;;
           let results :=
             (results ++ [{| vector := chunkEmbedding;
                             model := "voyage-multimodal-3";
                             text := chunk_text chunk;
                             chunkIndex := Z.of_nat (index chunk) |}])%list in
           delay 100 ;;;
           ret results)
          (fun _ => ret results) ;;
      embed_chunks rest results
  end.

(** [generateEmbeddings] *)
Definition generateEmbeddings (text : string) (chunks : list TextChunk)
  : M (list EmbeddingResult) :=
  let results : list EmbeddingResult := [] in
  try_catch
    (results <-
       (if String.length text <? 8000
        then
          fullTextEmbedding <- EmbeddingService.generateSingleEmbedding E text ;;
          ret (results ++ [{| vector := fullTextEmbedding;
                              model := "voyage-multimodal-3";
                              text := take 1000 text;
                              chunkIndex := (-1)%Z |}])%list
        else ret results) ;;
     embed_chunks chunks results)
    (fun error =>
       throw (Error ("Failed to generate embeddings: " ++ message error))).



End Service.
End Embeddings.

(* ===================================================================== *)
(** ** processors/multiModalProcessor.ts: cutting a text into chunks *)
(* ===================================================================== *)

Module MultiModalProcessor.
Import JSString.

(** The character class [[.!?]]. *)
Definition is_terminator (c : ascii) : bool :=
  Ascii.eqb c "." || Ascii.eqb c "!" || Ascii.eqb c "?".

(** [text.split(/[.!?]+/)]: the pieces between the maximal runs of
    terminators; [in_run] tells that the previous character was one. *)
Fixpoint split_runs (in_run : bool) (s : string) : list string :=
  match s with
  | EmptyString => [EmptyString]
  | String c s' =>
      if is_terminator c
      then if in_run then split_runs true s'
           else EmptyString :: split_runs true s'
      else match split_runs false s' with
           | h :: t => String c h :: t
           | [] => [String c EmptyString]
           end
  end.

(** [text.split(/[.!?]+/).filter(s => s.trim().length > 0)] *)
Definition sentences (text : string) : list string :=
  filter (fun s => 0 <? String.length (trim s)) (split_runs false text).

(** [/^#{1,6}\s/] after the first [#]: at most [n] more, then white space. *)
Fixpoint hashes_then_space (n : nat) (s : string) : bool :=
  match s with
  | EmptyString => false
  | String c s' =>
      is_space c
      || (Ascii.eqb c "#"
          && match n with
             | O => false
             | S n' => hashes_then_space n' s'
             end)
  end.

(** [text.match(/^#{1,6}\s/)] *)
Definition is_heading (text : string) : bool :=
  match text with
  | String c s' => Ascii.eqb c "#" && hashes_then_space 5 s'
  | EmptyString => false
  end.

(** [text.match(/^\s*[-*+]\s/)] *)
Definition is_list (text : string) : bool :=
  match trimStart text with
  | String c (String d _) =>
      (Ascii.eqb c "-" || Ascii.eqb c "*" || Ascii.eqb c "+") && is_space d
  | _ => false
  end.

(** [text.match(/\|.*\|/)]: two bars on one line; [seen] tells that the
    line read so far has a bar. *)
Fixpoint two_bars (seen : bool) (s : string) : bool :=
  match s with
  | EmptyString => false
  | String c s' =>
      if Ascii.eqb c "|" then seen || two_bars true s'
      else if (nat_of_ascii c =? 10) || (nat_of_ascii c =? 13)
           then two_bars false s'
           else two_bars seen s'
  end.

Definition is_table (text : string) : bool := two_bars false text.

(** [determineChunkType] *)
Definition determineChunkType (text : string) : Embeddings.ChunkType :=
  if is_heading text then Embeddings.heading
  else if is_list text then Embeddings.list_chunk
  else if is_table text then Embeddings.table
  else Embeddings.paragraph.

(** The chunk pushed for [currentChunk], at both places of [chunkText]. *)
Definition chunk_of (currentChunk : string) (chunkIndex startPosition : nat)
  : Embeddings.TextChunk :=
  {| Embeddings.chunk_text := trim currentChunk;
     Embeddings.index := chunkIndex;
     Embeddings.startPosition := startPosition;
     Embeddings.endPosition := startPosition + String.length currentChunk;
     Embeddings.chunk_type := determineChunkType currentChunk |}.

(** The loop [for (const sentence of sentences)] of [chunkText] and the
    final push, over the loop's four variables. *)
Fixpoint chunk_loop (maxChunkSize : nat) (rest : list string)
    (chunks : list Embeddings.TextChunk) (currentChunk : string)
    (chunkIndex startPosition : nat) : list Embeddings.TextChunk :=
  match rest with
  | [] =>
      if 0 <? String.length (trim currentChunk)
      then (chunks ++ [chunk_of currentChunk chunkIndex startPosition])%list
      else chunks
  | sentence :: rest' =>
      let trimmedSentence := trim sentence in
      if (maxChunkSize <? String.length currentChunk + String.length trimmedSentence)
         && (0 <? String.length currentChunk)
      then
        chunk_loop maxChunkSize rest'
          (chunks ++ [chunk_of currentChunk chunkIndex startPosition])%list
          trimmedSentence
          (chunkIndex + 1)
          (startPosition + String.length currentChunk)
      else
        chunk_loop maxChunkSize rest' chunks
          (currentChunk
           ++ (if 0 <? String.length currentChunk then ". " else EmptyString)
           ++ trimmedSentence)
          chunkIndex startPosition
  end.

(** [chunkText(text, maxChunkSize)] *)
Definition chunkText (text : string) (maxChunkSize : nat)
  : list Embeddings.TextChunk :=
  chunk_loop maxChunkSize (sentences text) [] EmptyString 0 0.

(** [isTextDocument], [isImage], [isVideo], [isAudio] *)
Definition isTextDocument (fileType : string) : bool :=
  startsWith fileType "text/"
  || includes fileType "pdf"
  || includes fileType "document"
  || includes fileType "spreadsheet"
  || includes fileType "presentation".

Definition isImage (fileType : string) : bool := startsWith fileType "image/".
Definition isVideo (fileType : string) : bool := startsWith fileType "video/".
Definition isAudio (fileType : string) : bool := startsWith fileType "audio/".

End MultiModalProcessor.

Module Chunks.
Import JSString MultiModalProcessor.

(** Chunks numbered from [idx] on, each starting where the one before ends,
    from [from] on, and none wider than its span. *)
Fixpoint laid_out (from idx : nat) (chunks : list Embeddings.TextChunk) : Prop :=
  match chunks with
  | [] => True
  | c :: rest =>
      Embeddings.index c = idx
      /\ Embeddings.startPosition c = from
      /\ from <= Embeddings.endPosition c
      /\ String.length (Embeddings.chunk_text c)
         <= Embeddings.endPosition c - Embeddings.startPosition c
      /\ laid_out (Embeddings.endPosition c) (S idx) rest
  end.

Definition span (c : Embeddings.TextChunk) : nat :=
  Embeddings.endPosition c - Embeddings.startPosition c.

(** A string that [trim] leaves as it is and that is not empty. *)
Definition trimmed (s : string) : Prop :=
  trim s = s /\ s <> EmptyString.

Definition starts_plain (s : string) : Prop :=
  match s with
  | EmptyString => True
  | String c _ => is_space c = false
  end.

End Chunks.

(* ===================================================================== *)
(** ** Statements: the vocabulary of the further properties *)
(* ===================================================================== *)

Module QueryFacts.
Import JSString.

(** The number of space characters (U+0020) of a text. *)
Fixpoint count_spaces (s : string) : nat :=
  match s with
  | EmptyString => 0
  | String c s' => (if Ascii.eqb c " "%char then 1 else 0) + count_spaces s'
  end.

(** No character of the text is a lower-case letter a-z. *)
Fixpoint no_lower_case (s : string) : bool :=
  match s with
  | EmptyString => true
  | String c s' =>
      negb ((97 <=? nat_of_ascii c) && (nat_of_ascii c <=? 122)) && no_lower_case s'
  end.

End QueryFacts.

Module Numerals.
Import JSString JSON Host Decimal.

(** A suffix at which a decimal numeral ends for [parseInt]: empty, or
    beginning with a character that is neither a decimal digit nor the [x] of
    a hexadecimal prefix. *)
Definition ends_numeral (rest : string) : bool :=
  match rest with
  | EmptyString => true
  | String c _ =>
      let n := nat_of_ascii c in
      negb ((48 <=? n) && (n <=? 57)) && negb (n =? 120) && negb (n =? 88)
  end.

Definition layer_not_found : ContextRoutes.reply :=
  ContextRoutes.Reply 200 (JObj [("error", JStr "Layer not found")]).

(** The value of a numeral read from the left, starting from [acc]. *)
Fixpoint uint_value (d : Decimal.uint) (acc : Z) : Z :=
  match d with
  | Nil => acc
  | D0 d => uint_value d (10 * acc)
  | D1 d => uint_value d (10 * acc + 1)
  | D2 d => uint_value d (10 * acc + 2)
  | D3 d => uint_value d (10 * acc + 3)
  | D4 d => uint_value d (10 * acc + 4)
  | D5 d => uint_value d (10 * acc + 5)
  | D6 d => uint_value d (10 * acc + 6)
  | D7 d => uint_value d (10 * acc + 7)
  | D8 d => uint_value d (10 * acc + 8)
  | D9 d => uint_value d (10 * acc + 9)
  end%Z.

(** The number read so far; nothing read counts as 0. *)
Definition from (acc : option Z) : Z :=
  match acc with
  | Some a => a
  | None => 0%Z
  end.

End Numerals.

Module AnalysisFacts.
Import JSString JSON Host Coercion Effects.

(** [data.choices[0].message.content] of an answer of the chat endpoint. *)
Definition first_choice_content (data : json) : outcome (option json) :=
  choices <~ get (Some data) "choices" ;;
  choice <~ at0 choices ;;
  message <~ get choice "message" ;;
  get message "content".

(** [JSON.parse(answer)]; [None] when it throws. *)
Definition read (E : Env) (answer : option json) : option json :=
  match text answer with
  | Ret t => JSON_parse E t
  | Throw _ => None
  end.

(** The object [analyzeContent] returns when the analysis failed. *)
Definition unable (reason : string) : json :=
  JObj [("summary", JStr "Unable to analyze content"); ("error", JStr reason)].

(** The object it returns for an answer that is text but no JSON. *)
Definition unparsed (summary : string) : json :=
  JObj [("summary", JStr summary);
        ("analysis", JStr "Content analysis completed");
        ("confidence", JNum 85 2)].

End AnalysisFacts.

Module EmbeddingFacts.
Import JSString JSON Host Effects Props.

(** Every character of the text passes the test. *)
Fixpoint all_chars (test : ascii -> bool) (s : string) : bool :=
  match s with
  | EmptyString => true
  | String c s' => test c && all_chars test s'
  end.

(** A character the cleaning lets through: none of U+0000 to U+001F, not
    U+007F, and no white space other than the space.  The controls from
    U+0080 to U+009F are let through: neither expression of the code matches
    them. *)
Definition clean_char (c : ascii) : bool :=
  let n := nat_of_ascii c in
  negb (n <? 32) && negb (n =? 127) && negb (n =? 160).

(** The text an embedding request carries under [input]. *)
Definition input_of (r : request) : option string :=
  match prop (body r) "input" with
  | Some (JStr t) => Some t
  | Some (JArr [JStr t]) => Some t
  | _ => None
  end.

(** A Voyage that answers 200 with a row that has no [embedding]; OpenAI
    answers with a vector. *)
Definition hollow_voyage_env : Env :=
  {| memory := [];
     db_first := db_first empty_env;
     db_all := db_all empty_env;
     JSON_parse := JSON_parse empty_env;
     fetch := fun _ r =>
       match url r with
       | VoyageEmbeddings =>
           Response true 200 EmptyString
             (Some (JObj [("data", JArr [JObj [("object", JStr "embedding")]])]))
       | _ =>
           Response true 200 EmptyString
             (Some (JObj [("data", JArr [JObj [("embedding", vector)]])]))
       end;
     date_now := date_now empty_env;
     date_iso := date_iso empty_env |}.

(** The entry [generateEmbeddings] pushes for a chunk and its embedding. *)
Definition entry (c : Embeddings.TextChunk) (v : json) : Embeddings.EmbeddingResult :=
  {| Embeddings.vector := v;
     Embeddings.model := "voyage-multimodal-3";
     Embeddings.text := Embeddings.chunk_text c;
     Embeddings.chunkIndex := Z.of_nat (Embeddings.index c) |}.

(** [embedded E w chunks entries w']: starting in the world [w], the chunks
    are embedded one after the other, in their order; a chunk whose embedding
    fails leaves no entry, a chunk whose embedding succeeds leaves the entry
    with that embedding; [w'] is the world after the last chunk. *)
Inductive embedded (E : Env)
  : world -> list Embeddings.TextChunk -> list Embeddings.EmbeddingResult
    -> world -> Prop :=
| embedded_nil w : embedded E w [] [] w
| embedded_skip w c cs entries e w1 w2 :
    EmbeddingService.generateSingleEmbedding E (Embeddings.chunk_text c) w
    = (Throw e, w1) ->
    embedded E w1 cs entries w2 ->
    embedded E w (c :: cs) entries w2
| embedded_keep w c cs entries v w1 w2 :
    EmbeddingService.generateSingleEmbedding E (Embeddings.chunk_text c) w
    = (Ret v, w1) ->
    embedded E w1 cs entries w2 ->
    embedded E w (c :: cs) (entry c v :: entries) w2.

End EmbeddingFacts.

Module WindowFacts.
Import JSString JSON Host Effects Props.

(** A computation that sends nothing over the network. *)
Definition silent {A} (m : M A) : Prop :=
  forall w, calls (snd (m w)) = calls w.

(** A section of the prompt that can be rendered for the layer: it returns
    the prompt it was given with its own text appended. *)
Definition appends (section : string -> ContextLayer.t -> outcome string)
    (l : ContextLayer.t) : Prop :=
  forall prompt, exists suffix, section prompt l = Ret (prompt ++ suffix).

(** A value of a column: [null], a number or a text. *)
Definition column (v : json) : bool :=
  match v with
  | JNull | JNum _ _ | JStr _ => true
  | JBool _ | JArr _ | JObj _ => false
  end.

(** A row as the database hands it out: an object of column values. *)
Definition row (v : json) : bool :=
  match v with
  | JObj fields => forallb (fun kv => column (snd kv)) fields
  | _ => false
  end.

(** The statements whose results reach the prompt give rows: the session
    statistics are a row or [null], the attached files are rows. *)
Definition database_gives_rows (E : Env) (user : User.t) (files : list string)
  : Prop :=
  (forall stats,
     db_first E (SelectSessionStats (User.sessionId user)) = Some (Some stats) ->
     stats = JNull \/ row stats = true)
  /\ (forall rows,
        db_all E (SelectFileContext files (User.id user)) = Some (Some rows) ->
        forallb row rows = true).

(** The section of the attached files can be rendered, and its text begins
    with the heading as soon as the database has a row for an attachment. *)
Definition appends_files (E : Env) (user : User.t) (files : list string)
    (l : ContextLayer.t) : Prop :=
  forall prompt, exists suffix,
    AIService.fileSection prompt l = Ret (prompt ++ suffix)
    /\ (forall rows,
          0 < List.length files ->
          db_all E (SelectFileContext files (User.id user)) = Some (Some rows) ->
          0 < List.length rows ->
          startsWith suffix "# File Context" = true).

(** The stored preferences cannot be read: the statement throws, there is no
    row, the row has no usable [preferences], or they do not parse. *)
Definition preferences_unreadable (E : Env) (user : User.t) : Prop :=
  match db_first E (SelectPreferences (User.id user)) with
  | None => True
  | Some row =>
      truthy_opt (get_opt row "preferences") = false
      \/ JSON_parse E (to_string_opt (get_opt row "preferences")) = None
  end.

Definition supportedFormats : list string :=
  ["text"; "markdown"; "json"; "code"; "structured"].

(** What the eleven builders guarantee of their layers, beyond [built]. *)
Definition assembled (E : Env) (user : User.t) (userQuery : string)
    (files : list string) (cw : ContextWindow.t) : Prop :=
  exists l1 l2 l3 l4 l5 l6 l7 l8 l9 l10 l11,
    ContextWindow.layers cw = [l1; l2; l3; l4; l5; l6; l7; l8; l9; l10; l11]
    /\ map summary [l1; l2; l3; l4; l5; l6; l7; l8; l9; l10; l11]
       = expected_summaries files
    /\ appends AIService.instructionsSection l1
    /\ (database_gives_rows E user files -> appends AIService.userContextSection l2)
    /\ appends AIService.knowledgeSection l3
    /\ (database_gives_rows E user files -> appends_files E user files l3)
    /\ appends AIService.memorySection l5
    /\ appends AIService.outputFormatSection l10
    /\ appends AIService.userQuerySection l11
    /\ prop (ContextLayer.data l9) "quality"
       = Some (JObj [("minConfidenceThreshold", JNum 7 1);
                     ("factualAccuracy", JBool true);
                     ("citationRequired", JBool true);
                     ("biasDetection", JBool true)])
    /\ prop (ContextLayer.data l10) "preferredFormat"
       = Some (JStr (ContextEngine.detectPreferredFormat userQuery))
    /\ prop (ContextLayer.data l10) "supportedFormats"
       = Some (ContextEngine.strings supportedFormats)
    /\ prop (ContextLayer.data l11) "expectedResponseType"
       = Some (JStr (ContextEngine.detectPreferredFormat userQuery))
    /\ prop (ContextLayer.data l11) "original" = Some (JStr userQuery)
    /\ ContextWindow.activeLayers cw
       = map ContextLayer.id
           (filter is_active [l1; l2; l3; l4; l5; l6; l7; l8; l9; l10; l11])
    /\ ContextWindow.relevanceScore cw
       = ContextEngine.calculateRelevanceScore
           [l1; l2; l3; l4; l5; l6; l7; l8; l9; l10; l11] userQuery.

End WindowFacts.

(* ===================================================================== *)
(** ** Proofs *)
(* ===================================================================== *)

Import JSString JSON Host Effects Props.

Section Aggregate.

Lemma activeWeight_bounds l : (0 <= activeWeight l <= 1)%Q.
Proof. unfold activeWeight. destruct (is_active l); split; lra. Qed.

Lemma fold_left_weighted layers : forall acc,
  (fold_left
     (fun sum layer =>
        sum + ContextLayer.relevanceScore layer
              * (if Status_eqb (ContextLayer.status layer) active then 1 else 1 # 10))%Q
     layers acc == acc + weighted_sum layers)%Q.
Proof.
  induction layers as [|l layers IH]; intros acc; simpl.
  - ring.
  - rewrite IH. unfold activeWeight, is_active. ring.
Qed.

Lemma weighted_sum_bounds layers :
  (forall l, In l layers -> (0 <= ContextLayer.relevanceScore l <= 1)%Q) ->
  (0 <= weighted_sum layers <= inject_Z (Z.of_nat (List.length layers)))%Q.
Proof.
  induction layers as [|l layers IH]; intros Hrel.
  - split; apply Qle_refl.
  - assert (Hl : (0 <= ContextLayer.relevanceScore l <= 1)%Q) by (apply Hrel; now left).
    assert (Htl : (0 <= weighted_sum layers <= inject_Z (Z.of_nat (List.length layers)))%Q).
    { apply IH. intros l' Hin. apply Hrel. now right. }
    cbn [weighted_sum fold_right List.length]. fold (weighted_sum layers).
    rewrite Nat2Z.inj_succ. unfold Z.succ. rewrite inject_Z_plus.
    pose proof (activeWeight_bounds l) as Hw.
    assert (0 <= ContextLayer.relevanceScore l * activeWeight l <= 1)%Q.
    { split.
      - apply Qmult_le_0_compat; tauto.
      - setoid_replace 1%Q with (1 * 1)%Q by reflexivity.
        apply Qmult_le_compat_nonneg; tauto. }
    change (inject_Z 1) with 1%Q. lra.
Qed.

End Aggregate.

(** C3: for every list of 11 layers whose relevance scores lie in [0,1],
    [calculateRelevanceScore] equals the sum over the layers of
    [relevanceScore * activeWeight], divided by 11, where [activeWeight] is 1
    for an active layer and 0.1 otherwise; and the result lies in [0,1]. *)
Theorem aggregate_relevance_formula :
  forall (layers : list ContextLayer.t) (userQuery : string),
    List.length layers = 11 ->
    (forall l, In l layers -> (0 <= ContextLayer.relevanceScore l <= 1)%Q) ->
    (ContextEngine.calculateRelevanceScore layers userQuery == spec_aggregate layers)%Q
    /\ (0 <= ContextEngine.calculateRelevanceScore layers userQuery <= 1)%Q.
Proof.
  intros layers userQuery Hlen Hrel.
  pose proof (weighted_sum_bounds layers Hrel) as Hb.
  rewrite Hlen in Hb. change (inject_Z (Z.of_nat 11)) with 11%Q in Hb.
  assert (Hagg : (0 <= spec_aggregate layers <= 1)%Q).
  { unfold spec_aggregate. split.
    - apply Qle_shift_div_l; lra.
    - apply Qle_shift_div_r; lra. }
  assert (Heq : (ContextEngine.calculateRelevanceScore layers userQuery
                 == spec_aggregate layers)%Q).
  { unfold ContextEngine.calculateRelevanceScore.
    rewrite Hlen. change (inject_Z (Z.of_nat 11)) with 11%Q.
    rewrite Q.min_l.
    - unfold spec_aggregate. rewrite fold_left_weighted. 
      setoid_replace (0 + weighted_sum layers)%Q with (weighted_sum layers) by ring. reflexivity.
    - rewrite fold_left_weighted.
      setoid_replace (0 + weighted_sum layers)%Q with (weighted_sum layers) by ring.
      apply Hagg. }
  split; [exact Heq|]. rewrite Heq. exact Hagg.
Qed.

Section Confidence.

Lemma inject_nat_nonneg n : (0 <= inject_Z (Z.of_nat n))%Q.
Proof. unfold Qle. simpl. lia. Qed.

Lemma active_fraction_term_nonneg cw : (0 <= active_fraction_term cw)%Q.
Proof.
  unfold active_fraction_term.
  apply Qmult_le_0_compat; [|lra].
  apply Qle_shift_div_l; [lra|].
  pose proof (inject_nat_nonneg (List.length (ContextWindow.activeLayers cw))). lra.
Qed.

Lemma length_bonus_nonneg r : (0 <= length_bonus r)%Q.
Proof.
  unfold length_bonus.
  destruct (500 <? _); destruct (1000 <? _); lra.
Qed.

Lemma model_bonus_nonneg r : (0 <= model_bonus r)%Q.
Proof.
  unfold model_bonus.
  destruct (includes _ "gpt-4"); destruct (includes _ "claude-3"); lra.
Qed.

Lemma calculateConfidence_terms r cw :
  (AIService.calculateConfidence r cw
   == Qmin (base_term + relevance_term cw + active_fraction_term cw
            + length_bonus r + model_bonus r) 1)%Q.
Proof.
  unfold AIService.calculateConfidence, base_term, relevance_term,
    active_fraction_term, length_bonus, model_bonus.
  destruct (500 <? _); destruct (1000 <? _);
    destruct (includes _ "gpt-4"); destruct (includes _ "claude-3");
    apply Q.min_compat; try reflexivity; ring.
Qed.

End Confidence.

(** C9: for every AI response and every context window whose relevance score
    lies in [0,1], the confidence of [calculateConfidence] is the sum, capped
    at 1, of five non-negative terms (base, aggregate relevance times 0.3,
    active-layer fraction times 0.2, response-length bonuses, model-tier
    bonuses), and it lies in [0,1]. *)
Theorem confidence_is_capped_sum :
  forall (r : AIService.AIResponse) (cw : ContextWindow.t),
    (0 <= ContextWindow.relevanceScore cw <= 1)%Q ->
    (0 <= base_term)%Q
    /\ (0 <= relevance_term cw)%Q
    /\ (0 <= active_fraction_term cw)%Q
    /\ (0 <= length_bonus r)%Q
    /\ (0 <= model_bonus r)%Q
    /\ (AIService.calculateConfidence r cw
        == Qmin (base_term + relevance_term cw + active_fraction_term cw
                 + length_bonus r + model_bonus r) 1)%Q
    /\ (0 <= AIService.calculateConfidence r cw <= 1)%Q.
Proof.
  intros r cw Hrel.
  pose proof (active_fraction_term_nonneg cw) as Hfrac.
  pose proof (length_bonus_nonneg r) as Hlen.
  pose proof (model_bonus_nonneg r) as Hmod.
  assert (Hrt : (0 <= relevance_term cw)%Q).
  { unfold relevance_term. apply Qmult_le_0_compat; [tauto | lra]. }
  assert (Hbase : (0 <= base_term)%Q) by (unfold base_term; lra).
  repeat (split; [assumption|]).
  split; [apply calculateConfidence_terms|].
  rewrite calculateConfidence_terms. split.
  - apply Q.min_glb; lra.
  - apply Q.le_min_r.
Qed.

Section Running.

Lemma returns_ret {A} (a : A) (P : A -> Prop) : P a -> returns (ret a) P.
Proof. intros H w. exists a, w. split; [reflexivity | exact H]. Qed.

Lemma returns_bind {A B} (m : M A) (k : A -> M B) (P : A -> Prop) (Q : B -> Prop) :
  returns m P -> (forall a, P a -> returns (k a) Q) -> returns (bind m k) Q.
Proof.
  intros Hm Hk w. destruct (Hm w) as (a & w1 & Hrun & Ha).
  destruct (Hk a Ha w1) as (b & w2 & Hrun2 & Hb).
  exists b, w2. unfold bind. rewrite Hrun. split; assumption.
Qed.

Lemma returns_try_catch {A} (m : M A) (h : error -> M A) (P : A -> Prop) :
  (forall w a w', m w = (Ret a, w') -> P a) ->
  (forall e, returns (h e) P) ->
  returns (try_catch m h) P.
Proof.
  intros Hm Hh w. unfold try_catch.
  destruct (m w) as [[a | e] w1] eqn:Hrun.
  - exists a, w1. split; [reflexivity | eapply Hm; eassumption].
  - apply Hh.
Qed.

Lemma returns_any {A} (m : M A) (h : error -> M A) :
  (forall e, returns (h e) (fun _ => True)) ->
  returns (try_catch m h) (fun _ => True).
Proof. intros Hh. apply returns_try_catch; [intros; exact I | exact Hh]. Qed.

Lemma returns_clock E : returns (new_Date_toISOString E) (fun _ => True).
Proof. intros w. eexists _, _. split; [reflexivity | exact I]. Qed.

Variable E : Env.
Variable user : User.t.

Lemma getUserPreferences_returns :
  returns (ContextEngine.getUserPreferences E user) (fun _ => True).
Proof. apply returns_any. intros e. now apply returns_ret. Qed.

Lemma getSessionStats_returns :
  returns (ContextEngine.getSessionStats E user) (fun _ => True).
Proof. apply returns_any. intros e. now apply returns_ret. Qed.

Lemma getRecentInteractions_returns :
  returns (ContextEngine.getRecentInteractions E user) (fun _ => True).
Proof. apply returns_any. intros e. now apply returns_ret. Qed.

Lemma getFileContext_returns files :
  returns (ContextEngine.getFileContext E user files) (fun _ => True).
Proof.
  unfold ContextEngine.getFileContext. destruct (List.length files =? 0).
  - now apply returns_ret.
  - apply returns_any. intros e. now apply returns_ret.
Qed.

Lemma getTotalDocumentCount_returns :
  returns (ContextEngine.getTotalDocumentCount E user) (fun _ => True).
Proof. apply returns_any. intros e. now apply returns_ret. Qed.

End Running.

Create HintDb running.

#[local] Hint Resolve getUserPreferences_returns getSessionStats_returns
  getRecentInteractions_returns getFileContext_returns
  getTotalDocumentCount_returns returns_clock : running.

(** One step of a builder: run a helper that always returns, keep going. *)
Ltac step :=
  eapply returns_bind; [solve [eauto with running] | intros ? _; cbv beta].

Section Builders.
Variable E : Env.
Variable user : User.t.

Lemma buildUserInfoLayer_summary :
  returns (ContextEngine.buildUserInfoLayer E user)
          (fun l => summary l = (2, active, (8 # 10)%Q)).
Proof.
  unfold ContextEngine.buildUserInfoLayer. do 3 step.
  apply returns_ret. reflexivity.
Qed.

Lemma buildKnowledgeLayer_summary userQuery files :
  returns (ContextEngine.buildKnowledgeLayer E user userQuery files)
          (fun l => summary l
                    = (3, if 0 <? List.length files then active else inactive,
                          if 0 <? List.length files then (9 # 10)%Q else (1 # 10)%Q)).
Proof.
  unfold ContextEngine.buildKnowledgeLayer, ContextEngine.retrieveRelevantDocuments,
    ContextEngine.getDomainExpertise, ContextEngine.getLastIndexUpdate.
  eapply returns_bind; [apply (returns_ret (@nil json) (fun d => d = [])); reflexivity|].
  intros docs ->. step.
  eapply returns_bind; [apply returns_ret with (P := fun _ => True); exact I | intros ? _].
  do 2 step. apply returns_ret. reflexivity.
Qed.


(** A builder that touches neither the database nor the network runs by
    computation. *)
Ltac runs_pure := intros w; eexists _, _; split; [reflexivity | try reflexivity].

Lemma buildInstructionsLayer_summary :
  returns ContextEngine.buildInstructionsLayer
          (fun l => summary l = (1, active, 1%Q)).
Proof. runs_pure. Qed.

Lemma buildTaskGoalState_summary :
  returns ContextEngine.buildTaskGoalState
          (fun l => summary l = (4, inactive, (2 # 10)%Q)).
Proof. runs_pure. Qed.

Lemma buildMemoryLayer_summary userQuery :
  returns (ContextEngine.buildMemoryLayer userQuery)
          (fun l => summary l = (5, active, (7 # 10)%Q)
                    /\ ContextLayer.data l = empty_memory).
Proof. runs_pure. split; reflexivity. Qed.

Lemma buildToolsLayer_summary :
  returns ContextEngine.buildToolsLayer
          (fun l => summary l = (6, inactive, (3 # 10)%Q)).
Proof. runs_pure. Qed.

Lemma buildExamplesLayer_summary userQuery :
  returns (ContextEngine.buildExamplesLayer userQuery)
          (fun l => summary l = (7, inactive, (1 # 10)%Q)).
Proof. runs_pure. Qed.

Lemma buildContextLayer_summary :
  returns (ContextEngine.buildContextLayer E)
          (fun l => summary l = (8, active, (9 # 10)%Q)).
Proof. runs_pure. Qed.

Lemma buildConstraintsLayer_summary :
  returns ContextEngine.buildConstraintsLayer
          (fun l => summary l = (9, active, (5 # 10)%Q)).
Proof. runs_pure. Qed.

Lemma buildOutputFormatLayer_summary userQuery :
  returns (ContextEngine.buildOutputFormatLayer userQuery)
          (fun l => summary l = (10, active, (6 # 10)%Q)).
Proof. runs_pure. Qed.

Lemma buildUserQueryLayer_summary userQuery :
  returns (ContextEngine.buildUserQueryLayer E userQuery)
          (fun l => summary l = (11, active, 1%Q)
                    /\ prop (ContextLayer.data l) "complexity"
                       = Some (JStr (ContextEngine.Complexity_name
                                       (ContextEngine.assessComplexity userQuery)))).
Proof. runs_pure. split; reflexivity. Qed.

Lemma buildContextWindow_built userQuery files :
  returns (ContextEngine.buildContextWindow E user userQuery files)
          (built userQuery files).
Proof.
  unfold ContextEngine.buildContextWindow.
  eapply returns_bind; [apply buildInstructionsLayer_summary | intros l1 H1].
  eapply returns_bind; [apply buildUserInfoLayer_summary | intros l2 H2].
  eapply returns_bind; [apply buildKnowledgeLayer_summary | intros l3 H3].
  eapply returns_bind; [apply buildTaskGoalState_summary | intros l4 H4].
  eapply returns_bind; [apply buildMemoryLayer_summary | intros l5 [H5 D5]].
  eapply returns_bind; [apply buildToolsLayer_summary | intros l6 H6].
  eapply returns_bind; [apply buildExamplesLayer_summary | intros l7 H7].
  eapply returns_bind; [apply buildContextLayer_summary | intros l8 H8].
  eapply returns_bind; [apply buildConstraintsLayer_summary | intros l9 H9].
  eapply returns_bind; [apply buildOutputFormatLayer_summary | intros l10 H10].
  eapply returns_bind; [apply buildUserQueryLayer_summary | intros l11 [H11 D11]].
  eapply returns_bind; [apply returns_clock | intros lastUpdate _].
  apply returns_ret. unfold built. cbn [app ContextWindow.layers
    ContextWindow.activeLayers ContextWindow.relevanceScore ContextWindow.tokenCount].
  repeat split.
  - cbn [map]. rewrite H1, H2, H3, H4, H5, H6, H7, H8, H9, H10, H11. reflexivity.
  - intros l Hl. cbn in Hl. now inversion Hl; subst.
  - intros l Hl. cbn in Hl. now inversion Hl; subst.
  - cbn [map fold_right]. lia.
Qed.

End Builders.

Section Windows.
Variable E : Env.
Variable user : User.t.

Lemma built_ids userQuery files cw :
  built userQuery files cw ->
  map ContextLayer.id (ContextWindow.layers cw) = [1; 2; 3; 4; 5; 6; 7; 8; 9; 10; 11].
Proof.
  intros (Hsum & _).
  assert (H : map ContextLayer.id (ContextWindow.layers cw)
              = map (fun s => fst (fst s)) (map summary (ContextWindow.layers cw))).
  { rewrite map_map. reflexivity. }
  rewrite H, Hsum. reflexivity.
Qed.

(** The eleven layers of a built window, by name. *)
Lemma built_layers userQuery files cw :
  built userQuery files cw ->
  exists l1 l2 l3 l4 l5 l6 l7 l8 l9 l10 l11,
    ContextWindow.layers cw = [l1; l2; l3; l4; l5; l6; l7; l8; l9; l10; l11]
    /\ map summary [l1; l2; l3; l4; l5; l6; l7; l8; l9; l10; l11]
       = expected_summaries files.
Proof.
  intros (Hsum & _).
  destruct (ContextWindow.layers cw) as
    [|l1 [|l2 [|l3 [|l4 [|l5 [|l6 [|l7 [|l8 [|l9 [|l10 [|l11 [|l12 rest]]]]]]]]]]]];
    try discriminate Hsum.
  now exists l1, l2, l3, l4, l5, l6, l7, l8, l9, l10, l11.
Qed.

Lemma cons_inv {A} (a b : A) (l l' : list A) :
  a :: l = b :: l' -> a = b /\ l = l'.
Proof. intros H. injection H as -> ->. auto. Qed.

Lemma summary_inv l i s r :
  summary l = (i, s, r) ->
  ContextLayer.id l = i /\ ContextLayer.status l = s /\ ContextLayer.relevanceScore l = r.
Proof. unfold summary. intros H. injection H as -> -> ->. auto. Qed.

Lemma built_relevance userQuery files cw :
  built userQuery files cw ->
  (ContextWindow.relevanceScore cw
   == if 0 <? List.length files then 646 # 1100 else 557 # 1100)%Q.
Proof.
  intros Hb. destruct (built_layers _ _ _ Hb) as
    (l1 & l2 & l3 & l4 & l5 & l6 & l7 & l8 & l9 & l10 & l11 & Hl & Hs).
  destruct Hb as (_ & _ & _ & _ & Hrel & _).
  rewrite Hrel, Hl. unfold expected_summaries in Hs. cbn [map] in Hs.
  apply cons_inv in Hs as (H1 & Hs); apply cons_inv in Hs as (H2 & Hs);
    apply cons_inv in Hs as (H3 & Hs); apply cons_inv in Hs as (H4 & Hs);
    apply cons_inv in Hs as (H5 & Hs); apply cons_inv in Hs as (H6 & Hs);
    apply cons_inv in Hs as (H7 & Hs); apply cons_inv in Hs as (H8 & Hs);
    apply cons_inv in Hs as (H9 & Hs); apply cons_inv in Hs as (H10 & Hs);
    apply cons_inv in Hs as (H11 & _).
  apply summary_inv in H1, H2, H3, H4, H5, H6, H7, H8, H9, H10, H11.
  destruct H1 as (_ & S1 & R1), H2 as (_ & S2 & R2), H3 as (_ & S3 & R3),
    H4 as (_ & S4 & R4), H5 as (_ & S5 & R5), H6 as (_ & S6 & R6),
    H7 as (_ & S7 & R7), H8 as (_ & S8 & R8), H9 as (_ & S9 & R9),
    H10 as (_ & S10 & R10), H11 as (_ & S11 & R11).
  unfold ContextEngine.calculateRelevanceScore. cbn [fold_left List.length].
  rewrite S1, S2, S3, S4, S5, S6, S7, S8, S9, S10, S11,
    R1, R2, R3, R4, R5, R6, R7, R8, R9, R10, R11.
  destruct (0 <? List.length files); reflexivity.
Qed.

End Windows.

(** C1: for every session, query and attachment list, and whatever the
    database answers (rows, no rows, or a thrown error at any statement),
    [buildContextWindow] returns a window whose [layers] has exactly eleven
    entries, with the ids 1 to 11 in that order. *)
Theorem buildContextWindow_eleven_layers :
  forall (E : Env) (user : User.t) (userQuery : string) (files : list string)
         (w : world),
  exists cw w',
    ContextEngine.buildContextWindow E user userQuery files w = (Ret cw, w')
    /\ List.length (ContextWindow.layers cw) = 11
    /\ map ContextLayer.id (ContextWindow.layers cw)
       = [1; 2; 3; 4; 5; 6; 7; 8; 9; 10; 11].
Proof.
  intros E user userQuery files w.
  destruct (buildContextWindow_built E user userQuery files w) as (cw & w' & Hrun & Hb).
  exists cw, w'. split; [exact Hrun|].
  pose proof (built_ids _ _ _ Hb) as Hids. split; [|exact Hids].
  rewrite <- (length_map ContextLayer.id), Hids. reflexivity.
Qed.

(** With every database statement throwing, the window still has its eleven
    layers. *)
Example eleven_layers_when_database_fails :
  exists cw w',
    ContextEngine.buildContextWindow failing_env anonymous "summarize this" ["f1"] initial
    = (Ret cw, w')
    /\ map summary (ContextWindow.layers cw) = expected_summaries ["f1"].
Proof. eexists _, _. split; vm_compute; reflexivity. Qed.

(** C6: for every query and attachment list, the Knowledge layer (third of
    the window, id 3) is active if and only if retrieval returned at least one
    document or the attachment list is not empty; its relevance score is
    exactly 0.9 when it is active, and otherwise it is inactive with relevance
    score exactly 0.1. *)
Theorem knowledge_layer_activation :
  forall (E : Env) (user : User.t) (userQuery : string) (files : list string)
         (w : world),
  exists cw w' knowledge docs,
    ContextEngine.buildContextWindow E user userQuery files w = (Ret cw, w')
    /\ nth_error (ContextWindow.layers cw) 2 = Some knowledge
    /\ ContextLayer.id knowledge = 3
    /\ (forall w0, ContextEngine.retrieveRelevantDocuments userQuery w0 = (Ret docs, w0))
    /\ (ContextLayer.status knowledge = active
        <-> 0 < List.length docs \/ 0 < List.length files)
    /\ (ContextLayer.status knowledge = active ->
        ContextLayer.relevanceScore knowledge = (9 # 10)%Q)
    /\ (ContextLayer.status knowledge <> active ->
        ContextLayer.status knowledge = inactive
        /\ ContextLayer.relevanceScore knowledge = (1 # 10)%Q).
Proof.
  intros E user userQuery files w.
  destruct (buildContextWindow_built E user userQuery files w) as (cw & w' & Hrun & Hb).
  destruct (built_layers _ _ _ Hb) as
    (l1 & l2 & l3 & l4 & l5 & l6 & l7 & l8 & l9 & l10 & l11 & Hl & Hs).
  unfold expected_summaries in Hs. cbn [map] in Hs.
  apply cons_inv in Hs as (_ & Hs); apply cons_inv in Hs as (_ & Hs);
    apply cons_inv in Hs as (H3 & _).
  apply summary_inv in H3 as (Hid & Hst & Hrel).
  exists cw, w', l3, []. split; [exact Hrun|].
  split; [rewrite Hl; reflexivity|]. split; [exact Hid|].
  split; [reflexivity|]. cbn [List.length].
  rewrite Hst, Hrel. destruct (Nat.ltb_spec 0 (List.length files)) as [Hpos | Hzero].
  - repeat split; auto; try congruence.
  - repeat split; try congruence; try (intros [Hd | Hf]; lia).
Qed.

(** C4, counterexample: in a session with no message and no file, the query
    "hi" gives a window whose aggregate relevance is not below 0.5. *)
Lemma hi_relevance_not_below_half :
  exists cw w',
    ContextEngine.buildContextWindow empty_env anonymous "hi" [] initial = (Ret cw, w')
    /\ ~ (ContextWindow.relevanceScore cw < 1 # 2)%Q.
Proof.
  eexists _, _. split; [vm_compute; reflexivity|].
  vm_compute. intros H. discriminate H.
Qed.

(** C4, as amended: for any session, the query "hi" (one word for the
    source's [split(' ')]) without attachments gives a UserQuery layer of
    complexity [simple], an inactive Knowledge layer, an active Memory layer
    whose three tiers are empty, and the aggregate relevance 5.57 / 11, which
    lies strictly between 0.5 and 0.51. *)
Theorem hi_scenario :
  forall (E : Env) (user : User.t) (w : world),
  exists cw w' knowledge memory query,
    ContextEngine.buildContextWindow E user "hi" [] w = (Ret cw, w')
    /\ List.length (split " "%char "hi") = 1
    /\ nth_error (ContextWindow.layers cw) 10 = Some query
    /\ ContextLayer.id query = 11
    /\ prop (ContextLayer.data query) "complexity" = Some (JStr "simple")
    /\ nth_error (ContextWindow.layers cw) 2 = Some knowledge
    /\ ContextLayer.id knowledge = 3
    /\ ContextLayer.status knowledge = inactive
    /\ nth_error (ContextWindow.layers cw) 4 = Some memory
    /\ ContextLayer.id memory = 5
    /\ ContextLayer.status memory = active
    /\ ContextLayer.data memory = empty_memory
    /\ (ContextWindow.relevanceScore cw == 557 # 1100)%Q
    /\ (1 # 2 < ContextWindow.relevanceScore cw)%Q
    /\ (ContextWindow.relevanceScore cw < 51 # 100)%Q.
Proof.
  intros E user w.
  destruct (buildContextWindow_built E user "hi" [] w) as (cw & w' & Hrun & Hb).
  pose proof (built_relevance _ _ _ Hb) as Hrel. cbn in Hrel.
  destruct (built_layers _ _ _ Hb) as
    (l1 & l2 & l3 & l4 & l5 & l6 & l7 & l8 & l9 & l10 & l11 & Hl & Hs).
  destruct Hb as (_ & Hmem & Hquery & _).
  unfold expected_summaries in Hs. cbn [map] in Hs.
  apply cons_inv in Hs as (_ & Hs); apply cons_inv in Hs as (_ & Hs);
    apply cons_inv in Hs as (H3 & Hs); apply cons_inv in Hs as (_ & Hs);
    apply cons_inv in Hs as (H5 & Hs); apply cons_inv in Hs as (_ & Hs);
    apply cons_inv in Hs as (_ & Hs); apply cons_inv in Hs as (_ & Hs);
    apply cons_inv in Hs as (_ & Hs); apply cons_inv in Hs as (_ & Hs);
    apply cons_inv in Hs as (H11 & _).
  apply summary_inv in H3 as (I3 & S3 & _), H5 as (I5 & S5 & _), H11 as (I11 & _ & _).
  exists cw, w', l3, l5, l11. rewrite Hl in *.
  split; [exact Hrun|]. split; [reflexivity|].
  split; [reflexivity|]. split; [exact I11|].
  split; [apply (Hquery l11); reflexivity|].
  split; [reflexivity|]. split; [exact I3|]. split; [exact S3|].
  split; [reflexivity|]. split; [exact I5|]. split; [exact S5|].
  split; [apply (Hmem l5); reflexivity|].
  split; [exact Hrel|]. rewrite Hrel. split; reflexivity.
Qed.

(** C2, counterexample: with a budget of 50 tokens the optimiser raises no
    error and reports no size, and the window assembled afterwards for the
    query "hi" counts 882 tokens. *)
Lemma optimize_leaves_window_over_budget :
  ~ within_budget_or_infeasible empty_env anonymous 50 "hi" [].
Proof.
  unfold within_budget_or_infeasible. cbn [ContextEngine.optimizeContext ret].
  intros [(n & Hn & _) | (cw & w' & Hrun & Hle)].
  - discriminate Hn.
  - vm_compute in Hrun. injection Hrun as <- _. vm_compute in Hle. lia.
Qed.

(** C2, as amended: [optimizeContext] is a placeholder.  For every budget and
    preserve list it returns the empty object, raises no error and leaves the
    state as it is; the [/optimize] route then answers 200 with [success: true]
    and no size field.  No layer is dropped: the window assembled afterwards
    still has the Instructions, Constraints and UserQuery layers, active. *)
Theorem optimizeContext_is_placeholder :
  forall (E : Env) (user : User.t) (targetSize : option json) (preserveLayers : json)
         (userQuery : string) (files : list string) (w : world),
    ContextEngine.optimizeContext targetSize preserveLayers w = (Ret (JObj []), w)
    /\ (forall body, body <> JNull ->
          ContextRoutes.post_optimize (Some body) w
          = (Ret (ContextRoutes.Reply 200 (JObj [("success", JBool true)])), w))
    /\ exists cw w',
         ContextEngine.buildContextWindow E user userQuery files w = (Ret cw, w')
         /\ forall i, In i [1; 9; 11] ->
              exists l, In l (ContextWindow.layers cw)
                        /\ ContextLayer.id l = i
                        /\ ContextLayer.status l = active.
Proof.
  intros E user targetSize preserveLayers userQuery files w.
  split; [reflexivity|]. split.
  - intros body Hbody. destruct body; try contradiction; reflexivity.
  - destruct (buildContextWindow_built E user userQuery files w) as (cw & w' & Hrun & Hb).
    exists cw, w'. split; [exact Hrun|].
    destruct (built_layers _ _ _ Hb) as
      (l1 & l2 & l3 & l4 & l5 & l6 & l7 & l8 & l9 & l10 & l11 & Hl & Hs).
    unfold expected_summaries in Hs. cbn [map] in Hs.
    apply cons_inv in Hs as (H1 & Hs); apply cons_inv in Hs as (_ & Hs);
      apply cons_inv in Hs as (_ & Hs); apply cons_inv in Hs as (_ & Hs);
      apply cons_inv in Hs as (_ & Hs); apply cons_inv in Hs as (_ & Hs);
      apply cons_inv in Hs as (_ & Hs); apply cons_inv in Hs as (_ & Hs);
      apply cons_inv in Hs as (H9 & Hs); apply cons_inv in Hs as (_ & Hs);
      apply cons_inv in Hs as (H11 & _).
    apply summary_inv in H1 as (I1 & S1 & _), H9 as (I9 & S9 & _),
      H11 as (I11 & S11 & _).
    rewrite Hl. intros i [<- | [<- | [<- | []]]].
    + exists l1. cbn. auto.
    + exists l9. cbn. auto 12.
    + exists l11. cbn. auto 14.
Qed.

(** C5, counterexample: a long-tier row is in table [memory], and a search for
    its own content with limit 10 returns nothing. *)
Lemma stored_long_term_item_is_not_found :
  ~ memory_round_trip env_with_memory 10.
Proof.
  intros H.
  destruct (H remembered (or_introl eq_refl) eq_refl)
    as (results & w' & Hrun & item & Hin & _).
  cbn in Hrun. injection Hrun as <- _. exact Hin.
Qed.

(** C5, as amended: the long-term search is a placeholder.  For every query
    and limit, [searchLongTermMemory], [searchMemory] on the tier "long" and
    [searchSimilarEmbeddings] return the empty list and leave the state as it
    is. *)
Theorem long_term_search_is_empty :
  forall (query : string) (limit : nat) (queryEmbedding : json) (userId : string)
         (threshold : Q) (w : world),
    ContextEngine.searchLongTermMemory query limit w = (Ret [], w)
    /\ ContextEngine.searchMemory query "long" limit w = (Ret [], w)
    /\ EmbeddingService.searchSimilarEmbeddings queryEmbedding userId limit threshold w
       = (Ret [], w).
Proof. intros. repeat split. Qed.

Section Requests.
Variable E : Env.

Lemma sent_app w t (l : list request) :
  sent w (World t (calls w ++ l)) = l.
Proof.
  unfold sent. cbn [calls]. rewrite skipn_app, skipn_all, Nat.sub_diag. reflexivity.
Qed.

Lemma sent_none w t : sent w (World t (calls w)) = [].
Proof. unfold sent. cbn [calls]. apply skipn_all. Qed.

(** Each provider call puts exactly one request on the wire. *)
Lemma generateVoyageEmbedding_calls text w :
  snd (EmbeddingService.generateVoyageEmbedding E text w)
  = World (ticks w) (calls w ++ [EmbeddingService.voyage_request text]).
Proof.
  unfold EmbeddingService.generateVoyageEmbedding, bind, do_fetch. cbn.
  destruct (fetch E _ _) as [e | ok st txt parsed]; [reflexivity|].
  destruct ok; [|reflexivity]. destruct parsed; reflexivity.
Qed.

Lemma generateOpenAIEmbedding_calls text w :
  snd (EmbeddingService.generateOpenAIEmbedding E text w)
  = World (ticks w) (calls w ++ [EmbeddingService.openai_request text]).
Proof.
  unfold EmbeddingService.generateOpenAIEmbedding, bind, do_fetch. cbn.
  destruct (fetch E _ _) as [e | ok st txt parsed]; [reflexivity|].
  destruct ok; [|reflexivity]. destruct parsed; reflexivity.
Qed.

Lemma generateEmbedding_primary_calls text w :
  snd (AIService.generateEmbedding_primary E text w)
  = World (ticks w) (calls w ++ [EmbeddingService.voyage_request text]).
Proof.
  unfold AIService.generateEmbedding_primary, bind, do_fetch. cbn.
  destruct (fetch E _ _) as [e | ok st txt parsed]; [reflexivity|].
  destruct ok; [|reflexivity]. destruct parsed; reflexivity.
Qed.

Lemma AI_generateOpenAIEmbedding_calls text w :
  snd (AIService.generateOpenAIEmbedding E text w)
  = World (ticks w) (calls w ++ [EmbeddingService.openai_request text]).
Proof.
  unfold AIService.generateOpenAIEmbedding, bind, do_fetch. cbn.
  destruct (fetch E _ _) as [e | ok st txt parsed]; [reflexivity|].
  destruct ok; [|reflexivity]. destruct parsed; reflexivity.
Qed.

End Requests.

Section Comparisons.

(** Between an integer and the next binary64 value lies no integer: for an
    integer operand, [>] is the comparison of the integers. *)
Lemma rounds_above_integer (z k : Z) :
  (0 <= k < 2 ^ 52)%Z ->
  Coercion.rounds_above (inject_Z z) k = (k <? z)%Z.
Proof.
  intros [Hk0 Hk].
  assert (Hgap : exists big, Coercion.half_gap k = Qmake 1 big /\ (1 < Z.pos big)%Z).
  { unfold Coercion.half_gap. destruct (Z.eqb_spec k 0) as [-> | Hnz].
    - eexists. split; reflexivity.
    - eexists. split; [reflexivity|].
      assert (Hlog : (Z.log2 k < 52)%Z) by (apply Z.log2_lt_pow2; lia).
      pose proof (Z.log2_nonneg k) as Hlog0.
      rewrite Z2Pos.id by (apply Z.pow_pos_nonneg; lia).
      apply (Z.pow_gt_1 2); lia. }
  unfold Coercion.rounds_above. destruct Hgap as (big & -> & Hbig).
  unfold Qle_bool, Qplus, inject_Z. cbn [Qnum Qden].
  rewrite Pos.mul_1_l.
  destruct (Z.ltb_spec k z) as [Hlt | Hge].
  - apply (f_equal negb (y := false)). apply Z.leb_gt. nia.
  - apply (f_equal negb (y := true)). apply Z.leb_le. nia.
Qed.

Lemma greater_than_nat (n : nat) (k : Z) :
  (0 <= k < 2 ^ 52)%Z ->
  Coercion.greater_than (Some (JNat n)) k = Ret (k <? Z.of_nat n)%Z.
Proof.
  intros Hk. unfold Coercion.greater_than, Coercion.ToNumber, JNat, and_then.
  f_equal. unfold num_value. cbn [Nat.pow Pos.of_nat].
  now apply rounds_above_integer.
Qed.

(** On a response of the declared type, the confidence computed at run time
    is the one of [calculateConfidence]. *)
Lemma calculateConfidence_of_typed (r : AIService.AIResponse)
    (usage : AIService.Usage) (confidence : Q) (processingTime : Z)
    (cw : ContextWindow.t) :
  AIService.calculateConfidence_of
    {| AIService.returned_content := Some (JStr (AIService.content r));
       AIService.returned_model := Some (JStr (AIService.model r));
       AIService.returned_usage := usage;
       AIService.returned_confidence := confidence;
       AIService.returned_processingTime := processingTime |} cw
  = Ret (AIService.calculateConfidence r cw).
Proof.
  unfold AIService.calculateConfidence_of, AIService.calculateConfidence.
  cbn [AIService.returned_content AIService.returned_model get prop
       String.eqb Ascii.eqb Bool.eqb and_then AIService.call_includes].
  rewrite !greater_than_nat by (split; [lia | reflexivity]).
  cbn [and_then].
  replace (500 <? Z.of_nat (String.length (AIService.content r)))%Z
    with (500 <? String.length (AIService.content r))
    by (destruct (Nat.ltb_spec 500 (String.length (AIService.content r)));
        symmetry; [apply Z.ltb_lt | apply Z.ltb_ge]; lia).
  replace (1000 <? Z.of_nat (String.length (AIService.content r)))%Z
    with (1000 <? String.length (AIService.content r))
    by (destruct (Nat.ltb_spec 1000 (String.length (AIService.content r)));
        symmetry; [apply Z.ltb_lt | apply Z.ltb_ge]; lia).
  reflexivity.
Qed.

End Comparisons.

Section Answers.
Variable E : Env.

(** The validation of the embedding service accepts exactly the answers
    that deliver an embedding. *)
Lemma read_embedding_delivered provider status text data :
  match delivered_embedding (Response true status text (Some data)) with
  | Some v => EmbeddingService.read_embedding provider data = Ret v
  | None => is_ret (EmbeddingService.read_embedding provider data) = false
  end.
Proof.
  unfold delivered_embedding, answer_embedding, EmbeddingService.read_embedding.
  destruct (get (Some data) "data") as [rows | e]; cbn [and_then]; [|reflexivity].
  destruct (truthy_opt rows) eqn:Hrows; cbn [negb].
  - destruct (at0 rows) as [row | e]; cbn [and_then]; [|reflexivity].
    destruct (truthy_opt row) eqn:Hrow; cbn [negb].
    + destruct (get row "embedding") as [[v|] | e]; cbn [and_then];
        [destruct (truthy v) | |]; reflexivity.
    + destruct row as [[| b | m sc | s | items | fields]|];
        try discriminate Hrow; cbn [get prop]; reflexivity.
  - destruct rows as [[| b | m sc | s | items | fields]|];
      try discriminate Hrows; cbn [at0 and_then get]; try reflexivity.
    destruct s; [reflexivity | discriminate Hrows].
Qed.

(** A call of the embedding service returns exactly when the answer of the
    provider delivers an embedding. *)
Lemma generateVoyageEmbedding_answer text w :
  snd (EmbeddingService.generateVoyageEmbedding E text w)
  = World (ticks w) (calls w ++ [EmbeddingService.voyage_request text])
  /\ match delivered_embedding
             (fetch E (List.length (calls w)) (EmbeddingService.voyage_request text)) with
     | Some v => fst (EmbeddingService.generateVoyageEmbedding E text w) = Ret v
     | None => is_ret (fst (EmbeddingService.generateVoyageEmbedding E text w)) = false
     end.
Proof.
  unfold EmbeddingService.generateVoyageEmbedding, bind, do_fetch, lift, throw.
  cbn [fst snd ticks calls].
  destruct (fetch E _ _) as [e | ok status text' parsed]; [split; reflexivity|].
  destruct ok; cbn [negb]; [|split; reflexivity].
  destruct parsed as [data|]; [|split; reflexivity].
  split; [reflexivity|]. cbn [fst].
  apply (read_embedding_delivered "Voyage" status text' data).
Qed.

Lemma generateOpenAIEmbedding_answer text w :
  snd (EmbeddingService.generateOpenAIEmbedding E text w)
  = World (ticks w) (calls w ++ [EmbeddingService.openai_request text])
  /\ match delivered_embedding
             (fetch E (List.length (calls w)) (EmbeddingService.openai_request text)) with
     | Some v => fst (EmbeddingService.generateOpenAIEmbedding E text w) = Ret v
     | None => is_ret (fst (EmbeddingService.generateOpenAIEmbedding E text w)) = false
     end.
Proof.
  unfold EmbeddingService.generateOpenAIEmbedding, bind, do_fetch, lift, throw.
  cbn [fst snd ticks calls].
  destruct (fetch E _ _) as [e | ok status text' parsed]; [split; reflexivity|].
  destruct ok; cbn [negb]; [|split; reflexivity].
  destruct parsed as [data|]; [|split; reflexivity].
  split; [reflexivity|]. cbn [fst].
  apply (read_embedding_delivered "OpenAI" status text' data).
Qed.

(** A call of the AI service returns exactly when the answer of the provider
    has a first row, and returns what that row holds at [embedding]. *)
Lemma generateEmbedding_primary_answer text w :
  snd (AIService.generateEmbedding_primary E text w)
  = World (ticks w) (calls w ++ [EmbeddingService.voyage_request text])
  /\ match answer_embedding
             (fetch E (List.length (calls w)) (EmbeddingService.voyage_request text)) with
     | Some v => fst (AIService.generateEmbedding_primary E text w) = Ret v
     | None => is_ret (fst (AIService.generateEmbedding_primary E text w)) = false
     end.
Proof.
  unfold AIService.generateEmbedding_primary, EmbeddingService.voyage_request, bind,
    do_fetch, lift, throw, answer_embedding.
  cbn [fst snd ticks calls].
  destruct (fetch E _ _) as [e | ok status text' parsed]; [split; reflexivity|].
  destruct ok; cbn [negb]; [|split; reflexivity].
  destruct parsed as [data|]; cbn [AIService.response_json ret throw];
    [|split; reflexivity].
  split; [reflexivity|]. cbn [fst].
  match goal with
  | |- match match ?run with _ => _ end with _ => _ end =>
      destruct run; reflexivity
  end.
Qed.

Lemma AI_generateOpenAIEmbedding_answer text w :
  snd (AIService.generateOpenAIEmbedding E text w)
  = World (ticks w) (calls w ++ [EmbeddingService.openai_request text])
  /\ match answer_embedding
             (fetch E (List.length (calls w)) (EmbeddingService.openai_request text)) with
     | Some v => fst (AIService.generateOpenAIEmbedding E text w) = Ret v
     | None => is_ret (fst (AIService.generateOpenAIEmbedding E text w)) = false
     end.
Proof.
  unfold AIService.generateOpenAIEmbedding, EmbeddingService.openai_request, bind,
    do_fetch, lift, throw, answer_embedding.
  cbn [fst snd ticks calls].
  destruct (fetch E _ _) as [e | ok status text' parsed]; [split; reflexivity|].
  destruct ok; cbn [negb]; [|split; reflexivity].
  destruct parsed as [data|]; cbn [AIService.response_json ret throw];
    [|split; reflexivity].
  split; [reflexivity|]. cbn [fst].
  match goal with
  | |- match match ?run with _ => _ end with _ => _ end =>
      destruct run; reflexivity
  end.
Qed.

End Answers.

(** C8: for every input text, embedding generation
    ([EmbeddingService.generateSingleEmbedding] on the cleaned text,
    [AIService.generateEmbedding] on the text) sends its first request to
    Voyage, and the answer to that request decides what follows.  If the
    answer delivers an embedding, that embedding is returned and nothing else
    is sent.  If it does not (the request is rejected, the status is not one
    of success, the body is not JSON or holds no usable first row), exactly
    one more request goes out, to OpenAI, and the answer to it decides: its
    embedding is returned, and an error reaches the caller only when the
    second answer delivers none either.  (The embedding service takes a
    truthy [data[0].embedding] for delivered, the AI service whatever the
    first row holds there.) *)
Theorem embedding_falls_back_once :
  forall (E : Env) (text : string) (w : world),
    let n := List.length (calls w) in
    (let clean := EmbeddingService.cleanTextForEmbedding text in
     let voyage := EmbeddingService.voyage_request clean in
     let openai := EmbeddingService.openai_request clean in
     let final := EmbeddingService.generateSingleEmbedding E text w in
     match delivered_embedding (fetch E n voyage) with
     | Some v => final = (Ret v, World (ticks w) (calls w ++ [voyage]))
     | None =>
         snd final = World (ticks w) (calls w ++ [voyage; openai])
         /\ match delivered_embedding (fetch E (S n) openai) with
            | Some v => fst final = Ret v
            | None => fst final = Throw (Error "All embedding services unavailable")
            end
     end)
    /\
    (let voyage := EmbeddingService.voyage_request text in
     let openai := EmbeddingService.openai_request text in
     let final := AIService.generateEmbedding E text w in
     match answer_embedding (fetch E n voyage) with
     | Some v => final = (Ret v, World (ticks w) (calls w ++ [voyage]))
     | None =>
         snd final = World (ticks w) (calls w ++ [voyage; openai])
         /\ match answer_embedding (fetch E (S n) openai) with
            | Some v => fst final = Ret v
            | None => is_ret (fst final) = false
            end
     end).
Proof.
  intros E text w. cbv zeta. split.
  - set (clean := EmbeddingService.cleanTextForEmbedding text).
    unfold EmbeddingService.generateSingleEmbedding. fold clean. unfold try_catch.
    destruct (generateVoyageEmbedding_answer E clean w) as [Hw Hv].
    destruct (EmbeddingService.generateVoyageEmbedding E clean w) as [[v | e] w1].
    + cbn [fst snd is_ret] in *. subst w1.
      destruct (delivered_embedding _) as [v'|]; [|discriminate Hv].
      now injection Hv as ->.
    + cbn [fst snd is_ret] in *. subst w1.
      destruct (delivered_embedding _) as [v'|]; [discriminate Hv|].
      destruct (generateOpenAIEmbedding_answer E clean
                  (World (ticks w) (calls w ++ [EmbeddingService.voyage_request clean])))
        as [Hw2 Hv2].
      cbn [ticks calls] in Hw2, Hv2.
      rewrite length_app, Nat.add_comm in Hv2. cbn [List.length Nat.add] in Hv2.
      destruct (EmbeddingService.generateOpenAIEmbedding E clean _) as [[v2 | e2] w2].
      * cbn [fst snd is_ret throw] in *. subst w2. rewrite <- app_assoc.
        split; [reflexivity|].
        destruct (delivered_embedding _) as [v'|]; [exact Hv2 | discriminate Hv2].
      * cbn [fst snd is_ret throw] in *. subst w2. rewrite <- app_assoc.
        split; [reflexivity|].
        destruct (delivered_embedding _) as [v'|]; [discriminate Hv2 | reflexivity].
  - unfold AIService.generateEmbedding, try_catch.
    destruct (generateEmbedding_primary_answer E text w) as [Hw Hv].
    destruct (AIService.generateEmbedding_primary E text w) as [[v | e] w1].
    + cbn [fst snd is_ret] in *. subst w1.
      destruct (answer_embedding _) as [v'|]; [|discriminate Hv].
      now injection Hv as ->.
    + cbn [fst snd is_ret] in *. subst w1.
      destruct (answer_embedding _) as [v'|]; [discriminate Hv|].
      destruct (AI_generateOpenAIEmbedding_answer E text
                  (World (ticks w) (calls w ++ [EmbeddingService.voyage_request text])))
        as [Hw2 Hv2].
      cbn [ticks calls] in Hw2, Hv2.
      rewrite length_app, Nat.add_comm in Hv2. cbn [List.length Nat.add] in Hv2.
      rewrite Hw2. rewrite <- app_assoc. split; [reflexivity|].
      destruct (answer_embedding _) as [v'|]; exact Hv2.
Qed.

Section Backends.
Variable E : Env.

Lemma callOpenAI_calls prompt model options w :
  exists body,
    snd (AIService.callOpenAI E prompt model options w)
    = World (ticks w) (calls w ++ [Request OpenAIChat body]).
Proof.
  unfold AIService.callOpenAI, bind, do_fetch. cbn.
  destruct (fetch E _ _) as [e | ok st txt parsed]; [eexists; reflexivity|].
  destruct ok; [|eexists; reflexivity].
  destruct parsed; eexists; reflexivity.
Qed.

Lemma callAnthropic_calls prompt model options w :
  exists body,
    snd (AIService.callAnthropic E prompt model options w)
    = World (ticks w) (calls w ++ [Request AnthropicMessages body]).
Proof.
  unfold AIService.callAnthropic, bind, do_fetch. cbn.
  destruct (fetch E _ _) as [e | ok st txt parsed]; [eexists; reflexivity|].
  destruct ok; [|eexists; reflexivity].
  destruct parsed; eexists; reflexivity.
Qed.

(** The request of a back end names the model, and an answer that is a
    refusal makes the call throw the error of the refusal. *)
Lemma callOpenAI_refused prompt model options w :
  exists body,
    snd (AIService.callOpenAI E prompt model options w)
    = World (ticks w) (calls w ++ [Request OpenAIChat body])
    /\ prop body "model" = Some (JStr model)
    /\ forall e,
         refusal "OpenAI" (fetch E (List.length (calls w)) (Request OpenAIChat body))
         = Some e ->
         fst (AIService.callOpenAI E prompt model options w) = Throw e.
Proof.
  unfold AIService.callOpenAI, bind, do_fetch. cbn.
  match goal with
  | |- context [fetch E _ (Request OpenAIChat ?b)] => exists b
  end.
  destruct (fetch E _ _) as [e | ok st txt parsed].
  - repeat split. intros e' He. now injection He as <-.
  - destruct ok.
    + destruct parsed; repeat split; discriminate.
    + repeat split. intros e' He. now injection He as <-.
Qed.

Lemma callAnthropic_refused prompt model options w :
  exists body,
    snd (AIService.callAnthropic E prompt model options w)
    = World (ticks w) (calls w ++ [Request AnthropicMessages body])
    /\ prop body "model" = Some (JStr model)
    /\ forall e,
         refusal "Anthropic"
           (fetch E (List.length (calls w)) (Request AnthropicMessages body))
         = Some e ->
         fst (AIService.callAnthropic E prompt model options w) = Throw e.
Proof.
  unfold AIService.callAnthropic, bind, do_fetch. cbn.
  match goal with
  | |- context [fetch E _ (Request AnthropicMessages ?b)] => exists b
  end.
  destruct (fetch E _ _) as [e | ok st txt parsed].
  - repeat split. intros e' He. now injection He as <-.
  - destruct ok.
    + destruct parsed; repeat split; discriminate.
    + repeat split. intros e' He. now injection He as <-.
Qed.

Lemma requested_model_of options name :
  requested options name -> AIService.model_of options = name.
Proof.
  unfold requested, AIService.model_of.
  intros [[-> Hname] | [[-> | ->] ->]]; try reflexivity.
  destruct (String.eqb_spec name EmptyString); [contradiction | reflexivity].
Qed.

End Backends.

(** C7: [generateResponse] picks the back end from the prefix of the model
    name it is asked for (the option, or "gpt-4" when the option is left out
    or empty).  With the prefix "gpt-" exactly one request goes out, to
    OpenAI, and it names that model; with "claude-" exactly one, to
    Anthropic; with neither no request goes out and the error "AI generation
    failed: Unsupported model: ..." is thrown.  When the provider refuses
    (the request is rejected, or the status is not one of success) the error
    of the refusal is thrown again as "AI generation failed: ..."; so is any
    other failure of the back end, and no second provider is tried.  (A
    prompt that cannot be built fails the same way before any request.) *)
Theorem generateResponse_routes_by_prefix :
  forall (E : Env) (cw : ContextWindow.t) (options : AIService.AIOptions)
         (name : string) (w : world),
    requested options name ->
    let started := World (S (ticks w)) (calls w) in
    let final := AIService.generateResponse E cw options w in
    match AIService.buildPromptFromContext cw with
    | Throw e =>
        fst final = Throw (Error ("AI generation failed: " ++ message e))
        /\ sent w (snd final) = []
    | Ret prompt =>
        if startsWith name "gpt-" then
          exists body,
            sent w (snd final) = [Request OpenAIChat body]
            /\ prop body "model" = Some (JStr name)
            /\ (forall e,
                  refusal "OpenAI"
                    (fetch E (List.length (calls w)) (Request OpenAIChat body))
                  = Some e ->
                  fst final = Throw (Error ("AI generation failed: " ++ message e)))
            /\ surfaced cw (fst (AIService.callOpenAI E prompt name options started))
                        (fst final)
        else if startsWith name "claude-" then
          exists body,
            sent w (snd final) = [Request AnthropicMessages body]
            /\ prop body "model" = Some (JStr name)
            /\ (forall e,
                  refusal "Anthropic"
                    (fetch E (List.length (calls w)) (Request AnthropicMessages body))
                  = Some e ->
                  fst final = Throw (Error ("AI generation failed: " ++ message e)))
            /\ surfaced cw (fst (AIService.callAnthropic E prompt name options started))
                        (fst final)
        else
          fst final
          = Throw (Error ("AI generation failed: Unsupported model: " ++ name))
          /\ sent w (snd final) = []
    end.
Proof.
  intros E cw options name w Hname. cbv zeta.
  unfold AIService.generateResponse.
  rewrite (requested_model_of options name Hname).
  unfold bind, try_catch, Date_now, lift, throw, ret.
  cbn [fst snd ticks calls].
  destruct (AIService.buildPromptFromContext cw) as [prompt | e].
  2:{ cbn. split; [reflexivity | apply sent_none]. }
  destruct (startsWith name "gpt-").
  - destruct (callOpenAI_refused E prompt name options
                (World (S (ticks w)) (calls w)))
      as (body & Hcalls & Hmodel & Hrefused).
    cbn [ticks calls] in Hcalls, Hrefused. exists body.
    destruct (AIService.callOpenAI E prompt name options _) as [[r | e] w1].
    + cbn [fst snd surfaced] in *. subst w1.
      destruct (AIService.calculateConfidence_of r cw) as [confidence | e];
        cbn [fst snd ticks calls]; rewrite sent_app; repeat split;
        try exact Hmodel;
        try (intros e' He; discriminate (Hrefused e' He)).
      eexists. reflexivity.
    + cbn [fst snd surfaced] in *. subst w1. rewrite sent_app.
      repeat split; try exact Hmodel.
      intros e' He. specialize (Hrefused e' He). now injection Hrefused as <-.
  - destruct (startsWith name "claude-").
    + destruct (callAnthropic_refused E prompt name options
                  (World (S (ticks w)) (calls w)))
        as (body & Hcalls & Hmodel & Hrefused).
      cbn [ticks calls] in Hcalls, Hrefused. exists body.
      destruct (AIService.callAnthropic E prompt name options _) as [[r | e] w1].
      * cbn [fst snd surfaced] in *. subst w1.
        destruct (AIService.calculateConfidence_of r cw) as [confidence | e];
          cbn [fst snd ticks calls]; rewrite sent_app; repeat split;
          try exact Hmodel;
          try (intros e' He; discriminate (Hrefused e' He)).
        eexists. reflexivity.
      * cbn [fst snd surfaced] in *. subst w1. rewrite sent_app.
        repeat split; try exact Hmodel.
        intros e' He. specialize (Hrefused e' He). now injection Hrefused as <-.
    + cbn. split; [reflexivity | apply sent_none].
Qed.

Lemma generateResponse_routes_by_prefix_witness :
  requested (with_model "claude-3-opus") "claude-3-opus"
  /\ exists body,
       sent initial
         (snd (AIService.generateResponse openai_only_env hi_window
                 (with_model "claude-3-opus") initial))
       = [Request AnthropicMessages body]
       /\ prop body "model" = Some (JStr "claude-3-opus")
       /\ fst (AIService.generateResponse openai_only_env hi_window
                 (with_model "claude-3-opus") initial)
          = Throw (Error "AI generation failed: Anthropic API error: 401 - invalid x-api-key").
Proof.
  assert (Hname : requested (with_model "claude-3-opus") "claude-3-opus").
  { left. split; [reflexivity | discriminate]. }
  split; [exact Hname|].
  pose proof (generateResponse_routes_by_prefix openai_only_env hi_window
                (with_model "claude-3-opus") "claude-3-opus" initial Hname) as T.
  cbv zeta in T. revert T.
  destruct (AIService.buildPromptFromContext hi_window) as [prompt | e] eqn:Hprompt;
    [|vm_compute in Hprompt; discriminate Hprompt].
  change (startsWith "claude-3-opus" "gpt-") with false.
  change (startsWith "claude-3-opus" "claude-") with true.
  cbv iota. intros (body & Hsent & Hmodel & Hrefused & _).
  exists body. split; [exact Hsent|]. split; [exact Hmodel|].
  apply (Hrefused (Error "Anthropic API error: 401 - invalid x-api-key")).
  reflexivity.
Defined.

(** C10: there is a [layerId] path parameter that is not a decimal numeral
    ("abc") for which neither layer endpoint answers 400 "Invalid layer ID
    (1-11)": [parseInt] gives NaN, both comparisons of the range check are
    false, and the handlers go on to [getLayerData] and [updateLayerConfig];
    GET answers 200 with "Layer not found", PUT answers 200 with success. *)
Theorem non_numeric_layer_id_is_not_rejected :
  exists param,
    is_decimal_numeral param = false
    /\ ContextRoutes.parseInt param = None
    /\ ContextRoutes.out_of_range (ContextRoutes.parseInt param) = false
    /\ (forall w, ContextRoutes.get_layer param w
                  = (Ret (ContextRoutes.Reply 200
                            (JObj [("error", JStr "Layer not found")])), w))
    /\ (forall updates w, ContextRoutes.put_layer param (Some updates) w
                          = (Ret (ContextRoutes.Reply 200
                                    (JObj [("success", JBool true)])), w))
    /\ (forall w, fst (ContextRoutes.get_layer param w)
                  <> Ret ContextRoutes.invalid_layer)
    /\ (forall body w, fst (ContextRoutes.put_layer param body w)
                       <> Ret ContextRoutes.invalid_layer).
Proof.
  exists "abc". repeat split.
  - intros w H. discriminate H.
  - intros [updates|] w H; discriminate H.
Qed.

Example parseInt_examples :
  ContextRoutes.parseInt "7" = Some 7%Z
  /\ ContextRoutes.parseInt "  -12px" = Some (-12)%Z
  /\ ContextRoutes.parseInt "0x1F" = Some 31%Z
  /\ ContextRoutes.parseInt "3.7" = Some 3%Z
  /\ ContextRoutes.parseInt EmptyString = None
  /\ ContextRoutes.parseInt "abc" = None.
Proof. repeat split. Qed.

(** Witness of C3 on [sample_layers]. *)
Lemma aggregate_relevance_formula_witness :
  List.length sample_layers = 11
  /\ (forall l, In l sample_layers -> (0 <= ContextLayer.relevanceScore l <= 1)%Q)
  /\ (ContextEngine.calculateRelevanceScore sample_layers "hi"
      == spec_aggregate sample_layers)%Q
  /\ (0 <= ContextEngine.calculateRelevanceScore sample_layers "hi" <= 1)%Q.
Proof.
  assert (Hrel : forall l, In l sample_layers ->
                           (0 <= ContextLayer.relevanceScore l <= 1)%Q).
  { intros l Hin. simpl in Hin.
    repeat (destruct Hin as [<- | Hin]; [split; vm_compute; discriminate|]).
    destruct Hin. }
  split; [reflexivity|]. split; [exact Hrel|].
  apply (aggregate_relevance_formula sample_layers "hi"); [reflexivity | exact Hrel].
Defined.

(** Witness of C9 on [sample_response] and [sample_window]. *)
Lemma confidence_is_capped_sum_witness :
  (0 <= ContextWindow.relevanceScore sample_window <= 1)%Q
  /\ (0 <= AIService.calculateConfidence sample_response sample_window <= 1)%Q.
Proof.
  assert (Hrel : (0 <= ContextWindow.relevanceScore sample_window <= 1)%Q)
    by (split; vm_compute; discriminate).
  split; [exact Hrel|].
  apply (confidence_is_capped_sum sample_response sample_window Hrel).
Defined.

(* ===================================================================== *)
(** ** Runs on concrete inputs *)
(* ===================================================================== *)

Example stringify_example :
  stringify (JObj [("confidence", JNum 8 1); ("items", JArr [JNull; JBool true]);
                   ("n", JInt (-12)); ("half", JNum 50 2)])
  = "{" ++ quote "confidence" ++ ":0.8," ++ quote "items" ++ ":[null,true],"
    ++ quote "n" ++ ":-12," ++ quote "half" ++ ":0.5}".
Proof. reflexivity. Qed.

Example estimateTokens_example :
  ContextEngine.estimateTokens "12345" = 2
  /\ ContextEngine.estimateTokens "1234" = 1
  /\ ContextEngine.estimateTokens EmptyString = 0.
Proof. repeat split. Qed.

Example assessComplexity_examples :
  ContextEngine.assessComplexity "hi" = ContextEngine.simple
  /\ ContextEngine.assessComplexity "a b c d" = ContextEngine.simple
  /\ ContextEngine.assessComplexity "a b c d e" = ContextEngine.medium
  /\ ContextEngine.assessComplexity "1 2 3 4 5 6 7 8 9 10 11 12 13 14 15 16 17 18 19 20"
     = ContextEngine.complex.
Proof. repeat split. Qed.

Example cleanTextForEmbedding_example :
  EmbeddingService.cleanTextForEmbedding
    (String (ascii_of_nat 9) "  two" ++ nl_tab ++ "words  ")
  = "two words".
Proof. reflexivity. Qed.

Example model_of_examples :
  AIService.model_of AIService.no_options = "gpt-4"
  /\ AIService.model_of (with_model EmptyString) = "gpt-4"
  /\ AIService.model_of (with_model "claude-3-opus") = "claude-3-opus".
Proof. repeat split. Qed.

(** The turn "hi" answered by OpenAI: one request, a reply, and the confidence
    0.5 + 0.3 * 5.57/11 + 0.2 * 7/11 + 0.1. *)
Example generateResponse_example :
  exists cw w1 r w2,
    ContextEngine.buildContextWindow openai_only_env anonymous "hi" [] initial
    = (Ret cw, w1)
    /\ AIService.generateResponse openai_only_env cw AIService.no_options w1
       = (Ret r, w2)
    /\ map url (calls w2) = [OpenAIChat]
    /\ AIService.returned_content r = Some (JStr "Hello.")
    /\ AIService.returned_model r = Some (JStr "gpt-4-0613")
    /\ (AIService.returned_confidence r == 9671 # 11000)%Q.
Proof.
  eexists _, _, _, _.
  split; [vm_compute; reflexivity|].
  split; [vm_compute; reflexivity|].
  repeat split.
Qed.

(** The same turn sent to a model of the claude family while Anthropic
    refuses: the error is thrown, and OpenAI is not tried. *)
Example generateResponse_failure_example :
  exists cw w1 w2,
    ContextEngine.buildContextWindow openai_only_env anonymous "hi" [] initial
    = (Ret cw, w1)
    /\ AIService.generateResponse openai_only_env cw (with_model "claude-3-opus") w1
       = (Throw (Error "AI generation failed: Anthropic API error: 401 - invalid x-api-key"), w2)
    /\ map url (calls w2) = [AnthropicMessages].
Proof.
  eexists _, _, _.
  split; [vm_compute; reflexivity|].
  split; [vm_compute; reflexivity|].
  reflexivity.
Qed.

Example generateResponse_unsupported_example :
  exists cw w1 w2,
    ContextEngine.buildContextWindow openai_only_env anonymous "hi" [] initial
    = (Ret cw, w1)
    /\ AIService.generateResponse openai_only_env cw (with_model "llama-3") w1
       = (Throw (Error "AI generation failed: Unsupported model: llama-3"), w2)
    /\ calls w2 = [].
Proof.
  eexists _, _, _.
  split; [vm_compute; reflexivity|].
  split; [vm_compute; reflexivity|].
  reflexivity.
Qed.

(** Voyage down: the embedding comes from OpenAI after exactly one retry. *)
Example generateSingleEmbedding_example :
  EmbeddingService.generateSingleEmbedding openai_only_env "  some   text " initial
  = (Ret vector,
     World 0 [EmbeddingService.voyage_request "some text";
              EmbeddingService.openai_request "some text"]).
Proof. reflexivity. Qed.

(** No provider reachable: the error of the source, after two requests. *)
Example generateSingleEmbedding_failure_example :
  EmbeddingService.generateSingleEmbedding empty_env "text" initial
  = (Throw (Error "All embedding services unavailable"),
     World 0 [EmbeddingService.voyage_request "text";
              EmbeddingService.openai_request "text"]).
Proof. reflexivity. Qed.

(* ===================================================================== *)
(** ** Proofs of the further properties *)
(* ===================================================================== *)

Import QueryFacts.
Section Estimator.

Lemma estimateTokens_bounds (text : string) :
  String.length text <= 4 * ContextEngine.estimateTokens text
  /\ 4 * ContextEngine.estimateTokens text <= String.length text + 3.
Proof.
  unfold ContextEngine.estimateTokens.
  pose proof (Nat.div_mod_eq (String.length text + 3) 4) as Hdm.
  pose proof (Nat.mod_upper_bound (String.length text + 3) 4) as Hub.
  lia.
Qed.

Lemma length_append (s t : string) :
  String.length (s ++ t) = String.length s + String.length t.
Proof. induction s as [|c s IH]; simpl; [reflexivity | now rewrite IH]. Qed.

End Estimator.

(** X1: the token estimate of a text is its length divided by four and rounded
    up: four times the estimate is at least the length and exceeds it by at
    most three; appending text never lowers the estimate, and the estimate of
    a concatenation is at most the sum of the estimates of its two parts. *)
Theorem estimateTokens_covers_and_grows :
  forall (text more : string),
    String.length text <= 4 * ContextEngine.estimateTokens text
    /\ 4 * ContextEngine.estimateTokens text <= String.length text + 3
    /\ ContextEngine.estimateTokens text
       <= ContextEngine.estimateTokens (text ++ more)
    /\ ContextEngine.estimateTokens (text ++ more)
       <= ContextEngine.estimateTokens text + ContextEngine.estimateTokens more.
Proof.
  intros text more.
  pose proof (estimateTokens_bounds text) as [H1 H2].
  pose proof (estimateTokens_bounds more) as [H3 H4].
  pose proof (estimateTokens_bounds (text ++ more)) as [H5 H6].
  rewrite length_append in H5, H6.
  repeat split; try assumption.
  - unfold ContextEngine.estimateTokens. rewrite length_append.
    apply Nat.Div0.div_le_mono. lia.
  - unfold ContextEngine.estimateTokens in *. rewrite length_append.
    pose proof (Nat.div_mod_eq (String.length text + 3) 4).
    pose proof (Nat.mod_upper_bound (String.length text + 3) 4).
    pose proof (Nat.div_mod_eq (String.length more + 3) 4).
    pose proof (Nat.mod_upper_bound (String.length more + 3) 4).
    pose proof (Nat.div_mod_eq (String.length text + String.length more + 3) 4).
    pose proof (Nat.mod_upper_bound (String.length text + String.length more + 3) 4).
    lia.
Qed.

Section Words.

Lemma split_nonempty sep s : JSString.split sep s <> [].
Proof.
  destruct s as [|c s]; simpl; [discriminate|].
  destruct (Ascii.eqb c sep); [discriminate|].
  destruct (JSString.split sep s); discriminate.
Qed.

Lemma split_length s :
  List.length (JSString.split " "%char s) = S (count_spaces s).
Proof.
  induction s as [|c s IH]; [reflexivity|].
  cbn [JSString.split count_spaces].
  destruct (Ascii.eqb c " "%char).
  - cbn [List.length]. rewrite IH. reflexivity.
  - pose proof (split_nonempty " "%char s) as Hne.
    destruct (JSString.split " "%char s) as [|h t]; [contradiction|].
    cbn [List.length] in *. lia.
Qed.

End Words.

(** X2: the complexity class of a query is decided by the number of its space
    characters alone: fewer than 4 spaces give simple, 4 to 18 give medium, 19
    or more give complex; every single space counts, also inside a run of
    spaces. *)
Theorem complexity_counts_spaces :
  forall (query : string),
    ContextEngine.assessComplexity query
    = if count_spaces query <? 4 then ContextEngine.simple
      else if count_spaces query <? 19 then ContextEngine.medium
      else ContextEngine.complex.
Proof.
  intros query. unfold ContextEngine.assessComplexity. rewrite split_length.
  destruct (Nat.ltb_spec (S (count_spaces query)) 5);
    destruct (Nat.ltb_spec (count_spaces query) 4); try lia; reflexivity.
Qed.

Section Keywords.

Lemma startsWith_head s c p :
  startsWith s (String c p) = true -> exists s', s = String c s'.
Proof.
  destruct s as [|b s]; simpl; [discriminate|].
  intros H. apply andb_prop in H as [H _].
  apply Ascii.eqb_eq in H. subst. now exists s.
Qed.

(** A text without lower-case letters contains no keyword that begins with
    one. *)
Lemma includes_lower_case s c p :
  (97 <=? nat_of_ascii c) && (nat_of_ascii c <=? 122) = true ->
  no_lower_case s = true ->
  includes s (String c p) = false.
Proof.
  intros Hc. induction s as [|b s IH]; intros Hs.
  - reflexivity.
  - cbn [includes]. cbn [no_lower_case] in Hs. apply andb_prop in Hs as [Hb Hs].
    rewrite (IH Hs), orb_false_r.
    destruct (startsWith (String b s) (String c p)) eqn:Hsw; [|reflexivity].
    apply startsWith_head in Hsw as (s' & Heq). injection Heq as -> _.
    rewrite Hc in Hb. discriminate Hb.
Qed.

End Keywords.

(** X3: the keyword tests read the query as it was typed, not its lower-cased
    form: a query without any lower-case letter a-z has intent general,
    preferred format text, no entities and requiresFiles false, although
    analyzeQuery lower-cases the same query for its processed field. *)
Theorem keywords_are_case_sensitive :
  forall (query : string),
    no_lower_case query = true ->
    ContextEngine.detectIntent query = "general"
    /\ ContextEngine.detectPreferredFormat query = "text"
    /\ ContextEngine.extractEntities query = []
    /\ (forall w, exists a,
          ContextEngine.analyzeQuery query w = (Ret a, w)
          /\ ContextEngine.requiresFiles a = false
          /\ ContextEngine.processed a = trim (toLowerCase query)).
Proof.
  intros query Hq.
  assert (H : forall c p, (97 <=? nat_of_ascii c) && (nat_of_ascii c <=? 122) = true ->
                          includes query (String c p) = false)
    by (intros; now apply includes_lower_case).
  unfold ContextEngine.detectIntent, ContextEngine.detectPreferredFormat,
    ContextEngine.extractEntities.
  repeat rewrite H by reflexivity. cbn.
  repeat split.
  intros w. eexists. split; [reflexivity|].
  cbn. repeat rewrite H by reflexivity. split; reflexivity.
Qed.

Lemma keywords_are_case_sensitive_witness :
  no_lower_case "EXPLAIN THE CONTEXT LAYER OF THIS FILE" = true
  /\ ContextEngine.detectIntent "EXPLAIN THE CONTEXT LAYER OF THIS FILE" = "general".
Proof.
  split; [reflexivity|].
  apply (keywords_are_case_sensitive "EXPLAIN THE CONTEXT LAYER OF THIS FILE").
  reflexivity.
Defined.

(** Case analysis along a chain of [if]s, closing each branch as soon as it
    is decided. *)
Ltac by_cases :=
  cbn;
  try solve [intuition (try discriminate; auto)];
  match goal with
  | |- context [includes ?q ?k] => destruct (includes q k); by_cases
  end.

(** X4: analyzeQuery always returns, leaves the world as it was, and its
    fields agree with each other: the entity context implies the intent
    context-engineering; the entity file implies requiresFiles; the intent
    file-processing implies requiresFiles and excludes the entity context; the
    intent explanation implies that requiresFiles is false and that the
    expected response type is not text; the intent general excludes both
    entities and requiresFiles; the intent is one of five names and the
    expected response type one of code, structured, markdown and text. *)
Theorem query_analysis_is_coherent :
  forall (query : string) (w : world),
  exists a,
    ContextEngine.analyzeQuery query w = (Ret a, w)
    /\ (In "context" (ContextEngine.entities a) ->
        ContextEngine.intent a = "context-engineering")
    /\ (In "file" (ContextEngine.entities a) -> ContextEngine.requiresFiles a = true)
    /\ (ContextEngine.intent a = "file-processing" ->
        ContextEngine.requiresFiles a = true
        /\ ~ In "context" (ContextEngine.entities a))
    /\ (ContextEngine.intent a = "explanation" ->
        ContextEngine.requiresFiles a = false
        /\ ContextEngine.expectedResponseType a <> "text")
    /\ (ContextEngine.intent a = "general" ->
        ~ In "context" (ContextEngine.entities a)
        /\ ~ In "file" (ContextEngine.entities a)
        /\ ContextEngine.requiresFiles a = false)
    /\ In (ContextEngine.intent a)
          ["context-engineering"; "file-processing"; "explanation"; "assistance"; "general"]
    /\ In (ContextEngine.expectedResponseType a)
          ["code"; "structured"; "markdown"; "text"].
Proof.
  intros query w. eexists. split; [reflexivity|].
  cbn [ContextEngine.entities ContextEngine.intent ContextEngine.requiresFiles
       ContextEngine.expectedResponseType].
  unfold ContextEngine.detectIntent, ContextEngine.detectPreferredFormat,
    ContextEngine.extractEntities.
  repeat apply conj; by_cases.
Qed.

Import Numerals.

Section NumeralValues.
Import Decimal.


Lemma of_uint_acc_value d : forall acc,
  Zpos (Pos.of_uint_acc d acc) = uint_value d (Zpos acc).
Proof.
  induction d; intros acc; cbn [Pos.of_uint_acc uint_value];
    try reflexivity; rewrite IHd; f_equal; lia.
Qed.

Lemma of_uint_value d : Z.of_N (Pos.of_uint d) = uint_value d 0.
Proof.
  induction d; cbn [Pos.of_uint uint_value]; try reflexivity;
    try (cbn [Z.of_N]; rewrite of_uint_acc_value; reflexivity).
  exact IHd.
Qed.

End NumeralValues.

Section Parsing.
Import Decimal.

Lemma digits_stop rest acc :
  ends_numeral rest = true -> ContextRoutes.digits 10 rest acc = acc.
Proof.
  destruct rest as [|c rest]; [reflexivity|].
  cbn [ends_numeral ContextRoutes.digits]. intros H.
  apply andb_prop in H as [H _]. apply andb_prop in H as [H _].
  unfold ContextRoutes.digit_value.
  destruct ((48 <=? nat_of_ascii c) && (nat_of_ascii c <=? 57)); [discriminate|].
  destruct ((97 <=? nat_of_ascii c) && (nat_of_ascii c <=? 122)) eqn:Hl.
  - apply andb_prop in Hl as [Hl _]. apply Nat.leb_le in Hl.
    destruct (Nat.ltb_spec (nat_of_ascii c - 87) 10); [lia | reflexivity].
  - destruct ((65 <=? nat_of_ascii c) && (nat_of_ascii c <=? 90)) eqn:Hu; [|reflexivity].
    apply andb_prop in Hu as [Hu _]. apply Nat.leb_le in Hu.
    destruct (Nat.ltb_spec (nat_of_ascii c - 55) 10); [lia | reflexivity].
Qed.


Lemma digits_cons radix c s acc :
  ContextRoutes.digits radix (String c s) acc
  = match ContextRoutes.digit_value radix c with
    | Some d => ContextRoutes.digits radix s
                  (Some (Z.of_nat radix * from acc + Z.of_nat d)%Z)
    | None => acc
    end.
Proof. destruct acc; reflexivity. Qed.

Ltac digit_of_char :=
  match goal with
  | |- context [ContextRoutes.digit_value 10 ?c] =>
      let v := eval vm_compute in (ContextRoutes.digit_value 10 c) in
      change (ContextRoutes.digit_value 10 c) with v; cbn iota beta
  end.

Lemma digits_numeral_from d : forall rest a,
  ends_numeral rest = true ->
  ContextRoutes.digits 10 (NilEmpty.string_of_uint d ++ rest) (Some a)
  = Some (uint_value d a).
Proof.
  induction d; intros rest a Hrest;
    cbn [NilEmpty.string_of_uint append uint_value];
    [ now apply digits_stop | .. ];
    rewrite digits_cons; digit_of_char;
    rewrite IHd by assumption; cbn [from]; apply (f_equal Some), (f_equal (uint_value d)); lia.
Qed.

Lemma digits_numeral d rest :
  d <> Nil -> ends_numeral rest = true ->
  ContextRoutes.digits 10 (NilEmpty.string_of_uint d ++ rest) None
  = Some (uint_value d 0).
Proof.
  intros Hd Hrest. destruct d; [contradiction | ..];
    cbn [NilEmpty.string_of_uint append uint_value];
    rewrite digits_cons; digit_of_char;
    rewrite digits_numeral_from by assumption; cbn [from]; apply (f_equal Some), (f_equal (uint_value d)); lia.
Qed.

End Parsing.

Section ParseInt.
Import Decimal.

Lemma numeral_not_hex d rest :
  ends_numeral rest = true ->
  startsWith (NilEmpty.string_of_uint d ++ rest) "0x" = false
  /\ startsWith (NilEmpty.string_of_uint d ++ rest) "0X" = false.
Proof.
  intros Hrest.
  destruct d as [|d|d|d|d|d|d|d|d|d|d]; cbn [NilEmpty.string_of_uint append].
  2:{ destruct d; cbn [NilEmpty.string_of_uint append]; try (split; reflexivity).
      destruct rest as [|c rest]; [split; reflexivity|].
      cbn [ends_numeral] in Hrest.
      apply andb_prop in Hrest as [Hrest HX]. apply andb_prop in Hrest as [_ Hx].
      cbn [startsWith]. 
      assert (Ascii.eqb "x" c = false).
      { apply Ascii.eqb_neq. intros <-. discriminate Hx. }
      assert (Ascii.eqb "X" c = false).
      { apply Ascii.eqb_neq. intros <-. discriminate HX. }
      rewrite H, H0. split; reflexivity. }
  all: try (split; reflexivity).
  destruct rest as [|c rest]; [split; reflexivity|].
  cbn [ends_numeral] in Hrest.
  apply andb_prop in Hrest as [Hrest _]. apply andb_prop in Hrest as [Hd _].
  cbn [startsWith].
  assert (Ascii.eqb "0" c = false).
  { apply Ascii.eqb_neq. intros <-. discriminate Hd. }
  rewrite H. split; reflexivity.
Qed.

Lemma trimStart_numeral d rest :
  d <> Nil ->
  trimStart (NilEmpty.string_of_uint d ++ rest) = NilEmpty.string_of_uint d ++ rest.
Proof. destruct d; try contradiction; reflexivity. Qed.

Lemma parseInt_unsigned d rest :
  d <> Nil -> ends_numeral rest = true ->
  ContextRoutes.parseInt (NilEmpty.string_of_uint d ++ rest) = Some (uint_value d 0).
Proof.
  intros Hd Hrest. unfold ContextRoutes.parseInt.
  rewrite trimStart_numeral by assumption.
  destruct (numeral_not_hex d rest Hrest) as [Hx HX].
  assert (Hsign :
    match NilEmpty.string_of_uint d ++ rest with
    | String "-" s' => ((-1)%Z, s')
    | String "+" s' => (1%Z, s')
    | _ => (1%Z, NilEmpty.string_of_uint d ++ rest)
    end = (1%Z, NilEmpty.string_of_uint d ++ rest)).
  { destruct d; try contradiction; reflexivity. }
  rewrite Hsign. rewrite Hx, HX. cbn [orb].
  rewrite digits_numeral by assumption. f_equal; lia.
Qed.

Lemma parseInt_negative d rest :
  d <> Nil -> ends_numeral rest = true ->
  ContextRoutes.parseInt (String "-" (NilEmpty.string_of_uint d ++ rest))
  = Some (- uint_value d 0)%Z.
Proof.
  intros Hd Hrest. unfold ContextRoutes.parseInt.
  cbn [trimStart]. change (is_space "-") with false. cbn iota.
  destruct (numeral_not_hex d rest Hrest) as [Hx HX].
  rewrite Hx, HX. cbn [orb].
  rewrite digits_numeral by assumption. f_equal; lia.
Qed.

Lemma parseInt_of_Z z rest :
  ends_numeral rest = true ->
  ContextRoutes.parseInt (of_Z z ++ rest) = Some z.
Proof.
  intros Hrest. unfold of_Z. destruct z as [|p|p]; cbn [Z.to_int NilZero.string_of_int].
  - change (NilZero.string_of_uint zero) with (NilEmpty.string_of_uint (D0 Nil)).
    rewrite parseInt_unsigned by (try discriminate; assumption). reflexivity.
  - assert (Hnn := DecimalPos.Unsigned.to_uint_nonnil p).
    assert (Hs : NilZero.string_of_uint (Pos.to_uint p)
                 = NilEmpty.string_of_uint (Pos.to_uint p)).
    { destruct (Pos.to_uint p); try contradiction; reflexivity. }
    rewrite Hs, parseInt_unsigned by assumption.
    rewrite <- of_uint_value, DecimalPos.Unsigned.of_to. reflexivity.
  - assert (Hnn := DecimalPos.Unsigned.to_uint_nonnil p).
    assert (Hs : NilZero.string_of_uint (Pos.to_uint p)
                 = NilEmpty.string_of_uint (Pos.to_uint p)).
    { destruct (Pos.to_uint p); try contradiction; reflexivity. }
    rewrite Hs. cbn [append]. rewrite parseInt_negative by assumption.
    rewrite <- of_uint_value, DecimalPos.Unsigned.of_to. reflexivity.
Qed.

End ParseInt.

(** X5: GET /layers/:layerId decides by the leading integer of the parameter:
    when the parameter is the decimal rendering of an integer z followed by a
    suffix that does not continue the numeral (as in 3.7 or 3abc), the reply
    is 400 with Invalid layer ID (1-11) if z is below 1 or above 11, and
    otherwise status 200 with the body {error: Layer not found}; the world is
    left as it was. *)
Theorem get_layer_by_numeral :
  forall (z : Z) (rest : string) (w : world),
    ends_numeral rest = true ->
    ContextRoutes.get_layer (of_Z z ++ rest) w
    = (Ret (if (z <? 1)%Z || (11 <? z)%Z
            then ContextRoutes.invalid_layer
            else layer_not_found), w).
Proof.
  intros z rest w Hrest. unfold ContextRoutes.get_layer, try_catch.
  rewrite parseInt_of_Z by assumption. cbn [ContextRoutes.out_of_range].
  destruct ((z <? 1)%Z || (11 <? z)%Z); reflexivity.
Qed.

Lemma get_layer_by_numeral_witness :
  ends_numeral ".7" = true
  /\ ContextRoutes.get_layer (of_Z 3 ++ ".7") initial = (Ret layer_not_found, initial).
Proof.
  split; [reflexivity|].
  apply (get_layer_by_numeral 3 ".7" initial). reflexivity.
Defined.

(** X6: PUT /layers/:layerId reads the request body before it checks the layer
    id: a request whose body is not JSON is answered 500 with Failed to update
    layer whatever the id is, also for an id out of range; with a JSON body
    the reply is 400 when the parsed id is out of range and 200 {success:
    true} otherwise; the world is left as it was. *)
Theorem put_layer_reads_body_first :
  forall (param : string) (w : world),
    ContextRoutes.put_layer param None w
    = (Ret (ContextRoutes.Reply 500 (JObj [("error", JStr "Failed to update layer")])), w)
    /\ (forall updates,
          ContextRoutes.put_layer param (Some updates) w
          = (Ret (if ContextRoutes.out_of_range (ContextRoutes.parseInt param)
                  then ContextRoutes.invalid_layer
                  else ContextRoutes.Reply 200 (JObj [("success", JBool true)])), w)).
Proof.
  intros param w. split; [reflexivity|]. intros updates.
  unfold ContextRoutes.put_layer, try_catch, bind. cbn.
  destruct (ContextRoutes.out_of_range (ContextRoutes.parseInt param)); reflexivity.
Qed.

(** X7: POST /memory/search always replies and never returns an item: a body
    that is not JSON or is null gives 500; a body without a truthy query gives
    400 with Query required; any other body gives 200 with results [] and
    total 0, echoing the query and the memory type of the request (all when it
    has none). *)
Theorem memory_search_finds_nothing :
  forall (body : option json) (w : world),
  exists r,
    MemoryRoutes.post_memory_search body w = (Ret r, w)
    /\ match body with
       | None | Some JNull =>
           r = ContextRoutes.Reply 500 (JObj [("error", JStr "Failed to search memory")])
       | Some parsed =>
           if truthy_opt (prop parsed "query")
           then ContextRoutes.status_code r = 200
                /\ prop (ContextRoutes.payload r) "results" = Some (JArr [])
                /\ prop (ContextRoutes.payload r) "total" = Some (JInt 0)
                /\ prop (ContextRoutes.payload r) "query" = prop parsed "query"
                /\ prop (ContextRoutes.payload r) "memoryType"
                   = Some (match prop parsed "memoryType" with
                           | Some v => v
                           | None => JStr "all"
                           end)
           else r = ContextRoutes.Reply 400 (JObj [("error", JStr "Query required")])
       end.
Proof.
  intros body w. unfold MemoryRoutes.post_memory_search, try_catch, bind.
  destruct body as [parsed|]; [|eexists; split; reflexivity].
  destruct parsed; try (eexists; split; reflexivity); cbn.
  all: match goal with
       | |- context [truthy_opt ?q] => destruct (truthy_opt q) eqn:Hq
       end; cbn.
  all: try (eexists; split; reflexivity).
  all: unfold ContextEngine.searchMemory.
  all: match goal with
       | |- context [MemoryRoutes.memory_tier ?m] =>
           destruct (String.eqb (MemoryRoutes.memory_tier m) "short");
           [| destruct (String.eqb (MemoryRoutes.memory_tier m) "medium");
              [| destruct (String.eqb (MemoryRoutes.memory_tier m) "long")]]
       end; cbn.
  all: eexists; split; [reflexivity|]; cbn.
  all: match goal with
       | H : truthy_opt ?q = true |- _ =>
           destruct q as [qv|]; [|discriminate H]
       end; cbn; repeat split.
Qed.

Section Defaults.

Lemma or_else_truthy v d : truthy d = true -> truthy (or_else v d) = true.
Proof.
  intros Hd. destruct v as [j|]; cbn; [|exact Hd].
  destruct (truthy j) eqn:Hj; assumption.
Qed.

Lemma or_else_zero d : or_else (Some (JInt 0)) d = d.
Proof. reflexivity. Qed.

End Defaults.

(** X8: each chat back end sends exactly one request, whose max_tokens and
    temperature are taken from the options with the defaults 2048 and 0.7 of
    the || operator (and top_p 1 for OpenAI): the values sent are always
    truthy and the two back ends agree on them; in particular a requested
    temperature of 0 is sent as 0.7. *)
Theorem sampling_parameters_are_never_zero :
  forall (E : Env) (prompt model : string) (options : AIService.AIOptions) (w : world),
  exists openai anthropic,
    snd (AIService.callOpenAI E prompt model options w)
    = World (ticks w) (calls w ++ [Request OpenAIChat openai])
    /\ snd (AIService.callAnthropic E prompt model options w)
       = World (ticks w) (calls w ++ [Request AnthropicMessages anthropic])
    /\ prop openai "max_tokens" = Some (or_else (AIService.maxTokens options) (JInt 2048))
    /\ prop openai "temperature" = Some (or_else (AIService.temperature options) (JNum 7 1))
    /\ prop openai "top_p" = Some (or_else (AIService.topP options) (JInt 1))
    /\ prop anthropic "max_tokens" = prop openai "max_tokens"
    /\ prop anthropic "temperature" = prop openai "temperature"
    /\ truthy_opt (prop openai "max_tokens") = true
    /\ truthy_opt (prop openai "temperature") = true
    /\ truthy_opt (prop openai "top_p") = true
    /\ (AIService.temperature options = Some (JInt 0) ->
        prop openai "temperature" = Some (JNum 7 1)).
Proof.
  intros E prompt model options w.
  eexists (JObj _), (JObj _). split; [|split].
  - unfold AIService.callOpenAI, bind, do_fetch. cbn.
    destruct (fetch E _ _) as [e | ok st txt parsed]; [reflexivity|].
    destruct ok; [|reflexivity]. destruct parsed; reflexivity.
  - unfold AIService.callAnthropic, bind, do_fetch. cbn.
    destruct (fetch E _ _) as [e | ok st txt parsed]; [reflexivity|].
    destruct ok; [|reflexivity]. destruct parsed; reflexivity.
  - cbn [prop lookup String.eqb Ascii.eqb Bool.eqb truthy_opt].
    repeat split; try (apply or_else_truthy; reflexivity).
    intros ->. reflexivity.
Qed.

Import AnalysisFacts.

Section Analysis.
Variable E : Env.

Lemma callOpenAI_request prompt model options w :
  exists body,
    snd (AIService.callOpenAI E prompt model options w)
    = World (ticks w) (calls w ++ [Request OpenAIChat body])
    /\ prop body "model" = Some (JStr model)
    /\ prop body "max_tokens" = Some (or_else (AIService.maxTokens options) (JInt 2048)).
Proof.
  eexists (JObj _). split.
  - unfold AIService.callOpenAI, bind, do_fetch. cbn.
    destruct (fetch E _ _) as [e | ok st txt parsed]; [reflexivity|].
    destruct ok; [|reflexivity]. destruct parsed; reflexivity.
  - split; reflexivity.
Qed.

End Analysis.

(** X9: analyzeContent always returns and sends exactly one request, to the
    OpenAI chat endpoint with model gpt-3.5-turbo and max_tokens 1024, and
    what it returns is decided by the answer to that request alone.  A rejected
    request, a status that is not one of success, a body that is not JSON or
    that has no choices[0].message give {summary: Unable to analyze content,
    error: message}.  Otherwise the content of the first choice, whatever its
    type and whatever else the answer holds, is handed to JSON.parse: the
    parsed value is returned when that succeeds; when it does not, a content
    that is a string gives {summary: its first 500 characters, analysis,
    confidence 0.85} and any other content gives the Unable object. *)
Theorem analyzeContent_never_throws :
  forall (E : Env) (content contentType : string) (w : world),
  exists v body,
    ContentAnalysis.analyzeContent E content contentType w
    = (Ret v, World (ticks w) (calls w ++ [Request OpenAIChat body]))
    /\ prop body "model" = Some (JStr "gpt-3.5-turbo")
    /\ prop body "max_tokens" = Some (JInt 1024)
    /\ match fetch E (List.length (calls w)) (Request OpenAIChat body) with
       | Rejected e => v = unable (message e)
       | Response false status reason _ =>
           v = unable ("OpenAI API error: " ++ of_nat status ++ " - " ++ reason)
       | Response true _ _ None => v = unable "SyntaxError"
       | Response true _ _ (Some data) =>
           match first_choice_content data with
           | Throw e => v = unable (message e)
           | Ret answer =>
               match read E answer with
               | Some parsed => v = parsed
               | None =>
                   match answer with
                   | Some (JStr s) => v = unparsed (take 500 s)
                   | _ => v = unable "TypeError"
                   end
               end
           end
       end.
Proof.
  intros E content contentType w.
  unfold ContentAnalysis.analyzeContent, AIService.callOpenAI, try_catch, bind,
    do_fetch.
  cbn [fst snd ticks calls].
  match goal with
  | |- context [fetch E _ (Request OpenAIChat ?b)] => set (body := b)
  end.
  assert (Hmodel : prop body "model" = Some (JStr "gpt-3.5-turbo")) by reflexivity.
  assert (Htokens : prop body "max_tokens" = Some (JInt 1024)) by reflexivity.
  clearbody body.
  destruct (fetch E (List.length (calls w)) (Request OpenAIChat body))
    as [e | ok status reason parsed] eqn:Hfetch.
  { eexists _, body. rewrite Hfetch. repeat split; assumption. }
  destruct ok; cbn [negb].
  2:{ eexists _, body. rewrite Hfetch. repeat split; assumption. }
  destruct parsed as [data|]; cbn [AIService.response_json].
  2:{ eexists _, body. rewrite Hfetch. repeat split; assumption. }
  unfold ret, lift, throw, parse. cbn [fst snd].
  assert (Hrun :
    (choices <~ get (Some data) "choices" ;;
     choice <~ at0 choices ;;
     message <~ get choice "message" ;;
     content <~ get message "content" ;;
     model <~ get (Some data) "model" ;;
     usage <~ get (Some data) "usage" ;;
     Ret {| AIService.returned_content := content;
            AIService.returned_model := model;
            AIService.returned_usage := AIService.ProviderUsage usage;
            AIService.returned_confidence := (85 # 100)%Q;
            AIService.returned_processingTime := 0%Z |})
    = (content <~ first_choice_content data ;;
       Ret {| AIService.returned_content := content;
              AIService.returned_model := prop data "model";
              AIService.returned_usage := AIService.ProviderUsage (prop data "usage");
              AIService.returned_confidence := (85 # 100)%Q;
              AIService.returned_processingTime := 0%Z |})).
  { unfold first_choice_content.
    destruct data; cbn [get and_then]; try reflexivity;
      (destruct (at0 _) as [choice | e]; [|reflexivity]);
      cbn [and_then];
      (destruct (get choice "message") as [message | e]; [|reflexivity]);
      cbn [and_then];
      (destruct (get message "content") as [answer | e]; reflexivity). }
  rewrite Hrun. clear Hrun.
  destruct (first_choice_content data) as [answer | e] eqn:Hanswer; cbn [and_then].
  2:{ eexists _, body. rewrite Hfetch, Hanswer. repeat split; assumption. }
  cbn [AIService.returned_content]. unfold read.
  destruct (Coercion.text answer) as [t | e] eqn:Htext; cbn [fst snd].
  - destruct (JSON_parse E t) as [parsed|] eqn:Hparse; cbn [fst snd].
    + eexists _, body. rewrite Hfetch, Hanswer, Htext, Hparse.
      repeat split; assumption.
    + destruct answer as [[| | | s | |]|];
        cbn [ContentAnalysis.call_substring fst snd];
        eexists _, body; rewrite Hfetch, Hanswer, Htext, Hparse;
        repeat split; assumption.
  - destruct answer as [[| | | s | |]|];
      cbn [ContentAnalysis.call_substring fst snd];
      eexists _, body; rewrite Hfetch, Hanswer, Htext;
      repeat split; assumption.
Qed.

Import EmbeddingFacts.

Section Cleaning.

Lemma all_chars_weaken (P Q : ascii -> bool) s :
  (forall c, P c = true -> Q c = true) ->
  all_chars P s = true -> all_chars Q s = true.
Proof.
  intros HPQ. induction s as [|c s IH]; [reflexivity|].
  cbn [all_chars]. intros H. apply andb_prop in H as [Hc Hs].
  rewrite (HPQ c Hc), (IH Hs). reflexivity.
Qed.

Lemma all_chars_trimStart P s :
  all_chars P s = true -> all_chars P (trimStart s) = true.
Proof.
  induction s as [|c s IH]; [reflexivity|].
  cbn [trimStart]. intros H. destruct (is_space c); [|exact H].
  cbn [all_chars] in H. apply andb_prop in H as [_ Hs]. now apply IH.
Qed.

Lemma all_chars_trimEnd P s :
  all_chars P s = true -> all_chars P (trimEnd s) = true.
Proof.
  induction s as [|c s IH]; [reflexivity|].
  cbn [trimEnd all_chars]. intros H. apply andb_prop in H as [Hc Hs].
  specialize (IH Hs). destruct (trimEnd s) as [|c' r].
  - destruct (is_space c); [reflexivity|]. cbn. now rewrite Hc.
  - cbn [all_chars] in *. now rewrite Hc, IH.
Qed.

Lemma all_chars_take P n : forall s,
  all_chars P s = true -> all_chars P (take n s) = true.
Proof.
  induction n as [|n IH]; intros s H; [reflexivity|].
  destruct s as [|c s]; [reflexivity|].
  cbn [take all_chars] in *. apply andb_prop in H as [Hc Hs].
  now rewrite Hc, IH.
Qed.

Lemma length_take n : forall s, String.length (take n s) <= n.
Proof.
  induction n as [|n IH]; intros s; [cbn; lia|].
  destruct s as [|c s]; cbn; [lia|]. specialize (IH s). lia.
Qed.

(** After the white space is collapsed, the only white space left is the
    space. *)
Lemma collapse_spaces_plain s : forall in_run,
  all_chars (fun c => negb (is_space c) || Ascii.eqb c " "%char)
            (EmbeddingService.collapse_spaces in_run s) = true.
Proof.
  induction s as [|c s IH]; intros in_run; [reflexivity|].
  cbn [EmbeddingService.collapse_spaces].
  destruct (is_space c) eqn:Hc.
  - destruct in_run; [apply IH|]. cbn [all_chars]. rewrite IH. reflexivity.
  - cbn [all_chars]. rewrite Hc, IH. reflexivity.
Qed.

Lemma strip_control_clean s :
  all_chars (fun c => negb (is_space c) || Ascii.eqb c " "%char) s = true ->
  all_chars clean_char (EmbeddingService.strip_control s) = true.
Proof.
  induction s as [|c s IH]; [reflexivity|].
  cbn [all_chars EmbeddingService.strip_control]. intros H.
  apply andb_prop in H as [Hc Hs]. specialize (IH Hs).
  destruct ((nat_of_ascii c <? 32) || (nat_of_ascii c =? 127)) eqn:Hctl; [exact IH|].
  cbn [all_chars]. rewrite IH, andb_true_r.
  apply orb_false_elim in Hctl as [H32 H127].
  unfold clean_char. rewrite H32, H127. cbn [negb andb].
  destruct (Nat.eqb_spec (nat_of_ascii c) 160) as [H160|]; [|reflexivity].
  exfalso. apply orb_prop in Hc as [Hc | Hc].
  - unfold is_space in Hc. rewrite H160 in Hc. discriminate Hc.
  - apply Ascii.eqb_eq in Hc. subst c. discriminate H160.
Qed.

Lemma cleanTextForEmbedding_clean text :
  String.length (EmbeddingService.cleanTextForEmbedding text) <= 8000
  /\ all_chars clean_char (EmbeddingService.cleanTextForEmbedding text) = true.
Proof.
  unfold EmbeddingService.cleanTextForEmbedding.
  set (cleaned := EmbeddingService.strip_control
                    (trim (EmbeddingService.collapse_spaces false text))).
  assert (Hclean : all_chars clean_char cleaned = true).
  { apply strip_control_clean. unfold trim.
    apply all_chars_trimEnd, all_chars_trimStart, collapse_spaces_plain. }
  destruct (Nat.ltb_spec 8000 (String.length cleaned)) as [Hlong | Hshort].
  - split; [apply length_take | now apply all_chars_take].
  - split; assumption.
Qed.

(** What the cleaning does to one character between two letters. *)
Lemma cleanTextForEmbedding_char c :
  EmbeddingService.cleanTextForEmbedding (String "a" (String c "b"))
  = if clean_char c then String "a" (String c "b")
    else if is_space c then "a b" else "ab".
Proof. destruct c as [[] [] [] [] [] [] [] []]; vm_compute; reflexivity. Qed.

End Cleaning.

(** X10: the cleaned text is at most 8000 characters long and contains no
    character from U+0000 to U+001F, no U+007F and no white space other than
    the space.  Nothing else is removed, so that the controls from U+0080 to
    U+009F stay: between two letters, a character that is none of those comes
    out unchanged, a white space comes out as one space, and a removed
    control leaves nothing.  Every request that generateSingleEmbedding
    sends, to either provider, carries exactly the cleaned text as its
    input. *)
Theorem embedding_requests_carry_clean_text :
  forall (E : Env) (text : string) (w : world),
    String.length (EmbeddingService.cleanTextForEmbedding text) <= 8000
    /\ all_chars clean_char (EmbeddingService.cleanTextForEmbedding text) = true
    /\ (forall c,
          EmbeddingService.cleanTextForEmbedding (String "a" (String c "b"))
          = if clean_char c then String "a" (String c "b")
            else if is_space c then "a b" else "ab")
    /\ clean_char (ascii_of_nat 133) = true
    /\ forall r,
         In r (sent w (snd (EmbeddingService.generateSingleEmbedding E text w))) ->
         input_of r = Some (EmbeddingService.cleanTextForEmbedding text).
Proof.
  intros E text w.
  destruct (cleanTextForEmbedding_clean text) as [Hlen Hclean].
  split; [exact Hlen|]. split; [exact Hclean|].
  split; [exact cleanTextForEmbedding_char|]. split; [reflexivity|].
  set (clean := EmbeddingService.cleanTextForEmbedding text).
  unfold EmbeddingService.generateSingleEmbedding. fold clean. unfold try_catch.
  pose proof (generateVoyageEmbedding_calls E clean w) as Hp.
  destruct (EmbeddingService.generateVoyageEmbedding E clean w) as [[v | e] w1];
    cbn [snd] in Hp; subst w1.
  - cbn [snd]. rewrite sent_app. intros r [<- | []]. reflexivity.
  - pose proof (generateOpenAIEmbedding_calls E clean
                  (World (ticks w) (calls w ++ [EmbeddingService.voyage_request clean])))
      as Hs.
    destruct (EmbeddingService.generateOpenAIEmbedding E clean _) as [[v | e2] w2];
      cbn in Hs; subst w2; unfold throw; cbn [snd];
      rewrite <- app_assoc, sent_app; intros r [<- | [<- | []]]; reflexivity.
Qed.

Section Validation.
Variable E : Env.

Lemma read_embedding_truthy provider data v :
  EmbeddingService.read_embedding provider data = Ret v -> truthy v = true.
Proof.
  unfold EmbeddingService.read_embedding, and_then.
  destruct (get (Some data) "data") as [rows | e]; [|discriminate].
  destruct (truthy_opt rows); cbn [negb]; [|discriminate].
  destruct (at0 rows) as [row | e]; [|discriminate].
  destruct (truthy_opt row); cbn [negb]; [|discriminate].
  destruct (get row "embedding") as [[emb|] | e]; try discriminate.
  destruct (truthy emb) eqn:Ht; [|discriminate].
  intros H. injection H as <-. exact Ht.
Qed.

Lemma generateVoyageEmbedding_truthy text w v w' :
  EmbeddingService.generateVoyageEmbedding E text w = (Ret v, w') -> truthy v = true.
Proof.
  unfold EmbeddingService.generateVoyageEmbedding, bind, do_fetch, lift, throw. cbn.
  destruct (fetch E _ _) as [e | ok st txt parsed]; [discriminate|].
  destruct ok; cbn; [|discriminate]. destruct parsed as [data|]; [|discriminate].
  destruct (EmbeddingService.read_embedding "Voyage" data) eqn:Hr; [|discriminate].
  intros H. injection H as <- _. now apply read_embedding_truthy in Hr.
Qed.

Lemma generateOpenAIEmbedding_truthy text w v w' :
  EmbeddingService.generateOpenAIEmbedding E text w = (Ret v, w') -> truthy v = true.
Proof.
  unfold EmbeddingService.generateOpenAIEmbedding, bind, do_fetch, lift, throw. cbn.
  destruct (fetch E _ _) as [e | ok st txt parsed]; [discriminate|].
  destruct ok; cbn; [|discriminate]. destruct parsed as [data|]; [|discriminate].
  destruct (EmbeddingService.read_embedding "OpenAI" data) eqn:Hr; [|discriminate].
  intros H. injection H as <- _. now apply read_embedding_truthy in Hr.
Qed.

Lemma generateSingleEmbedding_truthy text w v w' :
  EmbeddingService.generateSingleEmbedding E text w = (Ret v, w') -> truthy v = true.
Proof.
  unfold EmbeddingService.generateSingleEmbedding, try_catch.
  destruct (EmbeddingService.generateVoyageEmbedding E _ w) as [[v1 | e] w1] eqn:H1.
  - intros H. injection H as <- _. eapply generateVoyageEmbedding_truthy; eassumption.
  - destruct (EmbeddingService.generateOpenAIEmbedding E _ w1) as [[v2 | e2] w2] eqn:H2.
    + intros H. injection H as <- _. eapply generateOpenAIEmbedding_truthy; eassumption.
    + discriminate.
Qed.

Lemma generateSingleEmbedding_error text w e w' :
  EmbeddingService.generateSingleEmbedding E text w = (Throw e, w') ->
  e = Error "All embedding services unavailable".
Proof.
  unfold EmbeddingService.generateSingleEmbedding, try_catch.
  destruct (EmbeddingService.generateVoyageEmbedding E _ w) as [[v1 | e1] w1];
    [discriminate|].
  destruct (EmbeddingService.generateOpenAIEmbedding E _ w1) as [[v2 | e2] w2];
    [discriminate|].
  intros H. now injection H as <- _.
Qed.

End Validation.

(** X11: generateSingleEmbedding either returns a truthy embedding or throws
    exactly All embedding services unavailable: an answer with status 200 that
    holds no embedding counts as a failure of that provider and is never
    returned. *)
Theorem generateSingleEmbedding_validates :
  forall (E : Env) (text : string) (w : world),
    match fst (EmbeddingService.generateSingleEmbedding E text w) with
    | Ret v => truthy v = true
    | Throw e => e = Error "All embedding services unavailable"
    end.
Proof.
  intros E text w.
  destruct (EmbeddingService.generateSingleEmbedding E text w) as [[v | e] w'] eqn:H;
    cbn [fst].
  - eapply generateSingleEmbedding_truthy; eassumption.
  - eapply generateSingleEmbedding_error; eassumption.
Qed.

(** X12: the two embedding paths disagree on a Voyage answer with status 200
    whose first row has no embedding field: generateEmbedding of the AI
    service returns undefined after that single request, without falling back,
    while generateSingleEmbedding of the embedding service rejects the answer
    and goes on to OpenAI. *)
Theorem missing_embedding_is_accepted_by_generateEmbedding :
  forall (E : Env) (text : string) (w : world) (status : nat) (body : string)
         (fields : list (string * json)) (more : list json),
    (forall r, url r = VoyageEmbeddings ->
       fetch E (List.length (calls w)) r
       = Response true status body
           (Some (JObj [("data", JArr (JObj fields :: more))]))) ->
    lookup "embedding" fields = None ->
    AIService.generateEmbedding E text w
    = (Ret None, World (ticks w) (calls w ++ [EmbeddingService.voyage_request text]))
    /\ sent w (snd (EmbeddingService.generateSingleEmbedding E text w))
       = [EmbeddingService.voyage_request (EmbeddingService.cleanTextForEmbedding text);
          EmbeddingService.openai_request (EmbeddingService.cleanTextForEmbedding text)].
Proof.
  intros E text w status body fields more Hfetch Hmissing. split.
  - unfold AIService.generateEmbedding, try_catch, AIService.generateEmbedding_primary,
      bind, do_fetch.
    change (Request VoyageEmbeddings
              (JObj [("input", JArr [JStr text]); ("model", JStr "voyage-multimodal-3")]))
      with (EmbeddingService.voyage_request text).
    rewrite Hfetch by reflexivity. cbn. rewrite Hmissing. reflexivity.
  - set (clean := EmbeddingService.cleanTextForEmbedding text).
    assert (Hv : EmbeddingService.generateVoyageEmbedding E clean w
                 = (Throw (Error "Invalid response format from Voyage API"),
                    World (ticks w) (calls w ++ [EmbeddingService.voyage_request clean]))).
    { unfold EmbeddingService.generateVoyageEmbedding, bind, do_fetch.
      rewrite Hfetch by reflexivity. cbn. rewrite Hmissing. reflexivity. }
    unfold EmbeddingService.generateSingleEmbedding. fold clean.
    unfold try_catch. rewrite Hv.
    pose proof (generateOpenAIEmbedding_calls E clean
                  (World (ticks w) (calls w ++ [EmbeddingService.voyage_request clean])))
      as Hs.
    destruct (EmbeddingService.generateOpenAIEmbedding E clean _) as [[v | e2] w2];
      cbn in Hs; subst w2; unfold throw; cbn [snd];
      rewrite <- app_assoc, sent_app; reflexivity.
Qed.

Lemma missing_embedding_is_accepted_by_generateEmbedding_witness :
  AIService.generateEmbedding hollow_voyage_env "some text" initial
  = (Ret None, World 0 [EmbeddingService.voyage_request "some text"])
  /\ sent initial
       (snd (EmbeddingService.generateSingleEmbedding hollow_voyage_env "some text" initial))
     = [EmbeddingService.voyage_request "some text";
        EmbeddingService.openai_request "some text"].
Proof.
  apply (missing_embedding_is_accepted_by_generateEmbedding hollow_voyage_env
           "some text" initial 200 EmptyString [("object", JStr "embedding")] []).
  - intros r Hr. cbn. rewrite Hr. reflexivity.
  - reflexivity.
Defined.

Section ChunkEmbeddings.
Variable E : Env.

Lemma embed_chunks_embedded chunks : forall results w,
  exists added w',
    Embeddings.embed_chunks E chunks results w = (Ret (results ++ added)%list, w')
    /\ embedded E w chunks added w'.
Proof.
  induction chunks as [|c chunks IH]; intros results w.
  - exists [], w. rewrite app_nil_r. split; [reflexivity | constructor].
  - cbn [Embeddings.embed_chunks]. unfold bind at 1. unfold try_catch, bind.
    destruct (EmbeddingService.generateSingleEmbedding E (Embeddings.chunk_text c) w)
      as [[v | e] w1] eqn:Hgen.
    + cbn. destruct (IH (results ++ [entry c v])%list w1)
        as (added & w' & Hrun & Hemb).
      unfold entry in Hrun at 1. rewrite Hrun. rewrite <- app_assoc.
      eexists _, w'. split; [reflexivity|].
      cbn [app]. eapply embedded_keep; eassumption.
    + cbn. destruct (IH results w1) as (added & w' & Hrun & Hemb).
      rewrite Hrun. exists added, w'. split; [reflexivity|].
      eapply embedded_skip; eassumption.
Qed.

(** The chunks and the world decide the entries. *)
Lemma embedded_functional w chunks entries w' :
  embedded E w chunks entries w' ->
  forall entries2 w2, embedded E w chunks entries2 w2 ->
                      entries2 = entries /\ w2 = w'.
Proof.
  induction 1 as [w | w c cs entries e w1 w' Hgen Hrest IH
                    | w c cs entries v w1 w' Hgen Hrest IH];
    intros entries2 w2 H2; inversion H2; subst.
  - split; reflexivity.
  - match goal with
    | H : EmbeddingService.generateSingleEmbedding E _ w = (Throw _, _) |- _ =>
        rewrite Hgen in H; injection H as _ <-
    end.
    now apply IH.
  - match goal with
    | H : EmbeddingService.generateSingleEmbedding E _ w = (Ret _, _) |- _ =>
        rewrite Hgen in H; discriminate H
    end.
  - match goal with
    | H : EmbeddingService.generateSingleEmbedding E _ w = (Throw _, _) |- _ =>
        rewrite Hgen in H; discriminate H
    end.
  - match goal with
    | H : EmbeddingService.generateSingleEmbedding E _ w = (Ret _, _) |- _ =>
        rewrite Hgen in H; injection H as <- <-
    end.
    match goal with
    | H : embedded E w1 cs _ _ |- _ => destruct (IH _ _ H) as [-> ->]
    end.
    split; reflexivity.
Qed.

End ChunkEmbeddings.

(** X13: generateEmbeddings embeds the full text first when it is shorter
    than 8000 characters, and fails exactly when that embedding fails, with
    the message Failed to generate embeddings: All embedding services
    unavailable.  Otherwise the result begins with the full-text entry
    (chunkIndex -1, the first 1000 characters of the text, a truthy vector),
    present exactly when the text is shorter than 8000 characters, and goes on
    with the entries of the chunks, embedded one after the other in their
    order: a chunk whose embedding succeeds leaves the entry with that
    embedding, its text and its index, a chunk whose embedding fails leaves
    none; nothing else decides the entries. *)
Theorem generateEmbeddings_shape :
  forall (E : Env) (text : string) (chunks : list Embeddings.TextChunk) (w : world),
    let final := Embeddings.generateEmbeddings E text chunks w in
    (if String.length text <? 8000
     then
       match EmbeddingService.generateSingleEmbedding E text w with
       | (Throw _, w1) =>
           final
           = (Throw (Error "Failed to generate embeddings: All embedding services unavailable"),
              w1)
       | (Ret v, w1) =>
           exists rest w2,
             final = (Ret ({| Embeddings.vector := v;
                              Embeddings.model := "voyage-multimodal-3";
                              Embeddings.text := take 1000 text;
                              Embeddings.chunkIndex := (-1)%Z |} :: rest), w2)
             /\ truthy v = true
             /\ embedded E w1 chunks rest w2
             /\ (forall entries w', embedded E w1 chunks entries w' -> entries = rest)
       end
     else
       exists entries w2,
         final = (Ret entries, w2)
         /\ embedded E w chunks entries w2
         /\ (forall entries' w', embedded E w chunks entries' w' -> entries' = entries)).
Proof.
  intros E text chunks w. cbv zeta.
  unfold Embeddings.generateEmbeddings, try_catch.
  destruct (String.length text <? 8000); unfold bind.
  - destruct (EmbeddingService.generateSingleEmbedding E text w) as [[v | e] w1] eqn:Hgen.
    + cbn [ret app].
      destruct (embed_chunks_embedded E chunks
                  [{| Embeddings.vector := v; Embeddings.model := "voyage-multimodal-3";
                      Embeddings.text := take 1000 text;
                      Embeddings.chunkIndex := (-1)%Z |}] w1)
        as (added & w' & Hrun & Hemb).
      rewrite Hrun. cbn [app].
      exists added, w'. repeat split.
      * eapply generateSingleEmbedding_truthy; eassumption.
      * exact Hemb.
      * intros entries w2 H2.
        now destruct (embedded_functional E _ _ _ _ Hemb _ _ H2).
    + apply generateSingleEmbedding_error in Hgen. subst e. reflexivity.
  - cbn [ret].
    destruct (embed_chunks_embedded E chunks [] w) as (added & w' & Hrun & Hemb).
    rewrite Hrun. cbn [app]. exists added, w'. repeat split.
    + exact Hemb.
    + intros entries w2 H2.
      now destruct (embedded_functional E _ _ _ _ Hemb _ _ H2).
Qed.

Section Multimodal.
Variable E : Env.


End Multimodal.



Import WindowFacts.

Section Silent.

Lemma silent_ret {A} (a : A) : silent (ret a).
Proof. intros w. reflexivity. Qed.

Lemma silent_throw {A} (e : error) : silent (@throw A e).
Proof. intros w. reflexivity. Qed.

Lemma silent_bind {A B} (m : M A) (f : A -> M B) :
  silent m -> (forall a, silent (f a)) -> silent (bind m f).
Proof.
  intros Hm Hf w. unfold bind. specialize (Hm w).
  destruct (m w) as [[a | e] w1]; cbn [snd] in *.
  - rewrite Hf. exact Hm.
  - exact Hm.
Qed.

Lemma silent_try_catch {A} (m : M A) (h : error -> M A) :
  silent m -> (forall e, silent (h e)) -> silent (try_catch m h).
Proof.
  intros Hm Hh w. unfold try_catch. specialize (Hm w).
  destruct (m w) as [[a | e] w1]; cbn [snd] in *.
  - exact Hm.
  - rewrite Hh. exact Hm.
Qed.

Lemma silent_clock E : silent (new_Date_toISOString E).
Proof. intros w. reflexivity. Qed.

Lemma silent_first E q : silent (first E q).
Proof. intros w. unfold first. destruct (db_first E q); reflexivity. Qed.

Lemma silent_all E q : silent (all E q).
Proof. intros w. unfold all. destruct (db_all E q); reflexivity. Qed.

Lemma silent_parse E text : silent (parse E text).
Proof. intros w. unfold parse. destruct (JSON_parse E text); reflexivity. Qed.

End Silent.

Create HintDb silence.
#[local] Hint Resolve silent_ret silent_throw silent_clock silent_first silent_all
  silent_parse : silence.

(** Every step of an [async] method is silent. *)
Ltac hush :=
  repeat first
    [ apply silent_bind; [| intros ?]
    | apply silent_try_catch; [| intros ?]
    | solve [eauto with silence]
    | match goal with
      | |- silent (if ?b then _ else _) => destruct b
      | |- silent (match ?x with _ => _ end) => destruct x
      end ].

Section SilentEngine.
Variable E : Env.
Variable user : User.t.

Lemma buildContextWindow_silent userQuery files :
  silent (ContextEngine.buildContextWindow E user userQuery files).
Proof.
  unfold ContextEngine.buildContextWindow,
    ContextEngine.buildInstructionsLayer, ContextEngine.buildUserInfoLayer,
    ContextEngine.buildKnowledgeLayer, ContextEngine.buildTaskGoalState,
    ContextEngine.buildMemoryLayer, ContextEngine.buildToolsLayer,
    ContextEngine.buildExamplesLayer, ContextEngine.buildContextLayer,
    ContextEngine.buildConstraintsLayer, ContextEngine.buildOutputFormatLayer,
    ContextEngine.buildUserQueryLayer,
    ContextEngine.getUserPreferences, ContextEngine.getSessionStats,
    ContextEngine.getRecentInteractions, ContextEngine.getFileContext,
    ContextEngine.getTotalDocumentCount, ContextEngine.getLastIndexUpdate,
    ContextEngine.getSessionStart, ContextEngine.analyzeQuery,
    ContextEngine.retrieveRelevantDocuments, ContextEngine.getDomainExpertise,
    ContextEngine.getCurrentTasks, ContextEngine.getWorkflowState,
    ContextEngine.getActiveGoals, ContextEngine.getShortTermMemory,
    ContextEngine.getMediumTermMemory, ContextEngine.searchLongTermMemory,
    ContextEngine.getLastToolUsage, ContextEngine.getRelevantExamples,
    ContextEngine.getFewShotExamples, ContextEngine.getConversationContext,
    ContextEngine.getImmediateContext, ContextEngine.getLastInteraction,
    ContextEngine.getContextSwitches.
  hush.
Qed.

End SilentEngine.

(** A builder without database access runs by computation. *)
Ltac computes := intros w; eexists _, _; split; [reflexivity |].

Section Rendering.
Variable E : Env.
Variable user : User.t.

Lemma column_text v : column v = true -> Coercion.text (Some v) = Ret (to_string v).
Proof. destruct v; try discriminate; reflexivity. Qed.

Lemma row_lookup fields k v :
  forallb (fun kv => column (snd kv)) fields = true ->
  lookup k fields = Some v -> column v = true.
Proof.
  induction fields as [|[k' v'] fields IH]; [discriminate|].
  cbn [forallb lookup snd]. intros H. apply andb_prop in H as [Hv Hrest].
  destruct (String.eqb k k').
  - intros Heq. now injection Heq as <-.
  - now apply IH.
Qed.

(** A column of a row can be written into a template literal. *)
Lemma row_text fields k :
  forallb (fun kv => column (snd kv)) fields = true ->
  exists t, Coercion.text (lookup k fields) = Ret t.
Proof.
  intros Hrow. destruct (lookup k fields) as [v|] eqn:Hk.
  - exists (to_string v). apply column_text. eapply row_lookup; eassumption.
  - now exists "undefined".
Qed.

Lemma append_empty_r (s : string) : s ++ EmptyString = s.
Proof. induction s as [|c s IH]; cbn; [reflexivity | now rewrite IH]. Qed.

Lemma append_assoc (s t u : string) : (s ++ t) ++ u = s ++ t ++ u.
Proof. induction s as [|c s IH]; cbn; [reflexivity | now rewrite IH]. Qed.

(** A loop over rows each of which gives a line appends the lines. *)
Lemma each_appends f rows :
  (forall index item, In item rows -> is_ret (f index item) = true) ->
  forall index prompt,
  exists lines, AIService.each f index rows prompt = Ret (prompt ++ lines).
Proof.
  induction rows as [|item rows IH]; intros Hf index prompt.
  - exists EmptyString. now rewrite append_empty_r.
  - cbn [AIService.each].
    pose proof (Hf index item (or_introl eq_refl)) as Hitem.
    destruct (f index item) as [line|]; [|discriminate Hitem].
    cbn [and_then].
    destruct (IH (fun i r Hr => Hf i r (or_intror Hr)) (S index) (prompt ++ line))
      as (lines & ->).
    exists (line ++ lines). now rewrite append_assoc.
Qed.

(** [v > 0] for the length of an array. *)
Lemma greater_than_length (n : nat) :
  Coercion.greater_than (Some (JNat n)) 0 = Ret (0 <? n).
Proof.
  unfold Coercion.greater_than, Coercion.ToNumber, JNat, and_then.
  f_equal. unfold Coercion.rounds_above, Coercion.half_gap, num_value.
  change (0 =? 0)%Z with true. cbv iota.
  unfold Qle_bool, Qplus, inject_Z. cbn [Qnum Qden Nat.pow Pos.of_nat].
  destruct n as [|n]; [reflexivity|].
  change (0 <? S n) with true.
  apply (f_equal negb (y := false)). apply Z.leb_gt.
  assert (Hbig : (1 < Z.pos (2 ^ 1075))%Z) by reflexivity.
  revert Hbig. generalize (2 ^ 1075)%positive. intros big Hbig.
  assert (Hn : (1 <= Z.of_nat (S n))%Z) by lia.
  revert Hn. generalize (Z.of_nat (S n)). intros z Hz.
  rewrite Pos.mul_1_l. nia.
Qed.

Lemma nonempty_array items :
  AIService.nonempty (Some (JArr items)) = Ret (0 <? List.length items).
Proof.
  unfold AIService.nonempty. cbn [get prop String.eqb Ascii.eqb Bool.eqb and_then].
  apply greater_than_length.
Qed.

Lemma getFileContext_rows files :
  returns (ContextEngine.getFileContext E user files)
          (fun rows =>
             (database_gives_rows E user files -> forallb row rows = true)
             /\ (forall rows',
                   0 < List.length files ->
                   db_all E (SelectFileContext files (User.id user))
                   = Some (Some rows') ->
                   rows = rows')).
Proof.
  unfold ContextEngine.getFileContext.
  destruct (Nat.eqb_spec (List.length files) 0) as [Hnone | Hsome].
  { apply returns_ret. split; [reflexivity|]. intros rows' Hfiles. lia. }
  intros w. unfold try_catch, bind, all.
  destruct (db_all E (SelectFileContext files (User.id user))) as [[rows|]|] eqn:Hdb;
    cbn; eexists _, _; (split; [reflexivity|]); split;
    try reflexivity; try discriminate.
  - intros [_ Hrows]. now apply Hrows.
  - intros rows' _ Heq. now injection Heq.
Qed.

Lemma getSessionStats_row files :
  returns (ContextEngine.getSessionStats E user)
          (fun stats => database_gives_rows E user files -> row stats = true).
Proof.
  unfold ContextEngine.getSessionStats. intros w. unfold try_catch, bind, first.
  destruct (db_first E (SelectSessionStats (User.sessionId user)))
    as [[stats|]|] eqn:Hdb;
    cbn; eexists _, _; (split; [reflexivity|]); try reflexivity.
  intros [Hstats _]. destruct (Hstats stats Hdb) as [-> | Hrow]; [reflexivity|].
  destruct stats; try discriminate Hrow. exact Hrow.
Qed.

Lemma buildInstructionsLayer_renders :
  returns ContextEngine.buildInstructionsLayer
          (fun l => summary l = (1, active, 1%Q)
                    /\ appends AIService.instructionsSection l).
Proof. computes. split; [reflexivity | intros prompt; eexists; reflexivity]. Qed.

Lemma buildUserInfoLayer_renders files :
  returns (ContextEngine.buildUserInfoLayer E user)
          (fun l => summary l = (2, active, (8 # 10)%Q)
                    /\ (database_gives_rows E user files ->
                        appends AIService.userContextSection l)).
Proof.
  unfold ContextEngine.buildUserInfoLayer.
  eapply returns_bind; [apply getUserPreferences_returns | intros userPrefs _].
  eapply returns_bind; [apply (getSessionStats_row files) | intros sessionStats Hstats].
  eapply returns_bind; [apply getRecentInteractions_returns | intros history _].
  apply returns_ret. split; [reflexivity|].
  intros Hdb prompt. specialize (Hstats Hdb).
  destruct sessionStats as [| | | | |fields]; try discriminate Hstats.
  unfold AIService.userContextSection, AIService.data_of.
  cbn [ContextLayer.data get prop lookup String.eqb Ascii.eqb Bool.eqb and_then
       Coercion.text Coercion.ToString Coercion.convertible to_string get_opt].
  assert (Hcount : exists t,
            Coercion.ToString (or_else (lookup "message_count" fields) (JInt 0))
            = Ret t).
  { destruct (lookup "message_count" fields) as [v|] eqn:Hk; cbn [or_else].
    - pose proof (row_lookup _ _ _ Hstats Hk) as Hv.
      destruct (truthy v); [|now eexists].
      destruct v; try discriminate Hv; now eexists.
    - now eexists. }
  destruct Hcount as (t & ->). cbn [and_then].
  destruct (truthy userPrefs); eexists; rewrite !append_assoc; reflexivity.
Qed.

Lemma buildKnowledgeLayer_renders userQuery files :
  returns (ContextEngine.buildKnowledgeLayer E user userQuery files)
          (fun l => summary l
                    = (3, if 0 <? List.length files then active else inactive,
                          if 0 <? List.length files then (9 # 10)%Q else (1 # 10)%Q)
                    /\ appends AIService.knowledgeSection l
                    /\ (database_gives_rows E user files ->
                        appends_files E user files l)).
Proof.
  unfold ContextEngine.buildKnowledgeLayer, ContextEngine.retrieveRelevantDocuments,
    ContextEngine.getDomainExpertise, ContextEngine.getLastIndexUpdate.
  eapply returns_bind; [apply (returns_ret (@nil json) (fun d => d = [])); reflexivity|].
  intros docs ->.
  eapply returns_bind; [apply getFileContext_rows | intros fileContext Hfc].
  eapply returns_bind; [apply returns_ret with (P := fun _ => True); exact I | intros ? _].
  eapply returns_bind; [apply getTotalDocumentCount_returns | intros total _].
  eapply returns_bind; [apply returns_clock | intros stamp _].
  apply returns_ret. split; [reflexivity|]. split.
  - intros prompt. unfold AIService.knowledgeSection, AIService.data_of.
    cbn [ContextLayer.data get prop lookup String.eqb Ascii.eqb Bool.eqb and_then].
    rewrite nonempty_array. exists EmptyString. now rewrite append_empty_r.
  - intros Hrows prompt. destruct Hfc as [Hfc Hsame]. specialize (Hfc Hrows).
    unfold AIService.fileSection, AIService.data_of.
    cbn [ContextLayer.data get prop lookup String.eqb Ascii.eqb Bool.eqb and_then].
    rewrite nonempty_array. cbn [and_then].
    destruct (Nat.ltb_spec 0 (List.length fileContext)) as [Hsome | Hnone].
    2:{ exists EmptyString. rewrite append_empty_r. split; [reflexivity|].
        intros rows Hfiles Hdb Hlen. rewrite (Hsame rows Hfiles Hdb) in Hnone. lia. }
    unfold AIService.forEach.
    match goal with
    | |- context [AIService.each ?f 0 fileContext ?q] =>
        destruct (each_appends f fileContext) with (index := 0) (prompt := q)
          as (lines & ->)
    end.
    2:{ cbn [and_then]. eexists. rewrite !append_assoc. split; [reflexivity|].
        intros. reflexivity. }
    intros index file Hfile.
    assert (Hrow : row file = true)
      by (rewrite forallb_forall in Hfc; now apply Hfc).
    destruct file as [| | | | |fields]; try discriminate Hrow.
    cbn [get prop row and_then] in *.
    destruct (row_text fields "filename" Hrow) as (f & ->). cbn [and_then].
    destruct (row_text fields "file_type" Hrow) as (t & ->). cbn [and_then].
    destruct (truthy_opt (lookup "extracted_content" fields)); [|reflexivity].
    destruct (row_text fields "extracted_content" Hrow) as (c & ->).
    reflexivity.
Qed.

Lemma buildMemoryLayer_renders userQuery :
  returns (ContextEngine.buildMemoryLayer userQuery)
          (fun l => summary l = (5, active, (7 # 10)%Q)
                    /\ appends AIService.memorySection l).
Proof.
  computes. split; [reflexivity|].
  intros prompt. exists EmptyString. now rewrite append_empty_r.
Qed.

Lemma buildConstraintsLayer_quality :
  returns ContextEngine.buildConstraintsLayer
          (fun l => summary l = (9, active, (5 # 10)%Q)
                    /\ prop (ContextLayer.data l) "quality"
                       = Some (JObj [("minConfidenceThreshold", JNum 7 1);
                                     ("factualAccuracy", JBool true);
                                     ("citationRequired", JBool true);
                                     ("biasDetection", JBool true)])).
Proof. computes. split; reflexivity. Qed.

Lemma buildOutputFormatLayer_renders userQuery :
  returns (ContextEngine.buildOutputFormatLayer userQuery)
          (fun l => summary l = (10, active, (6 # 10)%Q)
                    /\ appends AIService.outputFormatSection l
                    /\ prop (ContextLayer.data l) "preferredFormat"
                       = Some (JStr (ContextEngine.detectPreferredFormat userQuery))
                    /\ prop (ContextLayer.data l) "supportedFormats"
                       = Some (ContextEngine.strings supportedFormats)).
Proof.
  computes. split; [reflexivity|]. split; [|split; reflexivity].
  intros prompt. eexists. reflexivity.
Qed.

Lemma buildUserQueryLayer_renders userQuery :
  returns (ContextEngine.buildUserQueryLayer E userQuery)
          (fun l => summary l = (11, active, 1%Q)
                    /\ appends AIService.userQuerySection l
                    /\ prop (ContextLayer.data l) "expectedResponseType"
                       = Some (JStr (ContextEngine.detectPreferredFormat userQuery))
                    /\ prop (ContextLayer.data l) "original" = Some (JStr userQuery)).
Proof.
  computes. split; [reflexivity|]. split; [|split; reflexivity].
  intros prompt. eexists. reflexivity.
Qed.

Lemma buildContextWindow_assembled userQuery files :
  returns (ContextEngine.buildContextWindow E user userQuery files)
          (assembled E user userQuery files).
Proof.
  unfold ContextEngine.buildContextWindow.
  eapply returns_bind; [apply buildInstructionsLayer_renders | intros l1 [H1 R1]].
  eapply returns_bind; [apply (buildUserInfoLayer_renders files) | intros l2 [H2 R2]].
  eapply returns_bind;
    [apply buildKnowledgeLayer_renders | intros l3 (H3 & R3 & R3')].
  eapply returns_bind; [apply buildTaskGoalState_summary | intros l4 H4].
  eapply returns_bind; [apply buildMemoryLayer_renders | intros l5 [H5 R5]].
  eapply returns_bind; [apply buildToolsLayer_summary | intros l6 H6].
  eapply returns_bind; [apply buildExamplesLayer_summary | intros l7 H7].
  eapply returns_bind; [apply buildContextLayer_summary | intros l8 H8].
  eapply returns_bind; [apply buildConstraintsLayer_quality | intros l9 [H9 Q9]].
  eapply returns_bind;
    [apply buildOutputFormatLayer_renders | intros l10 (H10 & R10 & F10 & S10)].
  eapply returns_bind;
    [apply buildUserQueryLayer_renders | intros l11 (H11 & R11 & F11 & O11)].
  eapply returns_bind; [apply returns_clock | intros lastUpdate _].
  apply returns_ret. unfold assembled.
  exists l1, l2, l3, l4, l5, l6, l7, l8, l9, l10, l11. cbn [app ContextWindow.layers
    ContextWindow.activeLayers ContextWindow.relevanceScore].
  split; [reflexivity|]. split.
  { cbn [map]. rewrite H1, H2, H3, H4, H5, H6, H7, H8, H9, H10, H11. reflexivity. }
  repeat (split; [assumption|]). split; reflexivity.
Qed.

End Rendering.

Section AssembledFacts.

(** The layers of an assembled window, field by field. *)
Lemma expected_fields l i s r :
  summary l = (i, s, r) ->
  exists n d t, l = ContextLayer.mk i n s d t r.
Proof.
  destruct l as [i' n s' d t r']. unfold summary. cbn.
  intros H. injection H as -> -> ->. now exists n, d, t.
Qed.

Lemma summaries_split (l1 l2 l3 l4 l5 l6 l7 l8 l9 l10 l11 : ContextLayer.t) files :
  map summary [l1; l2; l3; l4; l5; l6; l7; l8; l9; l10; l11] = expected_summaries files ->
  summary l1 = (1, active, 1%Q)
  /\ summary l2 = (2, active, (8 # 10)%Q)
  /\ summary l3 = (3, if 0 <? List.length files then active else inactive,
                      if 0 <? List.length files then (9 # 10)%Q else (1 # 10)%Q)
  /\ summary l4 = (4, inactive, (2 # 10)%Q)
  /\ summary l5 = (5, active, (7 # 10)%Q)
  /\ summary l6 = (6, inactive, (3 # 10)%Q)
  /\ summary l7 = (7, inactive, (1 # 10)%Q)
  /\ summary l8 = (8, active, (9 # 10)%Q)
  /\ summary l9 = (9, active, (5 # 10)%Q)
  /\ summary l10 = (10, active, (6 # 10)%Q)
  /\ summary l11 = (11, active, 1%Q).
Proof.
  unfold expected_summaries. cbn [map]. intros Hs.
  apply cons_inv in Hs as (H1 & Hs); apply cons_inv in Hs as (H2 & Hs);
    apply cons_inv in Hs as (H3 & Hs); apply cons_inv in Hs as (H4 & Hs);
    apply cons_inv in Hs as (H5 & Hs); apply cons_inv in Hs as (H6 & Hs);
    apply cons_inv in Hs as (H7 & Hs); apply cons_inv in Hs as (H8 & Hs);
    apply cons_inv in Hs as (H9 & Hs); apply cons_inv in Hs as (H10 & Hs);
    apply cons_inv in Hs as (H11 & _).
  repeat split; assumption.
Qed.

Lemma assembled_activeLayers E user userQuery files cw :
  assembled E user userQuery files cw ->
  ContextWindow.activeLayers cw
  = if 0 <? List.length files
    then [1; 2; 3; 5; 8; 9; 10; 11] else [1; 2; 5; 8; 9; 10; 11].
Proof.
  intros (l1 & l2 & l3 & l4 & l5 & l6 & l7 & l8 & l9 & l10 & l11 & Hl & Hs & H).
  destruct H as (_ & _ & _ & _ & _ & _ & _ & _ & _ & _ & _ & _ & Hact & _).
  apply summaries_split in Hs
    as (H1 & H2 & H3 & H4 & H5 & H6 & H7 & H8 & H9 & H10 & H11).
  apply summary_inv in H1 as (I1 & S1 & _), H2 as (I2 & S2 & _), H3 as (I3 & S3 & _),
    H4 as (I4 & S4 & _), H5 as (I5 & S5 & _), H6 as (I6 & S6 & _),
    H7 as (I7 & S7 & _), H8 as (I8 & S8 & _), H9 as (I9 & S9 & _),
    H10 as (I10 & S10 & _), H11 as (I11 & S11 & _).
  rewrite Hact. unfold is_active. cbn [filter].
  rewrite S1, S2, S3, S4, S5, S6, S7, S8, S9, S10, S11.
  destruct (0 <? List.length files); cbn;
    rewrite ?I1, ?I2, ?I3, ?I5, ?I8, ?I9, ?I10, ?I11; reflexivity.
Qed.

Lemma assembled_relevance E user userQuery files cw :
  assembled E user userQuery files cw ->
  (ContextWindow.relevanceScore cw
   == if 0 <? List.length files then 646 # 1100 else 557 # 1100)%Q.
Proof.
  intros (l1 & l2 & l3 & l4 & l5 & l6 & l7 & l8 & l9 & l10 & l11 & Hl & Hs & H).
  destruct H as (_ & _ & _ & _ & _ & _ & _ & _ & _ & _ & _ & _ & _ & Hrel).
  apply summaries_split in Hs
    as (H1 & H2 & H3 & H4 & H5 & H6 & H7 & H8 & H9 & H10 & H11).
  apply summary_inv in H1 as (_ & S1 & R1), H2 as (_ & S2 & R2), H3 as (_ & S3 & R3),
    H4 as (_ & S4 & R4), H5 as (_ & S5 & R5), H6 as (_ & S6 & R6),
    H7 as (_ & S7 & R7), H8 as (_ & S8 & R8), H9 as (_ & S9 & R9),
    H10 as (_ & S10 & R10), H11 as (_ & S11 & R11).
  rewrite Hrel. unfold ContextEngine.calculateRelevanceScore.
  cbn [fold_left List.length].
  rewrite S1, S2, S3, S4, S5, S6, S7, S8, S9, S10, S11,
    R1, R2, R3, R4, R5, R6, R7, R8, R9, R10, R11.
  destruct (0 <? List.length files); reflexivity.
Qed.

Lemma startsWith_append t u : startsWith (t ++ u) t = true.
Proof.
  induction t as [|c t IH]; [destruct u; reflexivity|].
  cbn [append startsWith]. rewrite Ascii.eqb_refl. exact IH.
Qed.

Lemma startsWith_split s t :
  startsWith s t = true -> exists u, s = t ++ u.
Proof.
  revert s. induction t as [|c t IH]; intros s; [now exists s|].
  destruct s as [|b s]; [discriminate|]. cbn [startsWith].
  intros H. apply andb_prop in H as [Hc Ht]. apply Ascii.eqb_eq in Hc. subst b.
  destruct (IH s Ht) as (u & ->). now exists u.
Qed.

Lemma includes_prefix s t : startsWith s t = true -> includes s t = true.
Proof. destruct s; cbn [includes]; intros ->; reflexivity. Qed.

Lemma includes_append_r p s t : includes s t = true -> includes (p ++ s) t = true.
Proof.
  intros Hs. induction p as [|c p IH]; [exact Hs|].
  cbn [append includes]. rewrite IH. apply orb_true_r.
Qed.

Lemma startsWith_append_l s t u :
  startsWith s t = true -> startsWith (s ++ u) t = true.
Proof.
  intros H. destruct (startsWith_split s t H) as (v & ->).
  rewrite append_assoc. apply startsWith_append.
Qed.

Lemma includes_append_l s t u : includes s t = true -> includes (s ++ u) t = true.
Proof.
  induction s as [|c s IH].
  - cbn [includes]. rewrite orb_false_r. intros H.
    apply includes_prefix. now apply startsWith_append_l.
  - cbn [includes append]. intros H. apply orb_prop in H as [H | H].
    + change (String c (s ++ u)) with (String c s ++ u).
      rewrite (startsWith_append_l _ _ u H). reflexivity.
    + rewrite (IH H). apply orb_true_r.
Qed.

(** One section of the prompt, rewritten to what it appends. *)
Ltac appended R :=
  match goal with
  | |- context [and_then (?section ?p ?l) _] =>
      let suffix := fresh "suffix" in
      destruct (R p) as (suffix & ->); cbn [and_then]
  end.

(** The prompt of an assembled window can be rendered, and it has the
    heading of the attached files when the database has a row for one. *)
Lemma assembled_prompt E user userQuery files cw :
  assembled E user userQuery files cw ->
  database_gives_rows E user files ->
  exists prompt,
    AIService.buildPromptFromContext cw = Ret prompt
    /\ (forall rows,
          0 < List.length files ->
          db_all E (SelectFileContext files (User.id user)) = Some (Some rows) ->
          0 < List.length rows ->
          includes prompt "# File Context" = true).
Proof.
  intros (l1 & l2 & l3 & l4 & l5 & l6 & l7 & l8 & l9 & l10 & l11 & Hl & Hs & H) Hrows.
  destruct H as (R1 & R2 & R3 & R3' & R5 & R10 & R11 & _).
  specialize (R2 Hrows). specialize (R3' Hrows).
  apply summaries_split in Hs
    as (H1 & H2 & H3 & H4 & H5 & H6 & H7 & H8 & H9 & H10 & H11).
  apply expected_fields in H1 as (? & ? & ? & ->), H2 as (? & ? & ? & ->),
    H3 as (? & ? & ? & ->), H4 as (? & ? & ? & ->), H5 as (? & ? & ? & ->),
    H6 as (? & ? & ? & ->), H7 as (? & ? & ? & ->), H8 as (? & ? & ? & ->),
    H9 as (? & ? & ? & ->), H10 as (? & ? & ? & ->), H11 as (? & ? & ? & ->).
  unfold AIService.buildPromptFromContext. rewrite Hl.
  destruct (Nat.ltb_spec 0 (List.length files)) as [Hfiles | Hnone];
    cbn [filter Status_eqb ContextLayer.status AIService.find_layer find
         ContextLayer.id Nat.eqb AIService.when_found].
  - appended R1. appended R2. appended R3.
    match goal with
    | |- context [and_then (AIService.fileSection ?p ?l) _] =>
        destruct (R3' p) as (listing & -> & Hheading); cbn [and_then]
    end.
    appended R5. appended R10. appended R11.
    eexists. split; [reflexivity|].
    intros rows _ Hdb Hlen. specialize (Hheading rows Hfiles Hdb Hlen).
    unfold AIService.constraintsSection.
    repeat first [ apply includes_append_r, includes_prefix; exact Hheading
                 | apply includes_append_l ].
  - appended R1. appended R2. appended R5. appended R10. appended R11.
    eexists. split; [reflexivity|]. intros rows Hfiles. lia.
Qed.

End AssembledFacts.

Section Sending.
Variable E : Env.

Lemma generateResponse_sent cw options name w prompt :
  requested options name ->
  AIService.buildPromptFromContext cw = Ret prompt ->
  map url (sent w (snd (AIService.generateResponse E cw options w)))
  = if startsWith name "gpt-" then [OpenAIChat]
    else if startsWith name "claude-" then [AnthropicMessages]
    else [].
Proof.
  intros Hname Hprompt.
  unfold AIService.generateResponse.
  rewrite (requested_model_of options name Hname).
  unfold bind, try_catch, Date_now, lift, throw, ret.
  cbn [fst snd ticks calls]. rewrite Hprompt.
  destruct (startsWith name "gpt-").
  - destruct (callOpenAI_calls E prompt name options
                (World (S (ticks w)) (calls w))) as (body & Hcalls).
    destruct (AIService.callOpenAI E prompt _ options _) as [[r | e] w1];
      cbn [fst snd ticks calls] in *; subst w1;
      [destruct (AIService.calculateConfidence_of r cw)|];
      cbn [fst snd ticks calls]; rewrite sent_app; reflexivity.
  - destruct (startsWith name "claude-").
    + destruct (callAnthropic_calls E prompt name options
                  (World (S (ticks w)) (calls w))) as (body & Hcalls).
      destruct (AIService.callAnthropic E prompt _ options _) as [[r | e] w1];
        cbn [fst snd ticks calls] in *; subst w1;
        [destruct (AIService.calculateConfidence_of r cw)|];
        cbn [fst snd ticks calls]; rewrite sent_app; reflexivity.
    + cbn. rewrite sent_none. reflexivity.
Qed.

End Sending.

(** X15: buildContextWindow always returns, sends nothing over the network,
    and its summary takes one of two values, whatever the query, the user and
    the database are: active layers [1,2,3,5,8,9,10,11] and relevance 646/1100
    when files are attached, active layers [1,2,5,8,9,10,11] and relevance
    557/1100 when none is; the token count of the window is the sum of the
    token counts of its layers. *)
Theorem assembly_depends_only_on_attachments :
  forall (E : Env) (user : User.t) (userQuery : string) (files : list string)
         (w : world),
  exists cw w',
    ContextEngine.buildContextWindow E user userQuery files w = (Ret cw, w')
    /\ calls w' = calls w
    /\ ContextWindow.activeLayers cw
       = (if 0 <? List.length files
          then [1; 2; 3; 5; 8; 9; 10; 11] else [1; 2; 5; 8; 9; 10; 11])
    /\ (ContextWindow.relevanceScore cw
        == if 0 <? List.length files then 646 # 1100 else 557 # 1100)%Q
    /\ ContextWindow.tokenCount cw
       = fold_right Nat.add 0 (map ContextLayer.tokenCount (ContextWindow.layers cw)).
Proof.
  intros E user userQuery files w.
  destruct (buildContextWindow_assembled E user userQuery files w)
    as (cw & w' & Hrun & Has).
  destruct (buildContextWindow_built E user userQuery files w)
    as (cw2 & w2 & Hrun2 & Hb).
  rewrite Hrun in Hrun2. injection Hrun2 as <- <-.
  exists cw, w'. split; [exact Hrun|].
  split.
  { pose proof (buildContextWindow_silent E user userQuery files w) as Hs.
    rewrite Hrun in Hs. exact Hs. }
  split; [eapply assembled_activeLayers; eassumption|].
  split; [eapply assembled_relevance; eassumption|].
  apply Hb.
Qed.

(** X16: in every window, the preferredFormat of the Output Format layer and
    the expectedResponseType of the User Query layer are the same detected
    format, which is one of the supportedFormats the layer lists and is never
    json. *)
Theorem detected_format_is_shared_and_supported :
  forall (E : Env) (user : User.t) (userQuery : string) (files : list string)
         (w : world),
  exists cw w' outputFormat query format,
    ContextEngine.buildContextWindow E user userQuery files w = (Ret cw, w')
    /\ nth_error (ContextWindow.layers cw) 9 = Some outputFormat
    /\ nth_error (ContextWindow.layers cw) 10 = Some query
    /\ prop (ContextLayer.data outputFormat) "preferredFormat" = Some (JStr format)
    /\ prop (ContextLayer.data query) "expectedResponseType" = Some (JStr format)
    /\ prop (ContextLayer.data outputFormat) "supportedFormats"
       = Some (ContextEngine.strings supportedFormats)
    /\ In format supportedFormats
    /\ format <> "json".
Proof.
  intros E user userQuery files w.
  destruct (buildContextWindow_assembled E user userQuery files w)
    as (cw & w' & Hrun & Has).
  destruct Has as (l1 & l2 & l3 & l4 & l5 & l6 & l7 & l8 & l9 & l10 & l11 & Hl & _ & H).
  destruct H as (_ & _ & _ & _ & _ & _ & _ & _ & F10 & S10 & F11 & _).
  exists cw, w', l10, l11, (ContextEngine.detectPreferredFormat userQuery).
  rewrite Hl. repeat (split; [first [assumption | reflexivity]|]).
  unfold ContextEngine.detectPreferredFormat, supportedFormats.
  destruct (includes userQuery "code" || includes userQuery "example");
    [split; [cbn; tauto | discriminate]|].
  destruct (includes userQuery "list" || includes userQuery "bullet");
    [split; [cbn; tauto | discriminate]|].
  destruct (includes userQuery "explain" || includes userQuery "how");
    split; try (cbn; tauto); discriminate.
Qed.

(** X17: provided the database returns rows of column values for the
    session statistics and the attached files, the prompt of the window that
    buildContextWindow builds can always be rendered (no section reads a
    property of undefined or null, no conversion to a string fails); it has
    the heading "# File Context" as soon as files are attached and the
    database has a row for one of them; and generateResponse on that window
    sends exactly one request, to OpenAI when the model name asked for begins
    with gpt- and to Anthropic when it begins with claude-, and none for any
    other name. *)
Theorem assembled_window_renders_and_sends_once :
  forall (E : Env) (user : User.t) (userQuery : string) (files : list string)
         (options : AIService.AIOptions) (name : string) (w : world),
    database_gives_rows E user files ->
    requested options name ->
    exists cw w' prompt,
      ContextEngine.buildContextWindow E user userQuery files w = (Ret cw, w')
      /\ AIService.buildPromptFromContext cw = Ret prompt
      /\ (forall rows,
            0 < List.length files ->
            db_all E (SelectFileContext files (User.id user)) = Some (Some rows) ->
            0 < List.length rows ->
            includes prompt "# File Context" = true)
      /\ map url (sent w (snd (AIService.generateResponse E cw options w')))
         = if startsWith name "gpt-" then [OpenAIChat]
           else if startsWith name "claude-" then [AnthropicMessages]
           else [].
Proof.
  intros E user userQuery files options name w Hrows Hname.
  destruct (buildContextWindow_assembled E user userQuery files w)
    as (cw & w' & Hrun & Has).
  destruct (assembled_prompt _ _ _ _ _ Has Hrows) as (prompt & Hprompt & Hheading).
  exists cw, w', prompt. split; [exact Hrun|]. split; [exact Hprompt|].
  split; [exact Hheading|].
  pose proof (buildContextWindow_silent E user userQuery files w) as Hs.
  rewrite Hrun in Hs. cbn [snd] in Hs.
  unfold sent. rewrite <- Hs.
  apply (generateResponse_sent E cw options name w' prompt Hname Hprompt).
Qed.

Lemma assembled_window_renders_and_sends_once_witness :
  database_gives_rows attachment_env anonymous ["f1"]
  /\ requested (with_model "claude-3-opus") "claude-3-opus"
  /\ exists cw w' prompt,
       ContextEngine.buildContextWindow attachment_env anonymous "summarize this"
         ["f1"] initial = (Ret cw, w')
       /\ AIService.buildPromptFromContext cw = Ret prompt
       /\ includes prompt "# File Context" = true
       /\ map url (sent initial
                     (snd (AIService.generateResponse attachment_env cw
                             (with_model "claude-3-opus") w')))
          = [AnthropicMessages].
Proof.
  assert (Hrows : database_gives_rows attachment_env anonymous ["f1"]).
  { split.
    - intros stats Hdb. injection Hdb as <-. right. reflexivity.
    - intros rows Hdb. injection Hdb as <-. reflexivity. }
  assert (Hname : requested (with_model "claude-3-opus") "claude-3-opus").
  { left. split; [reflexivity | discriminate]. }
  split; [exact Hrows|]. split; [exact Hname|].
  destruct (assembled_window_renders_and_sends_once attachment_env anonymous
              "summarize this" ["f1"] (with_model "claude-3-opus") "claude-3-opus"
              initial Hrows Hname)
    as (cw & w' & prompt & Hrun & Hprompt & Hheading & Hsent).
  exists cw, w', prompt. split; [exact Hrun|]. split; [exact Hprompt|].
  split; [|exact Hsent].
  apply (Hheading _ (le_n 1) eq_refl). apply le_n.
Defined.

(** X18: for the window that buildContextWindow builds and any response, the
    confidence lies between 0.779 and 1, hence above the
    minConfidenceThreshold 0.7 that the Constraints layer of the same window
    states. *)
Theorem confidence_of_assembled_window_exceeds_threshold :
  forall (E : Env) (user : User.t) (userQuery : string) (files : list string)
         (w : world) (response : AIService.AIResponse),
  exists cw w' constraints quality,
    ContextEngine.buildContextWindow E user userQuery files w = (Ret cw, w')
    /\ nth_error (ContextWindow.layers cw) 8 = Some constraints
    /\ prop (ContextLayer.data constraints) "quality" = Some quality
    /\ prop quality "minConfidenceThreshold" = Some (JNum 7 1)
    /\ (7 # 10 < 779 # 1000)%Q
    /\ (779 # 1000 <= AIService.calculateConfidence response cw)%Q
    /\ (AIService.calculateConfidence response cw <= 1)%Q.
Proof.
  intros E user userQuery files w response.
  destruct (buildContextWindow_assembled E user userQuery files w)
    as (cw & w' & Hrun & Has).
  pose proof (assembled_activeLayers _ _ _ _ _ Has) as Hact.
  pose proof (assembled_relevance _ _ _ _ _ Has) as Hrel.
  destruct Has as (l1 & l2 & l3 & l4 & l5 & l6 & l7 & l8 & l9 & l10 & l11 & Hl & _ & H).
  destruct H as (_ & _ & _ & _ & _ & _ & _ & Q9 & _).
  exists cw, w', l9. eexists. rewrite Hl.
  split; [exact Hrun|]. split; [reflexivity|]. split; [exact Q9|].
  split; [reflexivity|]. split; [reflexivity|].
  rewrite calculateConfidence_terms.
  pose proof (length_bonus_nonneg response) as Hlen.
  pose proof (model_bonus_nonneg response) as Hmod.
  split; [|apply Q.le_min_r].
  apply Q.min_glb; [|lra].
  unfold base_term, relevance_term, active_fraction_term. rewrite Hact.
  destruct (0 <? List.length files); cbn [List.length]; cbv iota in Hrel;
    unfold Qdiv;
    [ change (inject_Z (Z.of_nat 8)) with 8%Q;
      setoid_replace (8 * / 11)%Q with (8 # 11)%Q by reflexivity
    | change (inject_Z (Z.of_nat 7)) with 7%Q;
      setoid_replace (7 * / 11)%Q with (7 # 11)%Q by reflexivity ]; lra.
Qed.



Section Preferences.
Variable E : Env.
Variable user : User.t.

Lemma getUserPreferences_unreadable :
  preferences_unreadable E user ->
  returns (ContextEngine.getUserPreferences E user) (fun p => p = JObj []).
Proof.
  unfold preferences_unreadable, ContextEngine.getUserPreferences.
  intros Hun w. unfold try_catch, bind, first.
  destruct (db_first E (SelectPreferences (User.id user))) as [row|];
    [|eexists _, _; split; reflexivity].
  cbn. destruct Hun as [Hfalsy | Hparse].
  - rewrite Hfalsy. eexists _, _; split; reflexivity.
  - destruct (truthy_opt (get_opt row "preferences"));
      [|eexists _, _; split; reflexivity].
    unfold parse. rewrite Hparse. eexists _, _; split; reflexivity.
Qed.

End Preferences.

(** X20: when the stored preferences cannot be read (the statement fails or
    finds no row, the row has no truthy preferences, or they do not parse),
    the User Info layer is still built and active, with preferences {} and the
    personalization balanced, medium and [text]. *)
Theorem unreadable_preferences_give_default_personalization :
  forall (E : Env) (user : User.t) (w : world),
    preferences_unreadable E user ->
    exists l w',
      ContextEngine.buildUserInfoLayer E user w = (Ret l, w')
      /\ ContextLayer.status l = active
      /\ prop (ContextLayer.data l) "preferences" = Some (JObj [])
      /\ prop (ContextLayer.data l) "personalization"
         = Some (JObj [("responseStyle", JStr "balanced");
                       ("detailLevel", JStr "medium");
                       ("preferredFormats", JArr [JStr "text"])]).
Proof.
  intros E user w Hun.
  assert (H : returns (ContextEngine.buildUserInfoLayer E user)
                (fun l => ContextLayer.status l = active
                          /\ prop (ContextLayer.data l) "preferences" = Some (JObj [])
                          /\ prop (ContextLayer.data l) "personalization"
                             = Some (JObj [("responseStyle", JStr "balanced");
                                           ("detailLevel", JStr "medium");
                                           ("preferredFormats", JArr [JStr "text"])]))).
  { unfold ContextEngine.buildUserInfoLayer.
    eapply returns_bind; [apply getUserPreferences_unreadable; exact Hun|].
    intros userPrefs ->.
    eapply returns_bind; [apply getSessionStats_returns | intros sessionStats _].
    eapply returns_bind; [apply getRecentInteractions_returns | intros history _].
    apply returns_ret. repeat split. }
  destruct (H w) as (l & w' & Hrun & Hl). now exists l, w'.
Qed.

Lemma unreadable_preferences_give_default_personalization_witness :
  preferences_unreadable failing_env anonymous
  /\ exists l w',
       ContextEngine.buildUserInfoLayer failing_env anonymous initial = (Ret l, w')
       /\ ContextLayer.status l = active
       /\ prop (ContextLayer.data l) "preferences" = Some (JObj [])
       /\ prop (ContextLayer.data l) "personalization"
          = Some (JObj [("responseStyle", JStr "balanced");
                        ("detailLevel", JStr "medium");
                        ("preferredFormats", JArr [JStr "text"])]).
Proof.
  assert (H : preferences_unreadable failing_env anonymous) by exact I.
  split; [exact H|].
  apply (unreadable_preferences_give_default_personalization failing_env anonymous
           initial H).
Defined.

Import MultiModalProcessor Chunks.

Section Chunking.

Lemma length_trimStart_le s : String.length (trimStart s) <= String.length s.
Proof.
  induction s as [|c s IH]; cbn; [lia|].
  destruct (is_space c); cbn; lia.
Qed.

Lemma length_trimEnd_le s : String.length (trimEnd s) <= String.length s.
Proof.
  induction s as [|c s IH]; cbn; [lia|].
  destruct (trimEnd s) as [|d r]; [destruct (is_space c)|]; cbn in *; lia.
Qed.

Lemma length_trim_le s : String.length (trim s) <= String.length s.
Proof.
  unfold trim.
  pose proof (length_trimEnd_le (trimStart s)).
  pose proof (length_trimStart_le s). lia.
Qed.


Lemma trimStart_starts_plain s : starts_plain (trimStart s).
Proof.
  induction s as [|c s IH]; cbn; [exact I|].
  destruct (is_space c) eqn:Hc; [exact IH | exact Hc].
Qed.

Lemma trimEnd_starts_plain s : starts_plain s -> starts_plain (trimEnd s).
Proof.
  destruct s as [|c s]; cbn; [trivial|]. intros Hc.
  destruct (trimEnd s); [rewrite Hc|]; exact Hc.
Qed.

Lemma trim_starts_plain s : starts_plain (trim s).
Proof. apply trimEnd_starts_plain, trimStart_starts_plain. Qed.

Lemma trimStart_plain s : starts_plain s -> trimStart s = s.
Proof. destruct s as [|c s]; cbn; [trivial|]. now intros ->. Qed.

Lemma trimEnd_nonempty c s : is_space c = false -> trimEnd (String c s) <> EmptyString.
Proof.
  intros Hc. cbn. destruct (trimEnd s); [rewrite Hc|]; discriminate.
Qed.

Lemma trim_plain_nonempty s :
  starts_plain s -> s <> EmptyString -> trim s <> EmptyString.
Proof.
  intros Hs Hne. unfold trim. rewrite (trimStart_plain s Hs).
  destruct s as [|c s]; [contradiction|]. now apply trimEnd_nonempty.
Qed.

Lemma length_pos s : (0 <? String.length s) = true <-> s <> EmptyString.
Proof.
  destruct s; cbn; split; intros H; try discriminate; try reflexivity.
  now contradiction H.
Qed.

Lemma length_zero s : (0 <? String.length s) = false <-> s = EmptyString.
Proof.
  destruct s; cbn; split; intros H; try discriminate; reflexivity.
Qed.

Lemma starts_plain_app s t :
  starts_plain s -> s <> EmptyString -> starts_plain (s ++ t).
Proof. destruct s; cbn; [intros _ H; now contradiction H | trivial]. Qed.

Lemma chunk_loop_app maxChunkSize rest :
  forall chunks currentChunk chunkIndex startPosition,
    chunk_loop maxChunkSize rest chunks currentChunk chunkIndex startPosition
    = (chunks
       ++ chunk_loop maxChunkSize rest [] currentChunk chunkIndex startPosition)%list.
Proof.
  induction rest as [|sentence rest IH]; intros chunks cur idx start;
    cbn [chunk_loop].
  - destruct (0 <? String.length (trim cur)); [reflexivity | now rewrite app_nil_r].
  - destruct ((maxChunkSize <? String.length cur + String.length (trim sentence))
              && (0 <? String.length cur)).
    + rewrite IH. rewrite (IH [chunk_of cur idx start]).
      now rewrite <- app_assoc.
    + apply IH.
Qed.

Lemma chunk_of_laid_out cur idx start rest :
  laid_out (start + String.length cur) (S idx) rest ->
  laid_out start idx (chunk_of cur idx start :: rest).
Proof.
  intros Hrest. cbn. repeat split; try lia; [|exact Hrest].
  pose proof (length_trim_le cur). lia.
Qed.

Lemma chunk_loop_laid_out maxChunkSize rest :
  forall currentChunk chunkIndex startPosition,
    laid_out startPosition chunkIndex
      (chunk_loop maxChunkSize rest [] currentChunk chunkIndex startPosition).
Proof.
  induction rest as [|sentence rest IH]; intros cur idx start; cbn [chunk_loop].
  - destruct (0 <? String.length (trim cur)); [|exact I]. cbn [app].
    apply chunk_of_laid_out. exact I.
  - destruct ((maxChunkSize <? String.length cur + String.length (trim sentence))
              && (0 <? String.length cur)).
    + rewrite chunk_loop_app. cbn [app].
      apply chunk_of_laid_out. replace (idx + 1) with (S idx) by lia. apply IH.
    + apply IH.
Qed.

Lemma sentences_nonblank text :
  Forall (fun s => trim s <> EmptyString) (sentences text).
Proof.
  unfold sentences. apply Forall_forall. intros s Hs.
  apply filter_In in Hs. destruct Hs as [_ Hs]. now apply length_pos.
Qed.

(** The loop keeps [currentChunk] empty or starting with a character that
    is no white space, so that no chunk it pushes is blank. *)
Lemma chunk_loop_nonblank maxChunkSize rest :
  Forall (fun s => trim s <> EmptyString) rest ->
  forall currentChunk chunkIndex startPosition,
    starts_plain currentChunk ->
    Forall (fun c => Embeddings.chunk_text c <> EmptyString)
      (chunk_loop maxChunkSize rest [] currentChunk chunkIndex startPosition).
Proof.
  induction rest as [|sentence rest IH]; intros Hall cur idx start Hcur;
    cbn [chunk_loop].
  - destruct (0 <? String.length (trim cur)) eqn:Hlen; [|constructor].
    constructor; [|constructor]. cbn. now apply length_pos.
  - inversion Hall as [|? ? Hs Hrest]; subst.
    destruct (maxChunkSize <? String.length cur + String.length (trim sentence));
      cbn [andb].
    + destruct (0 <? String.length cur) eqn:Hlen.
      * rewrite chunk_loop_app. cbn [app]. constructor.
        -- cbn. apply trim_plain_nonempty; [exact Hcur | now apply length_pos].
        -- apply IH; [exact Hrest | apply trim_starts_plain].
      * apply length_zero in Hlen. subst cur. cbn.
        apply IH; [exact Hrest | apply trim_starts_plain].
    + destruct (0 <? String.length cur) eqn:Hlen.
      * apply IH; [exact Hrest|].
        apply starts_plain_app; [exact Hcur | now apply length_pos].
      * apply length_zero in Hlen. subst cur. cbn.
        apply IH; [exact Hrest | apply trim_starts_plain].
Qed.

Lemma chunk_loop_nonempty maxChunkSize rest :
  Forall (fun s => trim s <> EmptyString) rest ->
  forall currentChunk chunkIndex startPosition,
    starts_plain currentChunk ->
    (rest <> [] \/ currentChunk <> EmptyString) ->
    chunk_loop maxChunkSize rest [] currentChunk chunkIndex startPosition <> [].
Proof.
  induction rest as [|sentence rest IH]; intros Hall cur idx start Hcur Hne;
    cbn [chunk_loop].
  - destruct Hne as [Hne | Hne]; [now contradiction Hne|].
    pose proof (trim_plain_nonempty cur Hcur Hne) as Ht.
    apply length_pos in Ht. rewrite Ht. discriminate.
  - inversion Hall as [|? ? Hs Hrest]; subst.
    destruct ((maxChunkSize <? String.length cur + String.length (trim sentence))
              && (0 <? String.length cur)).
    + rewrite chunk_loop_app. discriminate.
    + apply IH; [exact Hrest | |].
      * destruct (0 <? String.length cur) eqn:Hlen.
        -- apply starts_plain_app; [exact Hcur | now apply length_pos].
        -- apply length_zero in Hlen. subst cur. cbn. apply trim_starts_plain.
      * right. intros Heq.
        assert (Hl : String.length
                       (cur ++ (if 0 <? String.length cur then ". " else EmptyString)
                            ++ trim sentence) = 0) by now rewrite Heq.
        rewrite !length_append in Hl.
        destruct (trim sentence); [now contradiction Hs | cbn in Hl; lia].
Qed.

(** With sentences no longer than the limit, [currentChunk] never grows
    beyond the limit and one separator. *)
Lemma chunk_loop_span maxChunkSize rest :
  Forall (fun s => String.length (trim s) <= maxChunkSize) rest ->
  forall currentChunk chunkIndex startPosition,
    String.length currentChunk <= maxChunkSize + 2 ->
    Forall (fun c => span c <= maxChunkSize + 2)
      (chunk_loop maxChunkSize rest [] currentChunk chunkIndex startPosition).
Proof.
  induction rest as [|sentence rest IH]; intros Hall cur idx start Hcur;
    cbn [chunk_loop].
  - destruct (0 <? String.length (trim cur)); [|constructor].
    constructor; [|constructor]. unfold span. cbn. lia.
  - inversion Hall as [|? ? Hs Hrest]; subst.
    destruct (maxChunkSize <? String.length cur + String.length (trim sentence))
      eqn:Hover; cbn [andb].
    + destruct (0 <? String.length cur) eqn:Hlen.
      * rewrite chunk_loop_app. cbn [app]. constructor.
        -- unfold span. cbn. lia.
        -- apply IH; [exact Hrest | lia].
      * apply length_zero in Hlen. subst cur. cbn.
        apply IH; [exact Hrest | lia].
    + apply Nat.ltb_ge in Hover.
      apply IH; [exact Hrest|]. rewrite !length_append.
      destruct (0 <? String.length cur); cbn; lia.
Qed.

End Chunking.

(** X21: the chunks of a text are numbered 0, 1, 2, ... in order and laid end
    to end from position 0: each chunk starts where the one before it ends, no
    chunk ends before it starts, and the text of a chunk is never longer than
    the span between its two positions. *)
Theorem chunkText_chunks_are_laid_end_to_end :
  forall (text : string) (maxChunkSize : nat),
    laid_out 0 0 (chunkText text maxChunkSize).
Proof. intros. apply chunk_loop_laid_out. Qed.

(** X22: no chunk has an empty text, and chunkText returns no chunk at all
    exactly when every piece between the sentence terminators of the text is
    blank. *)
Theorem chunkText_never_gives_a_blank_chunk :
  forall (text : string) (maxChunkSize : nat),
    Forall (fun c => Embeddings.chunk_text c <> EmptyString)
      (chunkText text maxChunkSize)
    /\ (chunkText text maxChunkSize = [] <-> sentences text = []).
Proof.
  intros text maxChunkSize. split.
  - apply chunk_loop_nonblank; [apply sentences_nonblank | exact I].
  - unfold chunkText. split.
    + intros Hnil. destruct (sentences text) as [|s rest] eqn:Hs; [reflexivity|].
      exfalso. revert Hnil. apply chunk_loop_nonempty.
      * rewrite <- Hs. apply sentences_nonblank.
      * exact I.
      * left. discriminate.
    + intros ->. reflexivity.
Qed.

(** X23: when no sentence of the text is longer than maxChunkSize, no chunk
    spans more than maxChunkSize plus 2, the two characters of one separator. *)
Theorem chunkText_span_is_bounded :
  forall (text : string) (maxChunkSize : nat),
    Forall (fun s => String.length (trim s) <= maxChunkSize) (sentences text) ->
    Forall (fun c => span c <= maxChunkSize + 2) (chunkText text maxChunkSize).
Proof.
  intros text maxChunkSize Hall. apply chunk_loop_span; [exact Hall | cbn; lia].
Qed.

Lemma chunkText_span_is_bounded_witness :
  Forall (fun s => String.length (trim s) <= 12)
    (sentences "First one. Second! Is it third? Yes.")
  /\ Forall (fun c => span c <= 12 + 2)
       (chunkText "First one. Second! Is it third? Yes." 12).
Proof.
  assert (H : Forall (fun s => String.length (trim s) <= 12)
                (sentences "First one. Second! Is it third? Yes.")).
  { assert (Hs : sentences "First one. Second! Is it third? Yes."
                 = ["First one"; " Second"; " Is it third"; " Yes"])
      by (vm_compute; reflexivity).
    rewrite Hs. repeat (apply Forall_cons; [vm_compute; lia|]). apply Forall_nil. }
  split; [exact H|].
  apply (chunkText_span_is_bounded "First one. Second! Is it third? Yes." 12 H).
Defined.

(** X24: maxChunkSize is not a bound on the chunks: two trimmed sentences
    whose lengths add up to maxChunkSize are joined, with the separator, into
    one chunk that spans maxChunkSize plus 2. *)
Theorem chunk_limit_is_exceeded_by_the_separator :
  forall (s1 s2 : string) (maxChunkSize : nat),
    trimmed s1 -> trimmed s2 ->
    String.length s1 + String.length s2 = maxChunkSize ->
    chunk_loop maxChunkSize [s1; s2] [] EmptyString 0 0
    = [chunk_of (s1 ++ ". " ++ s2) 0 0]
    /\ span (chunk_of (s1 ++ ". " ++ s2) 0 0) = maxChunkSize + 2.
Proof.
  intros s1 s2 maxChunkSize [Ht1 Hn1] [Ht2 Hn2] Hsum. split.
  - cbn [chunk_loop]. rewrite Ht1, Ht2.
    change (0 <? String.length EmptyString) with false.
    rewrite andb_false_r. cbn [append].
    assert (Hle : (maxChunkSize <? String.length s1 + String.length s2) = false)
      by (apply Nat.ltb_ge; lia).
    rewrite Hle. cbn [andb].
    apply length_pos in Hn1. rewrite Hn1.
    assert (Hplain : starts_plain (s1 ++ ". " ++ s2)).
    { apply starts_plain_app; [|now apply length_pos].
      rewrite <- Ht1. apply trim_starts_plain. }
    assert (Hne : s1 ++ ". " ++ s2 <> EmptyString).
    { destruct s1; [discriminate Hn1 | discriminate]. }
    pose proof (trim_plain_nonempty _ Hplain Hne) as Htrim.
    apply length_pos in Htrim. rewrite Htrim. reflexivity.
  - unfold span. cbn. rewrite !length_append. cbn. lia.
Qed.

Lemma chunk_limit_is_exceeded_by_the_separator_witness :
  trimmed "alpha" /\ trimmed "beta"
  /\ chunk_loop 9 ["alpha"; "beta"] [] EmptyString 0 0
     = [chunk_of ("alpha" ++ ". " ++ "beta") 0 0]
  /\ span (chunk_of ("alpha" ++ ". " ++ "beta") 0 0) = 9 + 2.
Proof.
  assert (H1 : trimmed "alpha") by (split; [reflexivity | discriminate]).
  assert (H2 : trimmed "beta") by (split; [reflexivity | discriminate]).
  split; [exact H1|]. split; [exact H2|].
  apply (chunk_limit_is_exceeded_by_the_separator "alpha" "beta" 9 H1 H2).
  reflexivity.
Defined.
